(** * cupy_builder.install_build: build-time capability probes

    A shallow embedding of [install/cupy_builder/install_build.py].
    Module-level globals, the objects passed by reference, the file system
    and the warnings printed are components of an explicit [World]; code
    that can raise runs in a state-and-exception monad over it.  External
    collaborators (the compiler object, the spawned processes, the random
    names of [tempfile]) are fields of a [Host] the functions are
    parameterised by. *)

From Stdlib Require Import ZArith Ascii String List Lia Bool.
From stdpp Require Import base option list strings gmap pretty.

Local Open Scope string_scope.
Local Open Scope list_scope.
Local Open Scope Z_scope.

(** ** Python values shared by the whole module *)

(** The exception classes the module raises or catches, and
    [OtherError] for any other class that derives from [Exception]
    without deriving from one of these, which the compiler object or a
    spawned process may raise ([CalledProcessError], ...).
    [UnicodeDecodeError] derives from [ValueError]; the messages are the
    texts [str(e)] gives.  Asynchronous interrupts are not modelled. *)
Inductive exn : Type :=
  | RuntimeError (msg : string)
  | ValueError (msg : string)
  | UnicodeDecodeError (msg : string)
  | KeyError (key : string)
  | IndexError (msg : string)
  | FileExistsError (msg : string)
  | OSError (msg : string)
  | AttributeError (msg : string)
  | AssertionError (msg : string)
  | Exception (msg : string)
  | OtherError (cls msg : string).

(** [except ValueError] *)
Definition is_ValueError (e : exn) : bool :=
  match e with
  | ValueError _ | UnicodeDecodeError _ => true
  | _ => false
  end.

(** The outcome of a Python expression: a value or a raised exception. *)
Inductive result (A : Type) : Type :=
  | Ok (a : A)
  | Raise (e : exn).
Arguments Ok {A} a.
Arguments Raise {A} e.

Global Instance result_ret : MRet result := fun A a => Ok a.
Global Instance result_bind : MBind result := fun A B f r =>
  match r with
  | Ok a => f a
  | Raise e => Raise e
  end.

Definition nl : string := String (ascii_of_nat 10) "".

(** ** Python built-ins on strings and bytes *)

Module Py.

(** ASCII whitespace, as [bytes.split()] and [int()] understand it. *)
Definition is_space (c : ascii) : bool :=
  let n := nat_of_ascii c in
  (n =? 32)%nat || ((9 <=? n)%nat && (n <=? 13)%nat).

Definition is_digit (c : ascii) : bool :=
  let n := nat_of_ascii c in (48 <=? n)%nat && (n <=? 57)%nat.

Definition digit_val (c : ascii) : Z := Z.of_nat (nat_of_ascii c) - 48.

Definition is_empty (s : string) : bool :=
  match s with EmptyString => true | _ => false end.

Fixpoint lstrip (s : string) : string :=
  match s with
  | String c s' => if is_space c then lstrip s' else s
  | EmptyString => EmptyString
  end.

Fixpoint has_char (c : ascii) (s : string) : bool :=
  match s with
  | String c' s' => Ascii.eqb c c' || has_char c s'
  | EmptyString => false
  end.

(** [s[:n]] *)
Fixpoint take (n : nat) (s : string) : string :=
  match n, s with
  | S n', String c s' => String c (take n' s')
  | _, _ => EmptyString
  end.

(** *** [repr] of [bytes] and of [str]

    A [str] is held as its UTF-8 text.  [repr] of a [str] is modelled on
    ASCII text: what lies beyond is copied as it stands, as Python does
    for the printable characters. *)

Definition double_quote : ascii := ascii_of_nat 34.

Definition hex_digit (n : nat) : ascii :=
  ascii_of_nat (if (n <? 10)%nat then 48 + n else 87 + n).

Definition hex2 (c : ascii) : string :=
  let n := nat_of_ascii c in
  String (hex_digit (n / 16)) (String (hex_digit (n mod 16)) EmptyString).

(** The quote [repr] encloses [s] in: a double quote when [s] holds a
    single one and no double one. *)
Definition repr_quote (s : string) : ascii :=
  if has_char "'" s && negb (has_char double_quote s) then double_quote
  else "'"%char.

Definition repr_char (is_bytes : bool) (quote c : ascii) : string :=
  let n := nat_of_ascii c in
  if Ascii.eqb c quote || Ascii.eqb c "\" then String "\" (String c EmptyString)
  else if (n =? 9)%nat then "\t"
  else if (n =? 10)%nat then "\n"
  else if (n =? 13)%nat then "\r"
  else if (n <? 32)%nat || (n =? 127)%nat || (is_bytes && (127 <? n)%nat)
  then "\x" +:+ hex2 c
  else String c EmptyString.

Fixpoint repr_body (is_bytes : bool) (quote : ascii) (s : string) : string :=
  match s with
  | String c s' => repr_char is_bytes quote c +:+ repr_body is_bytes quote s'
  | EmptyString => EmptyString
  end.

(** [repr(s)] for a [str] *)
Definition repr_str (s : string) : string :=
  let quote := repr_quote s in
  String quote (repr_body false quote s) +:+ String quote EmptyString.

(** [repr(s)] for [bytes] *)
Definition repr_bytes (s : string) : string :=
  let quote := repr_quote s in
  String "b" (String quote (repr_body true quote s))
  +:+ String quote EmptyString.

(** *** [int]

    CPython reads an integer literal in this order
    ([PyLong_FromString]): leading whitespace, one sign, the run of
    digits with single underscores between digits, the limit on the
    number of digits, trailing whitespace, the end of the literal. *)

(** [sys.int_info.default_max_str_digits]: the longest run of digits
    [int()] converts, unless the interpreter is told otherwise. *)
Definition MAX_STR_DIGITS : nat := 4300.

(** The run of digits a literal starts with: how many digits, their
    value and what follows the run; [None] for an underscore that is not
    between two digits.  [prev] tells whether the previous character was
    a digit. *)
Fixpoint scan_digits (prev : bool) (count : nat) (acc : Z) (s : string)
  : option (nat * Z * string) :=
  match s with
  | String c s' =>
      if is_digit c then scan_digits true (S count) (10 * acc + digit_val c) s'
      else if Ascii.eqb c "_" then
        match s' with
        | String d _ =>
            if prev && is_digit d then scan_digits false count acc s' else None
        | EmptyString => None
        end
      else Some (count, acc, s)
  | EmptyString => Some (count, acc, s)
  end.

(** The sign of a literal and what follows it. *)
Definition split_sign (s : string) : bool * string :=
  match s with
  | String c r =>
      if Ascii.eqb c "-" then (true, r)
      else if Ascii.eqb c "+" then (false, r)
      else (false, s)
  | EmptyString => (false, s)
  end.

(** The message shows the first 200 characters of the [repr] of the
    argument ([%.200R]). *)
Definition invalid_literal (shown : string) : exn :=
  ValueError ("invalid literal for int() with base 10: " +:+ take 200 shown).

Definition too_many_digits (count : nat) : exn :=
  ValueError
    ("Exceeds the limit (4300 digits) for integer string conversion: "
     +:+ "value has " +:+ pretty count
     +:+ " digits; use sys.set_int_max_str_digits() to increase the limit").

(** [int(s)], base 10, for an argument whose [repr] is [shown]. *)
Definition int_literal (shown : string) (s : string) : result Z :=
  let '(negative, body) := split_sign (lstrip s) in
  match scan_digits false 0 0 body with
  | None => Raise (invalid_literal shown)
  | Some (count, z, rest) =>
      if (MAX_STR_DIGITS <? count)%nat then Raise (too_many_digits count)
      else if (count =? 0)%nat || negb (is_empty (lstrip rest))
      then Raise (invalid_literal shown)
      else Ok (if negative then - z else z)
  end.

(** [int(s)] for [bytes], which is what a probe prints; the message
    shows the [repr] of the first 200 bytes. *)
Definition int (s : string) : result Z :=
  int_literal (repr_bytes (take 200 s)) s.

(** [int(s)] for a [str] of ASCII text: Python also reads the decimal
    digits and the whitespace of other scripts, which the model does
    not. *)
Definition int_str (s : string) : result Z :=
  int_literal (repr_str s) s.

(** *** [bytes.decode('utf8')]

    The decoder of CPython ([utf8_decode]): the text is returned as it
    stands when it is well-formed UTF-8; otherwise the first ill-formed
    sequence is reported by its first position, its last position and a
    reason. *)

Definition is_continuation (c : ascii) : bool :=
  let n := nat_of_ascii c in (128 <=? n)%nat && (n <? 192)%nat.

Definition invalid_start : string := "invalid start byte".
Definition invalid_continuation : string := "invalid continuation byte".
Definition unexpected_end : string := "unexpected end of data".

(** The first ill-formed sequence of [s], which starts at position
    [pos] of the whole text: the offending byte, the positions and the
    reason.  [stop] is the length of the whole text. *)
Fixpoint utf8_error (stop pos : nat) (s : string)
  : option (ascii * nat * nat * string) :=
  match s with
  | EmptyString => None
  | String c r =>
      let n := nat_of_ascii c in
      let bad last reason := Some (c, pos, last, reason) in
      (* the second byte of a sequence that starts with [c] *)
      let second_ok (c2 : ascii) : bool :=
        let n2 := nat_of_ascii c2 in
        is_continuation c2
        && negb ((n =? 224) && (n2 <? 160))%nat
        && negb ((n =? 237) && (160 <=? n2))%nat
        && negb ((n =? 240) && (n2 <? 144))%nat
        && negb ((n =? 244) && (144 <=? n2))%nat in
      if (n <? 128)%nat then utf8_error stop (S pos) r
      else if (n <? 194)%nat || (244 <? n)%nat then bad pos invalid_start
      else if (n <? 224)%nat then
        match r with
        | EmptyString => bad (stop - 1)%nat unexpected_end
        | String c2 r2 =>
            if is_continuation c2 then utf8_error stop (pos + 2) r2
            else bad pos invalid_continuation
        end
      else if (n <? 240)%nat then
        match r with
        | EmptyString => bad (stop - 1)%nat unexpected_end
        | String c2 EmptyString =>
            if second_ok c2 then bad (stop - 1)%nat unexpected_end
            else bad pos invalid_continuation
        | String c2 (String c3 r3) =>
            if negb (second_ok c2) then bad pos invalid_continuation
            else if negb (is_continuation c3)
            then bad (pos + 1)%nat invalid_continuation
            else utf8_error stop (pos + 3) r3
        end
      else
        match r with
        | EmptyString => bad (stop - 1)%nat unexpected_end
        | String c2 EmptyString =>
            if second_ok c2 then bad (stop - 1)%nat unexpected_end
            else bad pos invalid_continuation
        | String c2 (String c3 EmptyString) =>
            if negb (second_ok c2) then bad pos invalid_continuation
            else if negb (is_continuation c3)
            then bad (pos + 1)%nat invalid_continuation
            else bad (stop - 1)%nat unexpected_end
        | String c2 (String c3 (String c4 r4)) =>
            if negb (second_ok c2) then bad pos invalid_continuation
            else if negb (is_continuation c3)
            then bad (pos + 1)%nat invalid_continuation
            else if negb (is_continuation c4)
            then bad (pos + 2)%nat invalid_continuation
            else utf8_error stop (pos + 4) r4
        end
  end.

(** [str(e)] of the [UnicodeDecodeError] *)
Definition decode_error (c : ascii) (first last : nat) (reason : string)
  : exn :=
  UnicodeDecodeError
    (if (first =? last)%nat then
       "'utf-8' codec can't decode byte 0x" +:+ hex2 c +:+ " in position "
       +:+ pretty first +:+ ": " +:+ reason
     else
       "'utf-8' codec can't decode bytes in position " +:+ pretty first
       +:+ "-" +:+ pretty last +:+ ": " +:+ reason).

(** [s.decode('utf8')] *)
Definition decode_utf8 (s : string) : result string :=
  match utf8_error (String.length s) 0 s with
  | None => Ok s
  | Some (c, first, last, reason) => Raise (decode_error c first last reason)
  end.

(** [s.split(sep)] for a one-character separator. *)
Fixpoint split (sep : ascii) (s : string) : list string :=
  match s with
  | EmptyString => [EmptyString]
  | String c s' =>
      if Ascii.eqb c sep then EmptyString :: split sep s'
      else match split sep s' with
           | h :: t => String c h :: t
           | [] => [String c EmptyString]
           end
  end.

(** [s.split()]: the maximal runs of non-whitespace characters. *)
Fixpoint split_ws (s : string) : list string :=
  match s with
  | EmptyString => []
  | String c s' =>
      if is_space c then split_ws s'
      else match s' with
           | EmptyString => [String c EmptyString]
           | String d _ =>
               if is_space d then String c EmptyString :: split_ws s'
               else match split_ws s' with
                    | h :: t => String c h :: t
                    | [] => [String c EmptyString]
                    end
           end
  end.

(** [s[:-1]] *)
Fixpoint drop_last (s : string) : string :=
  match s with
  | EmptyString => EmptyString
  | String c EmptyString => EmptyString
  | String c s' => String c (drop_last s')
  end.

(** [s.startswith(p)] *)
Definition startswith (p s : string) : bool := String.prefix p s.

(** [s[1:]] *)
Definition tail (s : string) : string :=
  match s with
  | EmptyString => EmptyString
  | String _ s' => s'
  end.

(** [l[i]] *)
Definition index {A} (l : list A) (i : nat) : result A :=
  match l !! i with
  | Some a => Ok a
  | None => Raise (IndexError "list index out of range")
  end.

(** [[int(o) for o in l]] *)
Fixpoint ints (l : list string) : result (list Z) :=
  match l with
  | [] => Ok []
  | o :: l' =>
      z ← int o; zs ← ints l'; Ok (z :: zs)
  end.

End Py.

(** [str(e)]; a [KeyError] shows the [repr] of its key. *)
Definition exn_str (e : exn) : string :=
  match e with
  | RuntimeError m | ValueError m | UnicodeDecodeError m | IndexError m
  | FileExistsError m | OSError m | AttributeError m | AssertionError m
  | Exception m | OtherError _ m => m
  | KeyError k => Py.repr_str k
  end.

(** ** The fragment of Python's [re] the module relies on

    Patterns are kept as the source writes them and compiled by [compile];
    the fragment covers literal characters, [\c] escapes of punctuation,
    [.], a starred character, [^], [$] and one level of capturing groups,
    which is all the two patterns of [_get_compiler_base_options] use.
    On an expression outside the fragment [match_] answers [None], which
    is not what [re.match] does there: it is meant for expressions of
    the fragment only.  The matcher itself does not depend on it: it is
    generic in the matching function, exceptions included (see
    [MatchAnswer] below). *)

Module Re.

Inductive atom : Type :=
  | Lit (c : ascii)
  | Dot.

Inductive piece : Type :=
  | One (a : atom)
  | Many (a : atom)   (* greedy [a*] *)
  | Bol               (* [^] *)
  | Eol.              (* [$] *)

Inductive item : Type :=
  | Plain (p : piece)
  | Group (ps : list piece).

Definition regex : Type := list item.

Inductive token : Type :=
  | TAtom (a : atom)
  | TStar
  | TBol
  | TEol
  | TOpen
  | TClose.

Definition is_alnum (c : ascii) : bool :=
  let n := nat_of_ascii c in
  ((48 <=? n) && (n <=? 57) || (65 <=? n) && (n <=? 90)
   || (97 <=? n) && (n <=? 122))%nat.

(** Metacharacters outside the fragment. *)
Definition unsupported (c : ascii) : bool :=
  existsb (Ascii.eqb c) ["+"; "?"; "["; "]"; "{"; "}"; "|"]%char.

Fixpoint lex (esc : bool) (s : string) : option (list token) :=
  match s with
  | EmptyString => if esc then None else Some []
  | String c s' =>
      if esc then
        if is_alnum c then None
        else cons (TAtom (Lit c)) <$> lex false s'
      else if Ascii.eqb c "\" then lex true s'
      else if unsupported c then None
      else
        let t :=
          if Ascii.eqb c "." then TAtom Dot
          else if Ascii.eqb c "*" then TStar
          else if Ascii.eqb c "^" then TBol
          else if Ascii.eqb c "$" then TEol
          else if Ascii.eqb c "(" then TOpen
          else if Ascii.eqb c ")" then TClose
          else TAtom (Lit c) in
        cons t <$> lex false s'
  end.

(** [grp] holds the pieces of the group being read, most recent first;
    [acc] the items read so far, most recent first. *)
Fixpoint parse (ts : list token) (grp : option (list piece)) (acc : regex)
  : option regex :=
  let push p ts' :=
    match grp with
    | Some ps => parse ts' (Some (p :: ps)) acc
    | None => parse ts' None (Plain p :: acc)
    end in
  match ts with
  | [] => match grp with None => Some (rev acc) | Some _ => None end
  | TOpen :: ts' =>
      match grp with None => parse ts' (Some []) acc | Some _ => None end
  | TClose :: ts' =>
      match grp with
      | Some ps => parse ts' None (Group (rev ps) :: acc)
      | None => None
      end
  | TStar :: _ => None
  | TBol :: ts' => push Bol ts'
  | TEol :: ts' => push Eol ts'
  | TAtom a :: TStar :: ts' => push (Many a) ts'
  | TAtom a :: ts' => push (One a) ts'
  end.

(** [re.compile(pattern)]; [None] outside the fragment. *)
Definition compile (pattern : string) : option regex :=
  ts ← lex false pattern; parse ts None [].

Definition atom_ok (a : atom) (c : ascii) : bool :=
  match a with
  | Lit c' => Ascii.eqb c c'
  | Dot => negb (Ascii.eqb c (ascii_of_nat 10))
  end.

(** [$] without [re.MULTILINE]: at the end, or before a final newline. *)
Definition at_end (rest : string) : bool :=
  match rest with
  | EmptyString => true
  | String c EmptyString => Ascii.eqb c (ascii_of_nat 10)
  | _ => false
  end.

Definition snoc (s : string) (c : ascii) : string := s +:+ String c EmptyString.

Section Backtracking.
Context {R : Type}.

(** A continuation receives the position reached, the text consumed
    since the enclosing item started, and the text still to match. *)
Definition cont : Type := nat -> string -> string -> option R.

(** Greedy star: take the longest run first, give characters back when
    the continuation fails. *)
Fixpoint star (a : atom) (pos : nat) (acc rest : string) (k : cont)
  : option R :=
  match rest with
  | String c r =>
      if atom_ok a c then
        match star a (S pos) (snoc acc c) r k with
        | Some x => Some x
        | None => k pos acc rest
        end
      else k pos acc rest
  | EmptyString => k pos acc rest
  end.

Fixpoint match_pieces (ps : list piece) (pos : nat) (acc rest : string)
    (k : cont) : option R :=
  match ps with
  | [] => k pos acc rest
  | One a :: ps' =>
      match rest with
      | String c r =>
          if atom_ok a c then match_pieces ps' (S pos) (snoc acc c) r k
          else None
      | EmptyString => None
      end
  | Many a :: ps' =>
      star a pos acc rest (fun pos' acc' rest' => match_pieces ps' pos' acc' rest' k)
  | Bol :: ps' =>
      if (pos =? 0)%nat then match_pieces ps' pos acc rest k else None
  | Eol :: ps' =>
      if at_end rest then match_pieces ps' pos acc rest k else None
  end.
End Backtracking.

(** A match object: [group(0)] and the numbered groups [group(1)], ... *)
Record match_obj : Type := MatchObj {
  whole : string;
  groups : list string
}.

Fixpoint match_items (its : regex) (pos : nat) (rest : string)
    (seen : string) (gs : list string) : option match_obj :=
  match its with
  | [] => Some (MatchObj seen gs)
  | Plain p :: its' =>
      match_pieces [p] pos EmptyString rest
        (fun pos' acc rest' => match_items its' pos' rest' (seen +:+ acc) gs)
  | Group ps :: its' =>
      match_pieces ps pos EmptyString rest
        (fun pos' acc rest' =>
           match_items its' pos' rest' (seen +:+ acc) (gs ++ [acc]))
  end.

(** [re.match(pattern, s)]: a match anchored at the start of [s]. *)
Definition match_ (pattern : string) (s : string) : option match_obj :=
  r ← compile pattern; match_items r 0 s EmptyString [].

(** [m.group(n)] *)
Definition group (m : match_obj) (n : nat) : result string :=
  match n with
  | O => Ok (whole m)
  | S n' =>
      match groups m !! n' with
      | Some g => Ok g
      | None => Raise (IndexError "no such group")
      end
  end.

End Re.

(** ** The diagnostic matcher, lines 221-240

    Generic in the matching function, as the Python code is in what
    [re.match] accepts. *)

(** What a call of [re.match] comes to: a match object, [None], or an
    exception such as [re.error] for an expression that does not
    compile.  A matching function that cannot raise answers with an
    [option], one that can with a [result]. *)
Class MatchAnswer (MatchObj R : Type) :=
  match_answer : R -> result (option MatchObj).

Global Instance option_answer {MatchObj : Type}
  : MatchAnswer MatchObj (option MatchObj) := Ok.

Global Instance result_answer {MatchObj : Type}
  : MatchAnswer MatchObj (result (option MatchObj)) := fun answer => answer.

Section MatchOutputLines.
Context {Pattern Line MatchObj : Type}.

Section Loops.
Context {R : Type} `{!MatchAnswer MatchObj R}.
Variable re_match : Pattern -> Line -> R.

(** The [for j in range(len(regexs))] loop for one start offset [i].
    The boolean tells whether the loop ran to its [else] branch (no
    [break]); [matches] is the list the Python code updates in place.
    An exception of [re.match] leaves both loops. *)
Fixpoint match_from (output_lines : list Line) (regexs : list Pattern)
    (i : nat) (js : list nat) (matches : list (option MatchObj))
  : result (bool * list (option MatchObj)) :=
  match js with
  | [] => Ok (true, matches)
  | j :: js' =>
      r ← Py.index regexs j;
      l ← Py.index output_lines (i + j);
      m ← match_answer (re_match r l);
      match m with
      | None => Ok (false, matches)
      | Some m => match_from output_lines regexs i js' (<[j := Some m]> matches)
      end
  end.

(** The [for i in range(...)] loop. *)
Fixpoint scan_offsets (output_lines : list Line) (regexs : list Pattern)
    (offsets : list nat) (matches : list (option MatchObj))
  : result (option (list (option MatchObj))) :=
  match offsets with
  | [] => Ok None
  | i :: offsets' =>
      '(found, matches') ←
        match_from output_lines regexs i (seq 0 (length regexs)) matches;
      if (found : bool) then Ok (Some matches')
      else scan_offsets output_lines regexs offsets' matches'
  end.

Definition _match_output_lines (output_lines : list Line)
    (regexs : list Pattern) : result (option (list (option MatchObj))) :=
  if (length output_lines <? length regexs)%nat then Ok None
  else
    let matches := replicate (length regexs) None in
    scan_offsets output_lines regexs
      (seq 0 (length output_lines - length regexs)) matches.

End Loops.

(** What a matching function that can raise answers where it does
    not. *)
Definition answers (re_match : Pattern -> Line -> result (option MatchObj))
    (r : Pattern) (l : Line) : option MatchObj :=
  match re_match r l with
  | Ok m => m
  | Raise _ => None
  end.

Variable re_match : Pattern -> Line -> option MatchObj.

(** What a window of consecutive lines starting at [start] matches to:
    the match object of every expression against its line, if all of
    them match and the window fits in the lines. *)
Fixpoint window_matches (regexs : list Pattern) (window : list Line)
  : option (list MatchObj) :=
  match regexs, window with
  | [], _ => Some []
  | r :: regexs', l :: window' =>
      m ← re_match r l; ms ← window_matches regexs' window'; Some (m :: ms)
  | _ :: _, [] => None
  end.

(** The list the matcher returns for a matching window. *)
Definition returned (ms : list MatchObj) : list (option MatchObj) :=
  Some <$> ms.

Definition window_at (output_lines : list Line) (regexs : list Pattern)
    (start : nat) : option (list MatchObj) :=
  window_matches regexs (drop start output_lines).

(** The first offset among [offsets] whose window matches. *)
Fixpoint first_window (output_lines : list Line) (regexs : list Pattern)
    (offsets : list nat) : option (list MatchObj) :=
  match offsets with
  | [] => None
  | i :: offsets' =>
      match window_at output_lines regexs i with
      | Some ms => Some ms
      | None => first_window output_lines regexs offsets'
      end
  end.

(** The valid start offsets of the contract: [0] through
    [len(lines) - len(regexs)] inclusive, none when the expressions
    outnumber the lines. *)
Definition valid_offsets (output_lines : list Line) (regexs : list Pattern)
  : list nat :=
  if (length output_lines <? length regexs)%nat then []
  else seq 0 (S (length output_lines - length regexs)).

End MatchOutputLines.

(** ** The world the module runs in *)

(** Values that are a [str] in one place and an [int] in another. *)
Inductive pyval : Type :=
  | VStr (s : string)
  | VInt (z : Z).

(** The settings dictionary built by [get_compiler_setting], lines
    212-218. *)
Record Settings : Type := mkSettings {
  include_dirs : list string;
  library_dirs : list string;
  define_macros : list (string * pyval);
  language : string;
  extra_compile_args : list string
}.

(** [settings['define_macros'].append(macro)] *)
Definition append_macro (macro : string * pyval) (s : Settings) : Settings :=
  {| include_dirs := include_dirs s;
     library_dirs := library_dirs s;
     define_macros := define_macros s ++ [macro];
     language := language s;
     extra_compile_args := extra_compile_args s |}.

(** The C programs the probes compile, named after the check that embeds
    them; the compiler and the spawned binary are the only readers of
    their text. *)
Inductive probe_source : Type :=
  | hip_version_src            (* lines 308-315 *)
  | compute_capabilities_src   (* lines 347-362 *)
  | thrust_version_src         (* lines 384-392 *)
  | cudnn_version_src          (* lines 416-423 *)
  | nccl_version_src           (* lines 458-477 *)
  | cub_version_src            (* lines 521-536 *)
  | cutensor_version_src       (* lines 640-655 *)
  | cusparselt_version_src.    (* lines 684-694 *)

Inductive content : Type :=
  | Directory
  | ProbeText (src : probe_source)
  | Text (s : string)
  | Binary (blob : string).

(** What the module does to the machine, in the order it does it:
    [tempfile.mkdtemp()] that returned [d], [open(p, 'w')],
    [compiler.compile(..., output_dir=...)], a link step with its output
    name, [subprocess.check_output(path)], [subprocess.Popen(argv)] and
    [shutil.rmtree(d)]. *)
Inductive fs_event : Type :=
  | Mkdtemp (d : string)
  | Wrote (p : string)
  | Compiled (output_dir : string)
  | Linked (output_name : string)
  | Ran (path : string)
  | Spawned (argv : list string)
  | Rmtree (d : string).

(** The module-level caches of the checks, lines 292-302.  [_cub_path]
    and [_jitify_path], which only [get_compiler_setting] writes, are
    left out. *)
Record Globals : Type := mkGlobals {
  _hip_version : option Z;
  _thrust_version : option Z;
  _cudnn_version : option Z;
  _nccl_version : option Z;
  _cutensor_version : option Z;
  _cub_version : option Z;
  _jitify_version : option pyval;
  _compute_capabilities : option (gset Z);
  _cusparselt_version : option Z
}.

(** The state of the module right after import: every cache is [None]. *)
Definition initial_globals : Globals :=
  mkGlobals None None None None None None None None None.

Definition set_hip_version (v : Z) (g : Globals) : Globals :=
  mkGlobals (Some v) (_thrust_version g) (_cudnn_version g) (_nccl_version g)
    (_cutensor_version g) (_cub_version g) (_jitify_version g)
    (_compute_capabilities g) (_cusparselt_version g).

Definition set_thrust_version (v : Z) (g : Globals) : Globals :=
  mkGlobals (_hip_version g) (Some v) (_cudnn_version g) (_nccl_version g)
    (_cutensor_version g) (_cub_version g) (_jitify_version g)
    (_compute_capabilities g) (_cusparselt_version g).

Definition set_cudnn_version (v : Z) (g : Globals) : Globals :=
  mkGlobals (_hip_version g) (_thrust_version g) (Some v) (_nccl_version g)
    (_cutensor_version g) (_cub_version g) (_jitify_version g)
    (_compute_capabilities g) (_cusparselt_version g).

Definition set_nccl_version (v : Z) (g : Globals) : Globals :=
  mkGlobals (_hip_version g) (_thrust_version g) (_cudnn_version g) (Some v)
    (_cutensor_version g) (_cub_version g) (_jitify_version g)
    (_compute_capabilities g) (_cusparselt_version g).

Definition set_cutensor_version (v : Z) (g : Globals) : Globals :=
  mkGlobals (_hip_version g) (_thrust_version g) (_cudnn_version g)
    (_nccl_version g) (Some v) (_cub_version g) (_jitify_version g)
    (_compute_capabilities g) (_cusparselt_version g).

Definition set_cub_version (v : Z) (g : Globals) : Globals :=
  mkGlobals (_hip_version g) (_thrust_version g) (_cudnn_version g)
    (_nccl_version g) (_cutensor_version g) (Some v) (_jitify_version g)
    (_compute_capabilities g) (_cusparselt_version g).

Definition set_jitify_version (v : pyval) (g : Globals) : Globals :=
  mkGlobals (_hip_version g) (_thrust_version g) (_cudnn_version g)
    (_nccl_version g) (_cutensor_version g) (_cub_version g) (Some v)
    (_compute_capabilities g) (_cusparselt_version g).

Definition set_compute_capabilities (v : gset Z) (g : Globals) : Globals :=
  mkGlobals (_hip_version g) (_thrust_version g) (_cudnn_version g)
    (_nccl_version g) (_cutensor_version g) (_cub_version g)
    (_jitify_version g) (Some v) (_cusparselt_version g).

Definition set_cusparselt_version (v : Z) (g : Globals) : Globals :=
  mkGlobals (_hip_version g) (_thrust_version g) (_cudnn_version g)
    (_nccl_version g) (_cutensor_version g) (_cub_version g)
    (_jitify_version g) (_compute_capabilities g) (Some v).

(** - [globals]: the module's caches;
    - [heap]: the settings dictionaries, by object identity, so that a
      check and its caller see the same object;
    - [fs]: the paths that exist, with what they hold;
    - [fs_trace]: the operations performed on the machine, oldest first;
    - [tmp_seq]: how many random names [tempfile] has drawn;
    - [warnings]: the calls of [utils.print_warning], oldest first. *)
Record World : Type := mkWorld {
  globals : Globals;
  heap : gmap nat Settings;
  fs : gmap string content;
  fs_trace : list fs_event;
  tmp_seq : nat;
  warnings : list (list string)
}.

Definition upd_globals (f : Globals -> Globals) (w : World) : World :=
  mkWorld (f (globals w)) (heap w) (fs w) (fs_trace w) (tmp_seq w) (warnings w).

Definition upd_heap (f : gmap nat Settings -> gmap nat Settings) (w : World)
  : World :=
  mkWorld (globals w) (f (heap w)) (fs w) (fs_trace w) (tmp_seq w) (warnings w).

Definition upd_fs (f : gmap string content -> gmap string content)
    (ev : list fs_event) (w : World) : World :=
  mkWorld (globals w) (heap w) (f (fs w)) (fs_trace w ++ ev) (tmp_seq w)
    (warnings w).

Definition upd_tmp_seq (n : nat) (w : World) : World :=
  mkWorld (globals w) (heap w) (fs w) (fs_trace w) n (warnings w).

Definition add_warning (lines : list string) (w : World) : World :=
  mkWorld (globals w) (heap w) (fs w) (fs_trace w) (tmp_seq w)
    (warnings w ++ [lines]).

(** *** The monad of Python statements: state and exceptions *)

Definition M (A : Type) : Type := World -> result A * World.

Global Instance M_ret : MRet M := fun A a w => (Ok a, w).
Global Instance M_bind : MBind M := fun A B f m w =>
  match m w with
  | (Ok a, w') => f a w'
  | (Raise e, w') => (Raise e, w')
  end.

Definition raise {A} (e : exn) : M A := fun w => (Raise e, w).

(** A pure expression that may raise. *)
Definition lift {A} (r : result A) : M A := fun w => (r, w).

Definition modify (f : World -> World) : M unit := fun w => (Ok tt, f w).

Definition gets {A} (f : World -> A) : M A := fun w => (Ok (f w), w).

(** [try: m  except Exception as e: ...], with the outcome handed to the
    code that follows; the effects of [m] up to the exception stay. *)
Definition attempt {A} (m : M A) : M (result A) := fun w =>
  let '(r, w') := m w in (Ok r, w').

(** [try: m  finally: cleanup] *)
Definition finally {A} (m : M A) (cleanup : M unit) : M A := fun w =>
  let '(r, w') := m w in
  match cleanup w' with
  | (Ok _, w'') => (r, w'')
  | (Raise e, w'') => (Raise e, w'')
  end.

(** Modelled from the spec: [utils.print_warning] of
    [cupy_builder.install_utils], which is not among the sources; the
    warning is logged and the build goes on (spec, section 7). *)
Definition print_warning (lines : list string) : M unit :=
  modify (add_warning lines).

(** [settings[...]]: reading the dictionary behind a reference.  Python
    has no reference to nothing; the model raises on one. *)
Definition deref (settings : nat) : M Settings := fun w =>
  match heap w !! settings with
  | Some s => (Ok s, w)
  | None => (Raise (KeyError "settings"), w)
  end.

(** [settings['define_macros'].append(macro)]: an update in place, seen
    through every reference to the dictionary. *)
Definition settings_append_macro (settings : nat) (macro : string * pyval)
  : M unit :=
  _ ← deref settings;
  modify (upd_heap (alter (append_macro macro) settings)).

(** *** Paths and the file system *)

Definition ends_with_slash (d : string) : bool :=
  match rev (String.list_ascii_of_string d) with
  | c :: _ => Ascii.eqb c "/"
  | [] => false
  end.

(** [os.path.join(a, b)] of [posixpath]. *)
Definition path_join (a b : string) : string :=
  if Py.startswith "/" b then b
  else if Py.is_empty a || ends_with_slash a then a +:+ b
  else a +:+ "/" +:+ b.

Global Arguments path_join : simpl never.

(** The prefix shared by every path inside directory [d]. *)
Definition dir_prefix (d : string) : string :=
  if ends_with_slash d then d else d +:+ "/".

(** [s] without its prefix [p] *)
Fixpoint strip_prefix (p s : string) : option string :=
  match p, s with
  | EmptyString, _ => Some s
  | String a p', String b s' =>
      if Ascii.eqb a b then strip_prefix p' s' else None
  | String _ _, EmptyString => None
  end.

(** A component [..] leads out of the directory. *)
Definition climbs (rest : string) : bool :=
  existsb (String.eqb "..") (Py.split "/" rest).

(** [p] is [d] or lies below it.  Paths are compared as text: a path
    with a component [..] below [d] counts as outside, and symbolic
    links are not modelled. *)
Definition at_or_under (d p : string) : bool :=
  String.eqb p d
  || match strip_prefix (dir_prefix d) p with
     | Some rest => negb (climbs rest)
     | None => false
     end.

(** Nothing exists at [d] or below it. *)
Definition dir_free (d : string) (m : gmap string content) : bool :=
  bool_decide (map_Forall (fun p _ => at_or_under d p = false) m).

(** The compiler object handed to the probes (spec, section 6), which
    is not code of this module: each method answers with the file
    system it leaves behind and with what it returns or raises. *)
Record CCompiler : Type := mkCCompiler {
  (* [compile(sources, output_dir, include_dirs, macros,
     extra_postargs)]: the object files *)
  cc_compile :
    list string -> string -> list string -> option (list (string * pyval)) ->
    list string -> gmap string content ->
    gmap string content * result (list string);
  (* [link_executable(objects, output_progname, libraries, library_dirs,
     extra_postargs, target_lang)] *)
  cc_link_executable :
    list string -> string -> list string -> list string -> list string ->
    string -> gmap string content ->
    gmap string content * result unit;
  (* [link_shared_lib(objects, output_libname, ...)] *)
  cc_link_shared_lib :
    list string -> string -> list string -> list string -> list string ->
    string -> gmap string content ->
    gmap string content * result unit
}.

(** What the module reads from the machine it runs on. *)
Record Host : Type := mkHost {
  PLATFORM_LINUX : bool;                 (* line 25 *)
  PLATFORM_WIN32 : bool;                 (* line 26 *)
  platform_machine : string;             (* [platform.machine()] *)
  environ : gmap string string;          (* [os.environ] *)
  source_root : string;                  (* [get_context().source_root] *)
  nvtx_path : option string;             (* [_environment.get_nvtx_path()] *)
  tmp_random_name : nat -> string;       (* the names [tempfile] draws *)
  (* [os.mkdir(d)] inside [tempfile.mkdtemp]: the error it raises, if
     any, when nothing exists at [d] *)
  mkdir_error : string -> gmap string content -> option exn;
  (* [open(p, 'w')] followed by [f.write(text)]: the exception raised,
     if any, and what is then left at [p] *)
  write_error : string -> gmap string content -> option (exn * option content);
  (* the entries that [shutil.rmtree(d, ignore_errors=True)] fails to
     remove, on a given file system *)
  undeletable : gmap string content -> string -> bool;
  (* [subprocess.check_output(path)]: the file system the process
     leaves behind and the captured stdout *)
  run_binary : string -> gmap string content ->
               gmap string content * result string;
  (* [subprocess.run(cmd, capture_output=True, shell=True, cwd=cwd)]:
     the return code and [a.stdout.decode()] *)
  run_shell : string -> string -> result (Z * result string);
  (* [subprocess.Popen(argv, stdout=PIPE, stderr=PIPE)] followed by
     [communicate()]: the file system the process leaves behind, and
     the return code, stdout and stderr, or the exception of a process
     that could not be started *)
  popen : list string -> gmap string content ->
          gmap string content * result (Z * string * string)
}.

(** [TMP_MAX] of [tempfile]. *)
Definition TMP_MAX : nat := (100 * 100)%nat.
Global Arguments TMP_MAX : simpl never.

Definition minimum_cudnn_version : Z := 7600.

Definition minimum_hip_version : Z := 305.

Section Probes.
Variable host : Host.

(** [os.environ.get(key, default)] *)
Definition environ_get (key dflt : string) : string :=
  match environ host !! key with
  | Some v => v
  | None => dflt
  end.

(** [os.environ[key]] *)
Definition environ_item (key : string) : result string :=
  match environ host !! key with
  | Some v => Ok v
  | None => Raise (KeyError key)
  end.

(** Lines 713-726. *)
Definition conda_get_target_name : result string :=
  if PLATFORM_LINUX host then
    let plat := platform_machine host in
    if String.eqb plat "aarch64" then Ok "sbsa-linux"
    else Ok (plat +:+ "-linux")
  else if PLATFORM_WIN32 host then Ok "x64"
  else Raise (AssertionError "").

(** Lines 729-773.  The two lists are copies: the caller's lists are
    never touched. *)
Definition conda_update_dirs (include_dirs library_dirs : list string)
  : result (list string * list string) :=
  cross ← match environ host !! "CONDA_BUILD_CROSS_COMPILATION" with
          | Some s => Py.int_str s
          | None => Ok 0
          end;
  '(include_dirs, library_dirs) ←
    (if cross =? 1 then
       '(include_dirs, library_dirs) ←
         (if Py.startswith "12" (environ_get "CONDA_OVERRIDE_CUDA" "0") then
            bp1 ← environ_item "BUILD_PREFIX";
            bp2 ← environ_item "BUILD_PREFIX";
            bp3 ← environ_item "BUILD_PREFIX";
            Ok ((bp1 +:+ "/targets/x86_64-linux/include") :: include_dirs,
                (bp3 +:+ "/lib/stubs")
                  :: (bp2 +:+ "/targets/x86_64-linux/lib") :: library_dirs)
          else if Py.startswith "11" (environ_get "CONDA_OVERRIDE_CUDA" "0")
          then
            Ok (include_dirs ++ ["/usr/local/cuda/include"],
                library_dirs ++ ["/usr/local/cuda/lib64/stubs"])
          else Ok (include_dirs, library_dirs));
       bp4 ← environ_item "BUILD_PREFIX";
       bp5 ← environ_item "BUILD_PREFIX";
       Ok (include_dirs ++ [bp4 +:+ "/include"],
           library_dirs ++ [bp5 +:+ "/lib"])
     else Ok (include_dirs, library_dirs));
  if Py.startswith "12" (environ_get "CONDA_OVERRIDE_CUDA" "0") then
    if PLATFORM_LINUX host then
      bp ← environ_item "BUILD_PREFIX";
      target ← conda_get_target_name;
      p1 ← environ_item "PREFIX";
      p2 ← environ_item "PREFIX";
      p3 ← environ_item "PREFIX";
      Ok (include_dirs
            ++ [bp +:+ "/targets/" +:+ target +:+ "/include"]
            ++ [p2 +:+ "/include"],
          library_dirs ++ [p1 +:+ "/lib/stubs"] ++ [p3 +:+ "/lib"])
    else
      inc ← environ_item "LIBRARY_INC";
      lib ← environ_item "LIBRARY_LIB";
      Ok (include_dirs ++ [inc], library_dirs ++ [lib])
  else Ok (include_dirs, library_dirs).

(** *** [_tempdir], lines 39-45 *)

Definition tmp_candidate (k : nat) : string :=
  "/tmp/tmp" +:+ tmp_random_name host k.

(** The retry loop of [tempfile.mkdtemp]: draw names until one is not
    taken, [tries] times at most; any error of [os.mkdir] other than a
    name that is taken is raised.  The result comes with the number of
    names drawn. *)
Fixpoint mkdtemp_search (tries k : nat) (m : gmap string content)
  : nat * result string :=
  match tries with
  | O =>
      (k, Raise (FileExistsError
                   "[Errno 17] No usable temporary directory name found"))
  | S tries' =>
      let d := tmp_candidate k in
      match m !! d with
      | Some _ => mkdtemp_search tries' (S k) m
      | None =>
          match mkdir_error host d m with
          | Some e => (S k, Raise e)
          | None => (S k, Ok d)
          end
      end
  end.

(** [tempfile.mkdtemp()] *)
Definition mkdtemp : M string := fun w =>
  match mkdtemp_search TMP_MAX (tmp_seq w) (fs w) with
  | (k, Ok d) =>
      (Ok d, upd_fs (insert d Directory) [Mkdtemp d] (upd_tmp_seq k w))
  | (k, Raise e) => (Raise e, upd_tmp_seq k w)
  end.

(** What [shutil.rmtree(d, ignore_errors=True)] leaves of a file
    system: everything outside [d], and inside [d] what it failed to
    remove. *)
Definition remove_tree (d : string) (m : gmap string content)
  : gmap string content :=
  filter (fun kv => negb (at_or_under d kv.1) || undeletable host m kv.1) m.

(** [shutil.rmtree(temp_dir, ignore_errors=True)]: it never raises. *)
Definition rmtree (d : string) : M unit :=
  modify (upd_fs (remove_tree d) [Rmtree d]).

(** [with _tempdir() as temp_dir: body] *)
Definition with_tempdir {A} (body : string -> M A) : M A :=
  temp_dir ← mkdtemp;
  finally (body temp_dir) (rmtree temp_dir).

(** [with open(fname, 'w') as f: f.write(text)] *)
Definition write_file (fname : string) (text : content) : M unit := fun w =>
  match write_error host fname (fs w) with
  | None => (Ok tt, upd_fs (insert fname text) [Wrote fname] w)
  | Some (e, Some partial) =>
      (Raise e, upd_fs (insert fname partial) [Wrote fname] w)
  | Some (e, None) => (Raise e, upd_fs id [Wrote fname] w)
  end.

(** [compiler.compile(sources, output_dir=..., include_dirs=...,
    macros=..., extra_postargs=...)] *)
Definition compile (compiler : CCompiler) (sources : list string)
    (output_dir : string) (include_dirs : list string)
    (macros : option (list (string * pyval))) (extra_postargs : list string)
  : M (list string) := fun w =>
  let '(m, objects) :=
    cc_compile compiler sources output_dir include_dirs macros
      extra_postargs (fs w) in
  (objects, upd_fs (fun _ => m) [Compiled output_dir] w).

(** [compiler.link_executable(...)] and [compiler.link_shared_lib(...)],
    told apart by the method [link] of the compiler. *)
Definition link_with
    (link : list string -> string -> list string -> list string ->
            list string -> string -> gmap string content ->
            gmap string content * result unit)
    (objects : list string) (output_name : string)
    (libraries library_dirs extra_postargs : list string)
    (target_lang : string) : M unit := fun w =>
  let '(m, linked) :=
    link objects output_name libraries library_dirs extra_postargs
      target_lang (fs w) in
  (linked, upd_fs (fun _ => m) [Linked output_name] w).

(** [subprocess.check_output(path)] *)
Definition check_output (path : string) : M string := fun w =>
  let '(m, out) := run_binary host path (fs w) in
  (out, upd_fs (fun _ => m) [Ran path] w).

(** [subprocess.Popen(argv, stdout=subprocess.PIPE,
    stderr=subprocess.PIPE)] and [proc.communicate()] *)
Definition spawn (argv : list string) : M (Z * string * string) := fun w =>
  let '(m, answer) := popen host argv (fs w) in
  (answer, upd_fs (fun _ => m) [Spawned argv] w).

(** *** [build_shlib], lines 776-801 *)
Definition build_shlib (compiler : CCompiler) (source : probe_source)
    (libraries include_dirs library_dirs : list string)
    (define_macros : option (list (string * pyval)))
    (extra_compile_args : list string) : M unit :=
  '(include_dirs, library_dirs) ←
    lift (conda_update_dirs include_dirs library_dirs);
  with_tempdir (fun temp_dir =>
    let fname := path_join temp_dir "a.cpp" in
    write_file fname (ProbeText source);;
    objects ← compile compiler [fname] temp_dir include_dirs define_macros
                extra_compile_args;
    let postargs := if PLATFORM_WIN32 host then ["/MANIFEST"] else [] in
    linked ← attempt
      (link_with (cc_link_shared_lib compiler) objects
         (path_join temp_dir "a") libraries library_dirs postargs "c++");
    match linked with
    | Ok _ => mret tt
    | Raise e =>
        raise (Exception ("Cannot build a stub file." +:+ nl
                          +:+ "Original error: " +:+ exn_str e))
    end).

(** *** [build_and_run], lines 804-838 *)
Definition build_and_run (compiler : CCompiler) (source : probe_source)
    (libraries include_dirs library_dirs : list string)
    (define_macros : option (list (string * pyval)))
    (extra_compile_args : list string) : M string :=
  '(include_dirs, library_dirs) ←
    lift (conda_update_dirs include_dirs library_dirs);
  with_tempdir (fun temp_dir =>
    let fname := path_join temp_dir "a.cpp" in
    write_file fname (ProbeText source);;
    objects ← compile compiler [fname] temp_dir include_dirs define_macros
                extra_compile_args;
    let postargs := if PLATFORM_WIN32 host then ["/MANIFEST"] else [] in
    linked ← attempt
      (link_with (cc_link_executable compiler) objects
         (path_join temp_dir "a") libraries library_dirs postargs "c++");
    match linked with
    | Raise e =>
        raise (Exception ("Cannot build a stub file." +:+ nl
                          +:+ "Original error: " +:+ exn_str e))
    | Ok _ =>
        ran ← attempt (check_output (path_join temp_dir "a"));
        match ran with
        | Ok out => mret out
        | Raise e =>
            raise (Exception ("Cannot execute a stub file." +:+ nl
                              +:+ "Original error: " +:+ exn_str e))
        end
    end).

End Probes.

Global Arguments build_and_run : simpl never.
Global Arguments build_shlib : simpl never.

(** ** The base options of the compiler, lines 253-289 *)

(** The two diagnostics of nvcc, lines 275-277, as the bytes literals
    spell them once Python has read the [\\] escapes. *)
Definition no_host_compiler_pattern : string :=
  "^ERROR: No supported gcc/g\+\+ host compiler found, but .* is available.$".

Definition use_instead_pattern : string :=
  "^ *Use 'nvcc (.*)' to use that instead.$".

(** Lines 272-282: from the lines of stderr to the base options, or
    [None] when the diagnostics are not the known ones. *)
Definition base_options_of_diagnostics (stderrlines : list string)
  : result (option (list string)) :=
  matches ← _match_output_lines Re.match_ stderrlines
              [no_host_compiler_pattern; use_instead_pattern];
  match matches with
  | Some ms =>
      m ← Py.index ms 1;
      match m with
      | Some m1 =>
          base_opts ← Re.group m1 1;
          base_opts ← Py.decode_utf8 base_opts;
          Ok (Some (Py.split " " base_opts))
      | None => Raise (AttributeError "'NoneType' object has no attribute 'group'")
      end
  | None => Ok None
  end.

Section Checks.
Variable host : Host.

Definition _get_compiler_base_options (compiler_path : list string)
  : M (list string) :=
  with_tempdir host (fun temp_dir =>
    let test_cu_path := path_join temp_dir "test.cu" in
    let test_out_path := path_join temp_dir "test.out" in
    write_file host test_cu_path (Text "int main() { return 0; }");;
    '(returncode, stdoutdata, stderrdata) ←
      spawn host (compiler_path ++ ["-o"; test_out_path; test_cu_path]);
    let stderrlines := Py.split (ascii_of_nat 10) stderrdata in
    if negb (returncode =? 0) then
      opts ← lift (base_options_of_diagnostics stderrlines);
      match opts with
      | Some base_opts => mret base_opts
      | None =>
          text ← lift (Py.decode_utf8 stderrdata);
          raise (RuntimeError
                   ("Encountered unknown error while testing nvcc:" +:+ nl
                    +:+ text))
      end
    else mret []).

(** *** HIP, lines 305-340 *)
Definition check_hip_version (compiler : CCompiler) (settings : nat)
  : M bool :=
  probed ← attempt
    (s ← deref settings;
     build_and_run host compiler hip_version_src [] (include_dirs s) []
       None []);
  match probed with
  | Raise e =>
      print_warning ["Cannot check HIP version"; exn_str e];;
      mret false
  | Ok out =>
      v ← lift (Py.int out);
      modify (upd_globals (set_hip_version v));;
      if v <? minimum_hip_version then
        print_warning ["ROCm/HIP version is too old: " +:+ pretty v;
                       "ROCm 3.5.0 or newer is required"];;
        mret false
      else mret true
  end.

Definition get_hip_version (formatted : bool) (w : World) : result pyval :=
  match _hip_version (globals w) with
  | None => Raise (RuntimeError "check_hip_version() must be called first.")
  | Some v => if formatted then Ok (VStr (pretty v)) else Ok (VInt v)
  end.

(** *** Compute capabilities, lines 343-377 *)
Definition check_compute_capabilities (compiler : CCompiler)
    (settings : nat) : M bool :=
  probed ← attempt
    (s1 ← deref settings;
     s2 ← deref settings;
     out ← build_and_run host compiler compute_capabilities_src ["cudart"]
             (include_dirs s1) (library_dirs s2) None [];
     caps ← lift (Py.ints (Py.split_ws out));
     modify (upd_globals (set_compute_capabilities (list_to_set caps))));
  match probed with
  | Raise e =>
      print_warning ["Cannot check compute capability" +:+ nl +:+ exn_str e];;
      mret false
  | Ok _ => mret true
  end.

Definition get_compute_capabilities (formatted : bool) (w : World)
  : result (option (gset Z)) :=
  Ok (_compute_capabilities (globals w)).

(** *** Thrust, lines 380-410 *)
Definition check_thrust_version (compiler : CCompiler) (settings : nat)
  : M bool :=
  probed ← attempt
    (s ← deref settings;
     build_and_run host compiler thrust_version_src [] (include_dirs s) []
       None []);
  match probed with
  | Raise e =>
      print_warning ["Cannot check Thrust version" +:+ nl +:+ exn_str e];;
      mret false
  | Ok out =>
      v ← lift (Py.int out);
      modify (upd_globals (set_thrust_version v));;
      mret true
  end.

Definition get_thrust_version (formatted : bool) (w : World)
  : result pyval :=
  match _thrust_version (globals w) with
  | None =>
      Raise (RuntimeError "check_thrust_version() must be called first.")
  | Some v => if formatted then Ok (VStr (pretty v)) else Ok (VInt v)
  end.

(** *** cuDNN, lines 413-449 *)
Definition check_cudnn_version (compiler : CCompiler) (settings : nat)
  : M bool :=
  probed ← attempt
    (s ← deref settings;
     build_and_run host compiler cudnn_version_src [] (include_dirs s) []
       None []);
  match probed with
  | Raise e =>
      print_warning ["Cannot check cuDNN version" +:+ nl +:+ exn_str e];;
      mret false
  | Ok out =>
      v ← lift (Py.int out);
      modify (upd_globals (set_cudnn_version v));;
      if negb (minimum_cudnn_version <=? v) then
        let min_major := pretty minimum_cudnn_version in
        print_warning ["Unsupported cuDNN version: " +:+ pretty v;
                       "cuDNN >=v" +:+ min_major +:+ " is required"];;
        mret false
      else mret true
  end.

Definition get_cudnn_version (formatted : bool) (w : World)
  : result pyval :=
  match _cudnn_version (globals w) with
  | None =>
      Raise (RuntimeError "check_cudnn_version() must be called first.")
  | Some v => if formatted then Ok (VStr (pretty v)) else Ok (VInt v)
  end.

(** *** NCCL, lines 452-500 *)
Definition check_nccl_version (compiler : CCompiler) (settings : nat)
  : M bool :=
  probed ← attempt
    (s1 ← deref settings;
     s2 ← deref settings;
     build_and_run host compiler nccl_version_src [] (include_dirs s1) []
       (Some (define_macros s2)) []);
  match probed with
  | Raise e =>
      print_warning ["Cannot include NCCL" +:+ nl +:+ exn_str e];;
      mret false
  | Ok out =>
      v ← lift (Py.int out);
      modify (upd_globals (set_nccl_version v));;
      mret true
  end.

Definition get_nccl_version (formatted : bool) (w : World)
  : result pyval :=
  match _nccl_version (globals w) with
  | None =>
      Raise (RuntimeError "check_nccl_version() must be called first.")
  | Some v =>
      if formatted then
        if v =? 0 then Ok (VStr "1.x") else Ok (VStr (pretty v))
      else Ok (VInt v)
  end.

(** *** NVTX, lines 503-508 *)
Definition check_nvtx (compiler : CCompiler) (settings : nat) : M bool :=
  if PLATFORM_WIN32 host then
    match nvtx_path host with
    | None => print_warning ["NVTX unavailable"];; mret false
    | Some _ => mret true
    end
  else mret true.

(** *** CUB, lines 511-591 *)

(** Lines 553-567: the version number read off the output of
    [git describe --tags]. *)
Definition cub_version_of_describe (stdout : string) : result Z :=
  let tag := Py.drop_last stdout in
  let tag := if Py.startswith "v" tag then Py.tail tag else tag in
  let tag := Py.split "." tag in
  t0 ← Py.index tag 0;
  major ← Py.int_str t0;
  t1 ← Py.index tag 1;
  minor ← Py.int_str t1;
  let out := major * 100000 + minor * 100 in
  match (t2 ← Py.index tag 2; Py.int_str t2) with
  | Ok patch => Ok (out + patch)
  | Raise e =>
      if is_ValueError e then
        t2 ← Py.index tag 2;
        let local_patch := Py.split "-" t2 in
        p0 ← Py.index local_patch 0;
        patch ← Py.int_str p0;
        p1 ← Py.index local_patch 1;
        commits ← Py.int_str p1;
        Ok (out + (patch + commits))
      else Raise e
  end.

(** [int(out)] for an [out] that is the bytes of a probe or already an
    integer. *)
Definition int_of_pyval (out : pyval) : result Z :=
  match out with
  | VStr s => Py.int s
  | VInt z => Ok z
  end.

Definition check_cub_version (compiler : CCompiler) (settings : nat)
  : M bool :=
  probed ← attempt
    (s1 ← deref settings;
     s2 ← deref settings;
     build_and_run host compiler cub_version_src [] (include_dirs s1) []
       (Some (define_macros s2)) []);
  out ← match probed with
        | Ok out => mret (VStr out)
        | Raise e =>
            described ← attempt
              (let cupy_cub_include :=
                 path_join (source_root host) "third_party/cccl" in
               a ← lift (run_shell host "git describe --tags" cupy_cub_include);
               if a.1 =? 0 then
                 text ← lift a.2;
                 lift (cub_version_of_describe text)
               else
                 raise (RuntimeError
                          ("Cannot determine CUB version from git tag"
                           +:+ nl +:+ exn_str e)));
            match described with
            | Ok v => mret (VInt v)
            | Raise e' =>
                print_warning
                  ["Cannot determine CUB version" +:+ nl +:+ exn_str e'];;
                mret (VInt (-1))
            end
        end;
  v ← lift (int_of_pyval out);
  modify (upd_globals (set_cub_version v));;
  settings_append_macro settings ("CUPY_CUB_VERSION_CODE", VInt v);;
  mret true.

Definition get_cub_version (formatted : bool) (w : World) : result pyval :=
  match _cub_version (globals w) with
  | None => Raise (RuntimeError "check_cub_version() must be called first.")
  | Some v =>
      if formatted then
        if v =? -1 then Ok (VStr "<unknown>") else Ok (VStr (pretty v))
      else Ok (VInt v)
  end.

(** *** Jitify, lines 594-634 *)
Definition check_jitify_version (compiler : CCompiler) (settings : nat)
  : M bool :=
  parsed ← attempt
    (let cupy_jitify_include :=
       path_join (source_root host) "third_party/jitify" in
     a ← lift (run_shell host "git rev-parse --short HEAD" cupy_jitify_include);
     if a.1 =? 0 then
       text ← lift a.2;
       mret (Py.drop_last text)
     else raise (RuntimeError "Cannot determine Jitify version from git"));
  out ← match parsed with
        | Ok commit => mret (VStr commit)
        | Raise e =>
            print_warning
              ["Cannot determine Jitify version" +:+ nl +:+ exn_str e];;
            mret (VInt (-1))
        end;
  modify (upd_globals (set_jitify_version out));;
  settings_append_macro settings ("CUPY_JITIFY_VERSION_CODE", out);;
  mret true.

(** [_jitify_version == -1] *)
Definition is_minus_one (v : pyval) : bool :=
  match v with
  | VInt z => z =? -1
  | VStr _ => false
  end.

Definition get_jitify_version (formatted : bool) (w : World)
  : result pyval :=
  match _jitify_version (globals w) with
  | None =>
      Raise (RuntimeError "check_jitify_version() must be called first.")
  | Some v =>
      if formatted then
        if is_minus_one v then Ok (VStr "<unknown>") else Ok v
      else Raise (RuntimeError "Jitify version is a commit string")
  end.

(** *** cuTENSOR, lines 637-678 *)
Definition check_cutensor_version (compiler : CCompiler) (settings : nat)
  : M bool :=
  probed ← attempt
    (s ← deref settings;
     build_and_run host compiler cutensor_version_src [] (include_dirs s) []
       None []);
  match probed with
  | Raise e =>
      print_warning ["Cannot check cuTENSOR version" +:+ nl +:+ exn_str e];;
      mret false
  | Ok out =>
      v ← lift (Py.int out);
      modify (upd_globals (set_cutensor_version v));;
      if v <? 2000 then
        print_warning ["Unsupported cuTENSOR version: " +:+ pretty v];;
        mret false
      else mret true
  end.

Definition get_cutensor_version (formatted : bool) (w : World)
  : result pyval :=
  match _cutensor_version (globals w) with
  | None =>
      Raise (RuntimeError "check_cutensor_version() must be called first.")
  | Some v => Ok (VInt v)
  end.

(** *** cuSPARSELt, lines 681-710 *)
Definition check_cusparselt_version (compiler : CCompiler) (settings : nat)
  : M bool :=
  probed ← attempt
    (s ← deref settings;
     build_and_run host compiler cusparselt_version_src [] (include_dirs s)
       [] None []);
  match probed with
  | Raise e =>
      print_warning ["Cannot check cuSPARSELt version" +:+ nl +:+ exn_str e];;
      mret false
  | Ok out =>
      v ← lift (Py.int out);
      modify (upd_globals (set_cusparselt_version v));;
      mret true
  end.

Definition get_cusparselt_version (formatted : bool) (w : World)
  : result pyval :=
  match _cusparselt_version (globals w) with
  | None =>
      Raise (RuntimeError "check_cusparselt_version() must be called first.")
  | Some v => Ok (VInt v)
  end.

End Checks.

(** ** Locating the toolchains and composing the settings, lines 32-218
    and 243-250 *)

(** What these functions ask of [os.path], of [shlex] and of
    [cupy_builder.install_utils], of which [search_on_path] is not among
    the sources.  [os_path_join] is the [os.path.join] of the platform,
    taken two arguments at a time. *)
Record Os : Type := mkOs {
  os_path_exists : string -> bool;
  os_path_join : string -> string -> string;
  os_path_dirname : string -> string;
  os_path_normpath : string -> string;
  shlex_split : string -> result (list string);
  search_on_path : list string -> option string
}.

(** [cupy_builder._context.Context], as far as [get_compiler_setting]
    reads it. *)
Record Context : Type := mkContext {
  ctx_include_dirs : list string;
  ctx_library_dirs : list string
}.

(** The module-level variables of lines 32-34, 297 and 299.  A path is
    [None] or a string; the magic word of lines 51-52 is a string. *)
Record PathGlobals : Type := mkPathGlobals {
  _cuda_path : option string;
  _rocm_path : option string;
  _compiler_base_options : option (list string);
  _cub_path : option string;
  _jitify_path : option string
}.

Definition NOT_INITIALIZED : string := "NOT_INITIALIZED".

(** The variables right after import. *)
Definition initial_paths : PathGlobals :=
  mkPathGlobals (Some NOT_INITIALIZED) (Some NOT_INITIALIZED) None None None.

Definition set_cuda_path (v : option string) (g : PathGlobals) : PathGlobals :=
  mkPathGlobals v (_rocm_path g) (_compiler_base_options g) (_cub_path g)
    (_jitify_path g).

Definition set_rocm_path (v : option string) (g : PathGlobals) : PathGlobals :=
  mkPathGlobals (_cuda_path g) v (_compiler_base_options g) (_cub_path g)
    (_jitify_path g).

Definition set_compiler_base_options (v : list string) (g : PathGlobals)
  : PathGlobals :=
  mkPathGlobals (_cuda_path g) (_rocm_path g) (Some v) (_cub_path g)
    (_jitify_path g).

Definition set_cub_path (v : string) (g : PathGlobals) : PathGlobals :=
  mkPathGlobals (_cuda_path g) (_rocm_path g) (_compiler_base_options g)
    (Some v) (_jitify_path g).

Definition set_jitify_path (v : string) (g : PathGlobals) : PathGlobals :=
  mkPathGlobals (_cuda_path g) (_rocm_path g) (_compiler_base_options g)
    (_cub_path g) (Some v).

(** The state these functions run in: their own variables and the world
    of the probes. *)
Record Session : Type := mkSession {
  paths : PathGlobals;
  world : World
}.

Definition T (A : Type) : Type := Session -> result A * Session.

Global Instance T_ret : MRet T := fun A a s => (Ok a, s).
Global Instance T_bind : MBind T := fun A B f m s =>
  match m s with
  | (Ok a, s') => f a s'
  | (Raise e, s') => (Raise e, s')
  end.

Definition t_raise {A} (e : exn) : T A := fun s => (Raise e, s).

Definition t_lift {A} (r : result A) : T A := fun s => (r, s).

(** Read a module-level variable. *)
Definition read {A} (f : PathGlobals -> A) : T A := fun s =>
  (Ok (f (paths s)), s).

(** Assign to a module-level variable. *)
Definition assign (f : PathGlobals -> PathGlobals) : T unit := fun s =>
  (Ok tt, mkSession (f (paths s)) (world s)).

(** Run a statement of the probes. *)
Definition in_world {A} (m : M A) : T A := fun s =>
  let '(r, w') := m (world s) in (r, mkSession (paths s) w').

(** [v != 'NOT_INITIALIZED'] *)
Definition initialized (v : option string) : bool :=
  match v with
  | Some p => negb (String.eqb p NOT_INITIALIZED)
  | None => true
  end.

(** ['%s' % v] *)
Definition str_of_path (v : option string) : string :=
  match v with
  | Some p => p
  | None => "None"
  end.

Section Toolchains.
Variable host : Host.
Variable os : Os.

(** Lines 48-57. *)
Definition get_rocm_path : T (option string) :=
  cached ← read _rocm_path;
  if initialized cached then mret cached
  else
    assign (set_rocm_path (Some (environ_get host "ROCM_HOME" "")));;
    read _rocm_path.

(** Lines 60-90. *)
Definition get_cuda_path : T (option string) :=
  cached ← read _cuda_path;
  if initialized cached then mret cached
  else
    let nvcc_path := search_on_path os ["nvcc"; "nvcc.exe"] in
    let cuda_path_default :=
      match nvcc_path with
      | Some p =>
          Some (os_path_normpath os
                  (os_path_join os (os_path_dirname os p) ".."))
      | None => None
      end in
    let cuda_path := environ_get host "CUDA_PATH" "" in
    (if negb (Py.is_empty cuda_path)
        && negb (bool_decide (Some cuda_path = cuda_path_default))
     then
       in_world
         (print_warning ["nvcc path != CUDA_PATH";
                         "nvcc path: " +:+ str_of_path cuda_path_default;
                         "CUDA_PATH: " +:+ cuda_path])
     else mret tt);;
    (if os_path_exists os cuda_path then
       assign (set_cuda_path (Some cuda_path))
     else if bool_decide (cuda_path_default <> None) then
       assign (set_cuda_path cuda_path_default)
     else if os_path_exists os "/usr/local/cuda" then
       assign (set_cuda_path (Some "/usr/local/cuda"))
     else assign (set_cuda_path None));;
    read _cuda_path.

(** Lines 93-111. *)
Definition get_nvcc_path : T (option (list string)) :=
  match environ host !! "NVCC" with
  | Some nvcc =>
      if negb (Py.is_empty nvcc) then
        argv ← t_lift (shlex_split os nvcc); mret (Some argv)
      else mret None
  | None => mret None
  end ≫= fun override =>
  match override with
  | Some argv => mret (Some argv)
  | None =>
      cuda_path ← get_cuda_path;
      match cuda_path with
      | None => mret None
      | Some cuda_path =>
          let nvcc_bin :=
            if PLATFORM_WIN32 host then "bin/nvcc.exe" else "bin/nvcc" in
          let nvcc_path := os_path_join os cuda_path nvcc_bin in
          if os_path_exists os nvcc_path then mret (Some [nvcc_path])
          else mret None
      end
  end.

(** Lines 114-132. *)
Definition get_hipcc_path : T (option (list string)) :=
  match environ host !! "HIPCC" with
  | Some hipcc =>
      if negb (Py.is_empty hipcc) then
        argv ← t_lift (shlex_split os hipcc); mret (Some argv)
      else mret None
  | None => mret None
  end ≫= fun override =>
  match override with
  | Some argv => mret (Some argv)
  | None =>
      rocm_path ← get_rocm_path;
      match rocm_path with
      | None => mret None
      | Some rocm_path =>
          let hipcc_bin :=
            if PLATFORM_WIN32 host then "bin/hipcc.exe" else "bin/hipcc" in
          let hipcc_path := os_path_join os rocm_path hipcc_bin in
          if os_path_exists os hipcc_path then mret (Some [hipcc_path])
          else mret None
      end
  end.

(** [os.path.join(a, b, c)] *)
Definition join3 (a b c : string) : string :=
  os_path_join os (os_path_join os a b) c.

(** Lines 149-156: what a CUDA installation adds. *)
Definition cuda_dirs (cuda_path : string) : list string * list string :=
  ([os_path_join os cuda_path "include"],
   if PLATFORM_WIN32 host then
     [os_path_join os cuda_path "bin"; join3 cuda_path "lib" "x64"]
   else
     [os_path_join os cuda_path "lib64"; os_path_join os cuda_path "lib"]).

(** Lines 158-169: what a ROCm installation adds. *)
Definition rocm_dirs (rocm_path : string) : list string * list string :=
  ([os_path_join os rocm_path "include";
    join3 rocm_path "include" "hip";
    join3 rocm_path "include" "rocrand";
    join3 rocm_path "include" "hiprand";
    join3 rocm_path "include" "roctracer";
    join3 rocm_path "include" "hipblas";
    join3 rocm_path "include" "hipsparse";
    join3 rocm_path "include" "hipfft";
    join3 rocm_path "include" "rocsolver";
    join3 rocm_path "include" "rccl"],
   [os_path_join os rocm_path "lib"]).

(** Lines 149-156, [if cuda_path: ...]: a path counts when it is
    neither [None] nor empty. *)
Definition add_cuda_dirs (cuda_path : option string)
    (dirs : list string * list string) : list string * list string :=
  match cuda_path with
  | Some p =>
      if negb (Py.is_empty p) then
        (dirs.1 ++ (cuda_dirs p).1, dirs.2 ++ (cuda_dirs p).2)
      else dirs
  | None => dirs
  end.

(** Lines 158-169, [if rocm_path: ...]. *)
Definition add_rocm_dirs (rocm_path : option string)
    (dirs : list string * list string) : list string * list string :=
  match rocm_path with
  | Some p =>
      if negb (Py.is_empty p) then
        (dirs.1 ++ (rocm_dirs p).1, dirs.2 ++ (rocm_dirs p).2)
      else dirs
  | None => dirs
  end.

(** Lines 175-180: the include directories and the macros after the
    NVTX test. *)
Definition add_nvtx (include_dirs : list string)
  : list string * list (string * pyval) :=
  if PLATFORM_WIN32 host then
    match nvtx_path host with
    | Some nvtx =>
        if os_path_exists os nvtx then
          (include_dirs ++ [os_path_join os nvtx "include"], [])
        else (include_dirs, [("CUPY_NO_NVTX", VStr "1")])
    | None => (include_dirs, [("CUPY_NO_NVTX", VStr "1")])
    end
  else (include_dirs, []).

(** [_cub_path], and [_thrust_path] with [_libcudacxx_path] when they
    are not [None], lines 203-205. *)
Definition cccl_bundle (cupy_header : string)
  : string * option (string * string) :=
  (os_path_join os cupy_header "cupy/_cccl/cub",
   Some (os_path_join os cupy_header "cupy/_cccl/thrust",
         os_path_join os cupy_header "cupy/_cccl/libcudacxx")).

(** Lines 194-205: choose the vendored headers and record [_cub_path]. *)
Definition choose_vendored (rocm_path : option string) (cupy_header : string)
  : T (string * option (string * string)) :=
  let bundled :=
    assign (set_cub_path (cccl_bundle cupy_header).1);;
    mret (cccl_bundle cupy_header) in
  match rocm_path with
  | Some p =>
      if negb (Py.is_empty p) then
        let cub := join3 p "include" "hipcub" in
        assign (set_cub_path cub);;
        if os_path_exists os cub then mret (cub, None)
        else t_raise (Exception "Please install hipCUB and retry")
      else bundled
  | None => bundled
  end.

(** Lines 206-210: the vendored headers go first. *)
Definition prepend_vendored (cupy_header : string)
    (vendored : string * option (string * string))
    (include_dirs : list string) : list string :=
  let include_dirs := vendored.1 :: cupy_header :: include_dirs in
  match vendored.2 with
  | Some (thrust, libcudacxx) =>
      if negb (Py.is_empty thrust) && negb (Py.is_empty libcudacxx) then
        libcudacxx :: thrust :: include_dirs
      else include_dirs
  | None => include_dirs
  end.

(** Lines 135-218. *)
Definition get_compiler_setting (ctx : Context) (use_hip : bool)
  : T Settings :=
  rocm_path ← (if use_hip then get_rocm_path else mret None);
  cuda_path ← (if use_hip then mret None else get_cuda_path);
  let dirs := (ctx_include_dirs ctx, ctx_library_dirs ctx) in
  let dirs := add_cuda_dirs cuda_path dirs in
  let dirs := add_rocm_dirs rocm_path dirs in
  let extra_compile_args := if use_hip then ["-std=c++14"] else [] in
  let with_nvtx := add_nvtx dirs.1 in
  let cupy_header := os_path_join os (source_root host) "cupy/_core/include" in
  assign (set_jitify_path (os_path_join os cupy_header "cupy/_jitify"));;
  vendored ← choose_vendored rocm_path cupy_header;
  mret (mkSettings (prepend_vendored cupy_header vendored with_nvtx.1)
          dirs.2 with_nvtx.2 "c++" extra_compile_args).

(** Lines 243-250. *)
Definition get_compiler_base_options (compiler_path : list string)
  : T (list string) :=
  cached ← read _compiler_base_options;
  match cached with
  | Some base_options => mret base_options
  | None =>
      base_options ← in_world (_get_compiler_base_options host compiler_path);
      assign (set_compiler_base_options base_options);;
      mret base_options
  end.

End Toolchains.
(** ** Predicates used to state the frame properties *)

(** The Python state of the module is as it was: the caches, the
    settings objects and the warnings printed. *)
Definition same_module_state (w w' : World) : Prop :=
  globals w' = globals w /\ heap w' = heap w /\ warnings w' = warnings w.

(** A file name of one component, other than [..]. *)
Definition plain_name (name : string) : bool :=
  negb (Py.is_empty name) && negb (Py.has_char "/" name)
  && negb (String.eqb name "..").

(** The contract of the tools a probe calls: the compiler writes
    nothing outside its output directory, the linker nothing outside
    the directory of its output, and the binary that was built nothing
    outside the directory it lies in. *)
Definition tools_confined (host : Host) (compiler : CCompiler) : Prop :=
  (forall sources d include_dirs macros extra m p,
      Py.is_empty d = false -> at_or_under d p = false ->
      (cc_compile compiler sources d include_dirs macros extra m).1 !! p
      = m !! p)
  /\ (forall objects d name libraries library_dirs extra lang m p,
         Py.is_empty d = false -> plain_name name = true ->
         at_or_under d p = false ->
         (cc_link_executable compiler objects (path_join d name) libraries
            library_dirs extra lang m).1 !! p = m !! p)
  /\ (forall objects d name libraries library_dirs extra lang m p,
         Py.is_empty d = false -> plain_name name = true ->
         at_or_under d p = false ->
         (cc_link_shared_lib compiler objects (path_join d name) libraries
            library_dirs extra lang m).1 !! p = m !! p)
  /\ (forall d name m p,
         Py.is_empty d = false -> plain_name name = true ->
         at_or_under d p = false ->
         (run_binary host (path_join d name) m).1 !! p = m !! p).


(** An operation that concerns the workspace [d] only: a file opened
    in it, a compilation into it, a link step whose output is in it, a
    binary of it that is run, a process spawned to write one of its
    files from another.  No workspace is made or removed. *)
Definition event_inside (d : string) (ev : fs_event) : Prop :=
  match ev with
  | Wrote p => at_or_under d p = true
  | Compiled output_dir => output_dir = d
  | Linked output_name => at_or_under d output_name = true
  | Ran path => at_or_under d path = true
  | Spawned argv =>
      exists cmd out src,
        argv = cmd ++ ["-o"; out; src]
        /\ at_or_under d out = true /\ at_or_under d src = true
  | Mkdtemp _ | Rmtree _ => False
  end.

(** The operations that start a process. *)
Definition starts_process (ev : fs_event) : bool :=
  match ev with
  | Ran _ | Spawned _ => true
  | _ => false
  end.

(** From [w] to [w'] the statements that ran kept to the workspace [d]:
    the Python state and the names drawn by [tempfile] are as they
    were, every operation concerns [d] only and, when the tools keep
    their contract [P], every path outside [d] holds what it held. *)
Definition stays_inside (P : Prop) (d : string) (w w' : World) : Prop :=
  same_module_state w w'
  /\ tmp_seq w' = tmp_seq w
  /\ (exists evs,
         fs_trace w' = fs_trace w ++ evs /\ Forall (event_inside d) evs)
  /\ (P -> forall p, at_or_under d p = false -> fs w' !! p = fs w !! p).

Definition body_inside {A} (P : Prop) (d : string) (m : M A) : Prop :=
  forall w, stays_inside P d w (m w).2.

(** The life of the one workspace [d] of a call that led from [w] to
    [w']: it is made first and removed last, with operations that
    concern it alone in between; when the tools keep their contract [P]
    what lies outside is untouched; and when [rmtree] fails on nothing,
    nothing exists at [d] or below it in the end. *)
Definition workspace_life (host : Host) (P : Prop) (d : string)
    (w w' : World) : Prop :=
  same_module_state w w'
  /\ (exists evs,
         fs_trace w' = fs_trace w ++ Mkdtemp d :: evs ++ [Rmtree d]
         /\ Forall (event_inside d) evs)
  /\ (P -> forall p, at_or_under d p = false -> fs w' !! p = fs w !! p)
  /\ ((forall m p, undeletable host m p = false) ->
      dir_free d (fs w') = true).

(** ** Decimal numerals, integers as probes print them, git tags *)

Fixpoint all_chars (P : ascii -> bool) (s : string) : bool :=
  match s with
  | EmptyString => true
  | String c s' => P c && all_chars P s'
  end.

(** A non-empty string of decimal digits. *)
Definition is_decimal (s : string) : bool :=
  negb (Py.is_empty s) && all_chars Py.is_digit s.

Fixpoint decimal_from (acc : Z) (s : string) : Z :=
  match s with
  | EmptyString => acc
  | String c s' => decimal_from (10 * acc + Py.digit_val c) s'
  end.

(** The number a decimal numeral denotes. *)
Definition decimal_value (s : string) : Z := decimal_from 0 s.

(** A decimal numeral of no more digits than [int()] converts. *)
Definition int_readable (s : string) : bool :=
  is_decimal s && (String.length s <=? Py.MAX_STR_DIGITS)%nat.

(** An integer as [printf] writes it with [%d]: a numeral, after a [-]
    when the integer is negative. *)
Definition is_integer (token : string) : bool :=
  match token with
  | String c r => if Ascii.eqb c "-" then int_readable r else int_readable token
  | EmptyString => false
  end.

Definition integer_value (token : string) : Z :=
  match token with
  | String c r =>
      if Ascii.eqb c "-" then - decimal_value r else decimal_value token
  | EmptyString => 0
  end.

(** What a probe prints token by token: every token is followed by its
    separator. *)
Fixpoint spaced (items : list (string * string)) : string :=
  match items with
  | [] => EmptyString
  | (token, sep) :: items' => token +:+ sep +:+ spaced items'
  end.

(** The tokens are integers and the separators whitespace, none of
    them empty but, possibly, the last. *)
Fixpoint whitespace_separated (items : list (string * string)) : bool :=
  match items with
  | [] => true
  | (token, sep) :: items' =>
      is_integer token && all_chars Py.is_space sep
      && (negb (Py.is_empty sep) || bool_decide (items' = []))
      && whitespace_separated items'
  end.

(** A release tag [X.Y.Z], with or without the leading [v]. *)
Definition release_tag (v_prefix : bool) (x y z : string) : string :=
  (if v_prefix then "v" else "") +:+ x +:+ "." +:+ y +:+ "." +:+ z.

(** What [git describe --tags] prints [n] commits after a release tag:
    [X.Y.Z-N-g<hash>]. *)
Definition local_tag (v_prefix : bool) (x y z n hash : string) : string :=
  (if v_prefix then "v" else "")
  +:+ x +:+ "." +:+ y +:+ "." +:+ z +:+ "-" +:+ n +:+ "-g" +:+ hash.

(** ** Concrete inputs used by the examples below *)

(** The stderr of an nvcc that found no supported host compiler, between
    two other lines. *)
Definition nvcc_diagnostics : list string :=
  ["a";
   "ERROR: No supported gcc/g++ host compiler found, but X is available.";
   "Use 'nvcc --foo' to use that instead.";
   "b"].

(** The same with the first diagnostic cut down to [ERROR: X]. *)
Definition short_diagnostics : list string :=
  ["a"; "ERROR: X"; "Use 'nvcc --foo' to use that instead."; "b"].

(** The two diagnostics alone, with nothing after them. *)
Definition bare_diagnostics : list string :=
  ["ERROR: No supported gcc/g++ host compiler found, but X is available.";
   "Use 'nvcc --foo' to use that instead."].

Definition unrelated_lines : list string :=
  ["nvcc fatal   : Unsupported gpu architecture 'compute_20'"; ""].

(** The world right after the module is imported: no check has run. *)
Definition import_world : World := mkWorld initial_globals ∅ ∅ [] 0 [].

(** A compiler that builds what it is asked to, where it is asked to. *)
Definition working_compiler : CCompiler :=
  mkCCompiler
    (fun _ output_dir _ _ _ m =>
       (<[path_join output_dir "a.o" := Binary "object"]> m,
        Ok [path_join output_dir "a.o"]))
    (fun _ output _ _ _ _ m => (<[output := Binary "executable"]> m, Ok tt))
    (fun _ output _ _ _ _ m => (<[output := Binary "library"]> m, Ok tt)).

(** A compiler whose compile step fails, leaving a partial file. *)
Definition failing_compiler : CCompiler :=
  mkCCompiler
    (fun _ output_dir _ _ _ m =>
       (<[path_join output_dir "a.o.tmp" := Binary "partial"]> m,
        Raise (Exception "compile failed")))
    (fun _ output _ _ _ _ m => (<[output := Binary "executable"]> m, Ok tt))
    (fun _ output _ _ _ _ m => (<[output := Binary "library"]> m, Ok tt)).

(** A compiler behind a cache, as [ccache] is: besides the object file
    it leaves an entry in its cache directory. *)
Definition caching_compiler : CCompiler :=
  mkCCompiler
    (fun _ output_dir _ _ _ m =>
       (<[path_join output_dir "a.o" := Binary "object"]>
          (<["/var/cache/ccache/a.o" := Binary "object"]> m),
        Ok [path_join output_dir "a.o"]))
    (fun _ output _ _ _ _ m => (<[output := Binary "executable"]> m, Ok tt))
    (fun _ output _ _ _ _ m => (<[output := Binary "library"]> m, Ok tt)).

(** A machine whose file system lets everything through - directories
    are made, files written and removed - and whose processes leave it
    alone: every probe binary prints [stdout], git answers [git], a
    compiler that is spawned exits with 0 and prints nothing. *)
Definition quiet_host (linux win32 : bool) (machine : string)
    (env : gmap string string) (nvtx : option string) (stdout : string)
    (git : result (Z * result string)) : Host :=
  mkHost linux win32 machine env "/src/cupy" nvtx (fun k => pretty k)
    (fun _ _ => None) (fun _ _ => None) (fun _ _ => false)
    (fun _ m => (m, Ok stdout)) (fun _ _ => git)
    (fun _ m => (m, Ok (0, "", ""))).

(** A Linux host outside conda: every probe binary prints [stdout], git
    answers [git]. *)
Definition sample_host (stdout : string) (git : result (Z * result string))
  : Host :=
  quiet_host true false "x86_64" ∅ None stdout git.

Definition no_git : result (Z * result string) :=
  Raise (OSError "git: command not found").

(** A conda cross-compilation environment that lacks [BUILD_PREFIX]. *)
Definition cross_host : Host :=
  quiet_host true false "x86_64" {[ "CONDA_BUILD_CROSS_COMPILATION" := "1" ]}
    None "305" no_git.

(** A machine on which the files of a workspace cannot be removed, as
    on Windows while a scanner still holds them open. *)
Definition stuck_host : Host :=
  mkHost true false "x86_64" ∅ "/src/cupy" None (fun k => pretty k)
    (fun _ _ => None) (fun _ _ => None) (fun _ _ => true)
    (fun _ m => (m, Ok "305")) (fun _ _ => no_git)
    (fun _ m => (m, Ok (0, "", ""))).

Definition sample_settings : Settings :=
  mkSettings ["/usr/local/cuda/include"] ["/usr/local/cuda/lib64"] [] "c++" [].

(** One settings dictionary, at reference [0], and a file system where
    the first name [tempfile] draws is taken. *)
Definition sample_world : World :=
  mkWorld initial_globals {[ 0%nat := sample_settings ]}
    {[ "/tmp/tmp0" := Directory; "/etc/hostname" := Text "builder" ]}
    [] 0 [].

(** A host whose git answers with what the fallbacks expect. *)
Definition git_host (stdout : string) : Host :=
  sample_host "" (Ok (0, Ok (stdout +:+ nl))).

(** A machine whose nvcc exits with [returncode] after it has printed
    [stderrdata]. *)
Definition nvcc_host (returncode : Z) (stderrdata : string) : Host :=
  mkHost true false "x86_64" ∅ "/src/cupy" None (fun k => pretty k)
    (fun _ _ => None) (fun _ _ => None) (fun _ _ => false)
    (fun _ m => (m, Ok "")) (fun _ _ => no_git)
    (fun _ m => (m, Ok (returncode, "", stderrdata))).

(** A machine without nvcc. *)
Definition bare_host : Host :=
  mkHost true false "x86_64" ∅ "/src/cupy" None (fun k => pretty k)
    (fun _ _ => None) (fun _ _ => None) (fun _ _ => false)
    (fun _ m => (m, Ok "")) (fun _ _ => no_git)
    (fun _ m =>
       (m, Raise (OSError "[Errno 2] No such file or directory: 'nvcc'"))).

(** A numeral of 4301 digits, one more than [int()] converts. *)
Definition long_numeral : string :=
  string_of_list_ascii (repeat "9"%char 4301).

(** ** Concrete machines for the path functions *)

(** A conda cross-compilation for CUDA 12 on an ARM server, with every
    prefix set. *)
Definition conda_host : Host :=
  quiet_host true false "aarch64"
    {[ "CONDA_BUILD_CROSS_COMPILATION" := "1";
       "CONDA_OVERRIDE_CUDA" := "12.2";
       "BUILD_PREFIX" := "/bld";
       "PREFIX" := "/pfx";
       "LIBRARY_INC" := "/pfx/Library/include";
       "LIBRARY_LIB" := "/pfx/Library/lib" ]}
    None "" no_git.

(** A Linux host with the environment [env]. *)
Definition env_host (env : gmap string string) : Host :=
  quiet_host true false "x86_64" env None "" no_git.

(** A POSIX machine on which exactly the paths [present] exist and no
    nvcc is on the search path, so that [dirname] and [normpath] are
    never consulted; the [NVCC] and [HIPCC] it is given have no quotes,
    on which [shlex.split] is [str.split]. *)
Definition sample_os (present : list string) : Os :=
  mkOs (fun p => existsb (String.eqb p) present) path_join
    (fun p => p) (fun p => p) (fun s => Ok (Py.split_ws s)) (fun _ => None).

(** The state right after import. *)
Definition fresh_session : Session := mkSession initial_paths import_world.

Definition sample_ctx : Context := mkContext ["/opt/include"] ["/opt/lib"].

Definition cuda_host : Host := env_host {[ "CUDA_PATH" := "/opt/cuda" ]}.

Definition rocm_host : Host := env_host {[ "ROCM_HOME" := "/opt/rocm" ]}.

(** The settings of a CUDA build on [cuda_host]. *)
Definition cuda_setting : Settings :=
  match (get_compiler_setting cuda_host (sample_os ["/opt/cuda"]) sample_ctx
           false fresh_session).1 with
  | Ok st => st
  | Raise _ => sample_settings
  end.

(** A Windows host that was told where NVTX is. *)
Definition win_host : Host :=
  quiet_host false true "AMD64" ∅ (Some "/nvtx") "" no_git.

(** The settings of a CUDA build on [win_host], where nothing exists. *)
Definition win_setting : Settings :=
  match (get_compiler_setting win_host (sample_os []) sample_ctx false
           fresh_session).1 with
  | Ok st => st
  | Raise _ => sample_settings
  end.

(** The match objects of the two diagnostics in [nvcc_diagnostics]. *)
Definition nvcc_matches : list (option Re.match_obj) :=
  match _match_output_lines Re.match_ nvcc_diagnostics
          [no_host_compiler_pattern; use_instead_pattern] with
  | Ok (Some matches) => matches
  | _ => []
  end.

(** [re.match] on the expressions the module uses, and on one that does
    not compile. *)
Definition strict_match (pattern line : string)
  : result (option Re.match_obj) :=
  if String.eqb pattern "("
  then Raise (OtherError "re.error"
                "missing ), unterminated subpattern at position 0")
  else Ok (Re.match_ pattern line).
(** * Properties *)

(** ** Facts about the built-ins and about paths *)

Lemma append_cons (c : ascii) (s t : string) :
  String c s +:+ t = String c (s +:+ t).
Proof. reflexivity. Qed.

Lemma append_empty_r (s : string) : s +:+ "" = s.
Proof. induction s as [|c s IH]; [done|]. by rewrite append_cons, IH. Qed.

Lemma append_assoc (s t u : string) : (s +:+ t) +:+ u = s +:+ t +:+ u.
Proof.
  induction s as [|c s IH]; [done|]. by rewrite !append_cons, IH.
Qed.

Lemma prefix_cons (a b : ascii) (s t : string) :
  String.prefix (String a s) (String b t)
  = if ascii_dec a b then String.prefix s t else false.
Proof. reflexivity. Qed.

Lemma digit_not_space (c : ascii) :
  Py.is_digit c = true -> Py.is_space c = false.
Proof.
  unfold Py.is_digit, Py.is_space. intros H.
  apply andb_true_iff in H as [H1 H2].
  apply Nat.leb_le in H1. apply Nat.leb_le in H2.
  apply orb_false_iff. split.
  - apply Nat.eqb_neq. lia.
  - apply andb_false_iff. right. apply Nat.leb_gt. lia.
Qed.

Lemma digit_not_char (c sep : ascii) :
  Py.is_digit c = true -> Py.is_digit sep = false -> Ascii.eqb c sep = false.
Proof.
  intros Hc Hsep. destruct (Ascii.eqb c sep) eqn:E; [|done].
  apply Ascii.eqb_eq in E. congruence.
Qed.

Lemma decimal_head (s : string) :
  is_decimal s = true ->
  exists c r, s = String c r /\ Py.is_digit c = true
              /\ all_chars Py.is_digit s = true.
Proof.
  unfold is_decimal. intros H. apply andb_true_iff in H as [Hne Hall].
  destruct s as [|c r]; [done|]. exists c, r.
  pose proof Hall as Hall'. cbn in Hall'.
  apply andb_true_iff in Hall' as [Hc _]. done.
Qed.

(** *** [int] *)

(** A character that ends a run of digits. *)
Definition ends_run (rest : string) : Prop :=
  match rest with
  | String c _ => Py.is_digit c = false /\ Ascii.eqb c "_" = false
  | EmptyString => True
  end.

Lemma scan_digits_run (s rest : string) (prev : bool) (count : nat) (acc : Z) :
  all_chars Py.is_digit s = true ->
  ends_run rest ->
  Py.scan_digits prev count acc (s +:+ rest)
  = Some ((count + String.length s)%nat, decimal_from acc s, rest).
Proof.
  revert prev count acc.
  induction s as [|c s IH]; intros prev count acc Hall Hrest.
  - change ("" +:+ rest) with rest. cbn [String.length decimal_from].
    rewrite Nat.add_0_r.
    destruct rest as [|c r]; [done|]. destruct Hrest as [Hd Hu].
    cbn [Py.scan_digits]. by rewrite Hd, Hu.
  - cbn in Hall. apply andb_true_iff in Hall as [Hc Hall].
    rewrite append_cons. cbn [Py.scan_digits String.length decimal_from].
    rewrite Hc, IH by done. by rewrite Nat.add_succ_r.
Qed.

Global Arguments Py.MAX_STR_DIGITS : simpl never.

(** [int] of a decimal numeral of at most 4300 digits is the number it
    denotes, whatever the type of the argument. *)
Lemma int_literal_decimal (shown s : string) :
  int_readable s = true -> Py.int_literal shown s = Ok (decimal_value s).
Proof.
  unfold int_readable. intros H. apply andb_true_iff in H as [Hdec Hlen].
  destruct (decimal_head s Hdec) as (c & r & -> & Hc & Hall).
  unfold Py.int_literal. cbn [Py.lstrip].
  rewrite (digit_not_space c Hc). unfold Py.split_sign.
  rewrite !(digit_not_char c) by done.
  rewrite <- (append_empty_r (String c r)) at 1.
  rewrite scan_digits_run by done.
  apply Nat.leb_le in Hlen.
  replace (Py.MAX_STR_DIGITS <? 0 + String.length (String c r))%nat
    with false by (symmetry; apply Nat.ltb_ge; lia).
  done.
Qed.

Lemma int_decimal (s : string) :
  int_readable s = true -> Py.int s = Ok (decimal_value s).
Proof. apply int_literal_decimal. Qed.

Lemma int_str_decimal (s : string) :
  int_readable s = true -> Py.int_str s = Ok (decimal_value s).
Proof. apply int_literal_decimal. Qed.

(** A numeral of more than 4300 digits is refused. *)
Lemma int_literal_long (shown s : string) :
  is_decimal s = true ->
  (Py.MAX_STR_DIGITS < String.length s)%nat ->
  Py.int_literal shown s = Raise (Py.too_many_digits (String.length s)).
Proof.
  intros Hdec Hlen.
  destruct (decimal_head s Hdec) as (c & r & -> & Hc & Hall).
  unfold Py.int_literal. cbn [Py.lstrip].
  rewrite (digit_not_space c Hc). unfold Py.split_sign.
  rewrite !(digit_not_char c) by done.
  rewrite <- (append_empty_r (String c r)) at 1.
  rewrite scan_digits_run by done.
  replace (Py.MAX_STR_DIGITS <? 0 + String.length (String c r))%nat
    with true by (symmetry; apply Nat.ltb_lt; lia).
  done.
Qed.

(** An integer as [%d] prints it is read back. *)
Lemma int_integer (token : string) :
  is_integer token = true -> Py.int token = Ok (integer_value token).
Proof.
  unfold is_integer, integer_value. destruct token as [|c r]; [done|].
  destruct (Ascii.eqb c "-") eqn:Hsign; [|apply int_decimal].
  apply Ascii.eqb_eq in Hsign as ->.
  unfold int_readable. intros H. apply andb_true_iff in H as [Hdec Hlen].
  destruct (decimal_head r Hdec) as (c & r' & -> & Hc & Hall).
  unfold Py.int, Py.int_literal. cbn [Py.lstrip].
  change (Py.is_space "-") with false. cbv iota.
  unfold Py.split_sign. rewrite Ascii.eqb_refl.
  rewrite <- (append_empty_r (String c r')) at 1.
  rewrite scan_digits_run by done.
  apply Nat.leb_le in Hlen.
  replace (Py.MAX_STR_DIGITS <? 0 + String.length (String c r'))%nat
    with false by (symmetry; apply Nat.ltb_ge; lia).
  done.
Qed.

(** [int] rejects a numeral followed by a dash, with [ValueError]. *)
Lemma int_str_dashed (z rest : string) :
  is_decimal z = true ->
  exists msg, Py.int_str (z +:+ String "-" rest) = Raise (ValueError msg).
Proof.
  intros Hdec.
  destruct (decimal_head z Hdec) as (c & r & -> & Hc & Hall).
  unfold Py.int_str, Py.int_literal. rewrite append_cons. cbn [Py.lstrip].
  rewrite (digit_not_space c Hc). unfold Py.split_sign.
  rewrite !(digit_not_char c) by done.
  rewrite <- append_cons, scan_digits_run by done.
  destruct (Py.MAX_STR_DIGITS <? _)%nat; [by eexists|].
  cbn [Py.lstrip]. change (Py.is_space "-") with false. cbv iota.
  cbn [Py.is_empty negb]. rewrite orb_true_r. by eexists.
Qed.

(** *** [split] *)

Lemma split_nonempty (sep : ascii) (s : string) : Py.split sep s <> [].
Proof. induction s as [|c s IH]; cbn; [done|]. repeat case_match; done. Qed.

(** Splitting after a prefix that does not hold the separator. *)
Lemma split_prefix (sep : ascii) (a b : string) :
  all_chars (fun c => negb (Ascii.eqb c sep)) a = true ->
  Py.split sep (a +:+ b)
  = match Py.split sep b with
    | hd :: tl => (a +:+ hd) :: tl
    | [] => [a]
    end.
Proof.
  induction a as [|c a IH]; intros Hall.
  - pose proof (split_nonempty sep b). change ("" +:+ b) with b.
    destruct (Py.split sep b); [done|reflexivity].
  - cbn in Hall. apply andb_true_iff in Hall as [Hc Hall].
    apply negb_true_iff in Hc.
    rewrite append_cons. cbn [Py.split]. rewrite Hc, IH by done.
    pose proof (split_nonempty sep b). by destruct (Py.split sep b).
Qed.

Lemma split_component (sep : ascii) (a b : string) :
  all_chars (fun c => negb (Ascii.eqb c sep)) a = true ->
  Py.split sep (a +:+ String sep b) = a :: Py.split sep b.
Proof.
  intros Hall. rewrite split_prefix by done. cbn [Py.split].
  rewrite Ascii.eqb_refl. by rewrite append_empty_r.
Qed.

Lemma split_last (sep : ascii) (a : string) :
  all_chars (fun c => negb (Ascii.eqb c sep)) a = true ->
  Py.split sep a = [a].
Proof.
  intros Hall. rewrite <- (append_empty_r a) at 1.
  rewrite split_prefix by done. cbn. by rewrite append_empty_r.
Qed.

Lemma decimal_no_char (sep : ascii) (s : string) :
  Py.is_digit sep = false ->
  is_decimal s = true ->
  all_chars (fun c => negb (Ascii.eqb c sep)) s = true.
Proof.
  intros Hsep H. unfold is_decimal in H.
  apply andb_true_iff in H as [_ Hall].
  induction s as [|c s IH]; [done|].
  cbn in *. apply andb_true_iff in Hall as [Hc Hall].
  rewrite (digit_not_char c sep) by done. by rewrite IH.
Qed.

Lemma has_char_all (sep : ascii) (s : string) :
  Py.has_char sep s = false ->
  all_chars (fun c => negb (Ascii.eqb c sep)) s = true.
Proof.
  induction s as [|c s IH]; [done|]. cbn.
  intros H. apply orb_false_iff in H as [Hc Hs].
  rewrite Ascii.eqb_sym, Hc. by rewrite IH.
Qed.

Lemma drop_last_cons (c : ascii) (s : string) :
  s <> EmptyString -> Py.drop_last (String c s) = String c (Py.drop_last s).
Proof. intros H. destruct s; [congruence|reflexivity]. Qed.

Lemma drop_last_newline (s : string) : Py.drop_last (s +:+ nl) = s.
Proof.
  induction s as [|c s IH]; [done|].
  rewrite append_cons, drop_last_cons, IH; [done|by destruct s].
Qed.

(** *** [split()] on whitespace *)

Lemma split_ws_lead (lead s : string) :
  all_chars Py.is_space lead = true ->
  Py.split_ws (lead +:+ s) = Py.split_ws s.
Proof.
  induction lead as [|c lead IH]; intros Hall; [done|].
  cbn in Hall. apply andb_true_iff in Hall as [Hc Hall].
  rewrite append_cons. cbn [Py.split_ws]. by rewrite Hc, IH.
Qed.

(** What follows a token: nothing, or whitespace. *)
Definition ends_token (s : string) : Prop :=
  match s with
  | String c _ => Py.is_space c = true
  | EmptyString => True
  end.

Lemma split_ws_token (token s : string) :
  token <> EmptyString ->
  all_chars (fun c => negb (Py.is_space c)) token = true ->
  ends_token s ->
  Py.split_ws (token +:+ s) = token :: Py.split_ws s.
Proof.
  intros Hne Hall Hs.
  induction token as [|c token IH]; [done|]. clear Hne.
  cbn in Hall. apply andb_true_iff in Hall as [Hc Hall].
  apply negb_true_iff in Hc.
  rewrite append_cons. cbn [Py.split_ws]. rewrite Hc.
  destruct token as [|d token].
  - change ("" +:+ s) with s. destruct s as [|d s]; [done|].
    cbn in Hs. by rewrite Hs.
  - pose proof Hall as Hall'. cbn in Hall'.
    apply andb_true_iff in Hall' as [Hd _]. apply negb_true_iff in Hd.
    rewrite append_cons, Hd, <- append_cons. by rewrite IH.
Qed.

Lemma integer_no_space (token : string) :
  is_integer token = true ->
  token <> EmptyString
  /\ all_chars (fun c => negb (Py.is_space c)) token = true.
Proof.
  assert (Hdigits : forall s, all_chars Py.is_digit s = true ->
            all_chars (fun c => negb (Py.is_space c)) s = true).
  { induction s as [|c s IH]; [done|]. cbn. intros H.
    apply andb_true_iff in H as [Hc Hs].
    by rewrite (digit_not_space c Hc), IH. }
  unfold is_integer, int_readable, is_decimal.
  destruct token as [|c r]; [done|]. intros H. split; [done|].
  destruct (Ascii.eqb c "-") eqn:Hsign.
  - apply Ascii.eqb_eq in Hsign as ->.
    apply andb_true_iff in H as [H _]. apply andb_true_iff in H as [_ H].
    cbn. by apply Hdigits.
  - apply andb_true_iff in H as [H _]. apply andb_true_iff in H as [_ H].
    by apply Hdigits.
Qed.

(** Whitespace-separated integers are split into the integers. *)
Lemma split_ws_spaced (items : list (string * string)) :
  whitespace_separated items = true ->
  Py.split_ws (spaced items) = items.*1.
Proof.
  induction items as [|[token sep] items IH]; [done|].
  cbn [whitespace_separated spaced fmap list_fmap fst].
  intros H. apply andb_true_iff in H as [H Hrest].
  apply andb_true_iff in H as [H Hlast].
  apply andb_true_iff in H as [Htoken Hsep].
  destruct (integer_no_space token Htoken) as [Hne Hall].
  rewrite split_ws_token; [|done|done|].
  - by rewrite split_ws_lead, IH.
  - destruct sep as [|c sep].
    + cbn in Hlast. apply bool_decide_eq_true in Hlast as ->. done.
    + cbn in Hsep. apply andb_true_iff in Hsep as [Hc _]. done.
Qed.

Lemma ints_integers (tokens : list string) :
  forallb is_integer tokens = true ->
  Py.ints tokens = Ok (integer_value <$> tokens).
Proof.
  induction tokens as [|token tokens IH]; [done|]. cbn.
  intros H. apply andb_true_iff in H as [Htoken Hrest].
  by rewrite (int_integer token Htoken), IH.
Qed.

Lemma spaced_integers (items : list (string * string)) :
  whitespace_separated items = true -> forallb is_integer items.*1 = true.
Proof.
  induction items as [|[token sep] items IH]; [done|]. cbn.
  intros H. apply andb_true_iff in H as [H Hrest].
  apply andb_true_iff in H as [H _]. apply andb_true_iff in H as [Htoken _].
  by rewrite Htoken, IH.
Qed.

(** *** Paths *)

Lemma prefix_append (p s : string) : String.prefix p (p +:+ s) = true.
Proof.
  induction p as [|c p IH]; simpl; [by destruct s|].
  destruct (ascii_dec c c); [done|congruence].
Qed.

Lemma strip_prefix_append (p s : string) : strip_prefix p (p +:+ s) = Some s.
Proof.
  induction p as [|c p IH]; [done|].
  rewrite append_cons. cbn [strip_prefix]. by rewrite Ascii.eqb_refl.
Qed.

(** [os.path.join(d, name)] stays inside [d] for a relative [name]. *)
Lemma path_join_relative (d name : string) :
  Py.is_empty d = false ->
  Py.startswith "/" name = false ->
  path_join d name = dir_prefix d +:+ name.
Proof.
  intros Hd Hname. unfold path_join, dir_prefix. rewrite Hname, Hd.
  rewrite orb_false_l.
  destruct (ends_with_slash d); [done|]. by rewrite append_assoc.
Qed.

(** [os.path.join] does not lose a last argument that is not empty. *)
Lemma path_join_nonempty (a b : string) :
  Py.is_empty b = false -> Py.is_empty (path_join a b) = false.
Proof.
  intros Hb. unfold path_join.
  destruct (Py.startswith "/" b); [done|].
  destruct (Py.is_empty a || ends_with_slash a); by destruct a.
Qed.

Lemma at_or_under_self (d : string) : at_or_under d d = true.
Proof. unfold at_or_under. by rewrite String.eqb_refl. Qed.

Lemma plain_name_relative (name : string) :
  plain_name name = true ->
  Py.startswith "/" name = false /\ climbs name = false.
Proof.
  unfold plain_name. intros H. apply andb_true_iff in H as [H Hdots].
  apply andb_true_iff in H as [Hne Hslash].
  apply negb_true_iff in Hslash, Hdots. split.
  - destruct name as [|c name]; [done|]. cbn in Hslash.
    apply orb_false_iff in Hslash as [Hc _].
    unfold Py.startswith. rewrite prefix_cons.
    destruct (ascii_dec "/" c) as [<-|]; [done|reflexivity].
  - unfold climbs. rewrite split_last by (by apply has_char_all).
    cbn [existsb]. rewrite orb_false_r. by rewrite String.eqb_sym.
Qed.

(** A file named in [d] lies in [d]. *)
Lemma under_plain_name (d name : string) :
  Py.is_empty d = false -> plain_name name = true ->
  at_or_under d (path_join d name) = true.
Proof.
  intros Hd Hname. destruct (plain_name_relative name Hname) as [Hrel Hup].
  rewrite path_join_relative by done. unfold at_or_under.
  rewrite strip_prefix_append, Hup. apply orb_true_r.
Qed.

(** Stripping the optional [v]: what is left starts with the numeral. *)
Lemma strip_v_prefix (v_prefix : bool) (x rest : string) :
  is_decimal x = true ->
  (let tag := (if v_prefix then "v" else "") +:+ x +:+ rest in
   if Py.startswith "v" tag then Py.tail tag else tag) = x +:+ rest.
Proof.
  intros H. unfold is_decimal in H. apply andb_true_iff in H as [Hne Hall].
  destruct x as [|c x]; [done|].
  cbn in Hall. apply andb_true_iff in Hall as [Hc _].
  destruct v_prefix; cbv zeta.
  - change ("v" +:+ String c x +:+ rest)
      with (String "v" (String c (x +:+ rest))).
    reflexivity.
  - change ("" +:+ String c x +:+ rest) with (String c (x +:+ rest)).
    unfold Py.startswith. rewrite prefix_cons.
    destruct (ascii_dec "v" c) as [<-|]; [done|reflexivity].
Qed.

(** ** The diagnostic matcher *)

Section MatchOutputLinesFacts.
Context {Pattern Line MatchObj : Type}.
Variable re_match : Pattern -> Line -> option MatchObj.

Lemma index_lookup {A} (l : list A) (i : nat) (a : A) :
  l !! i = Some a -> Py.index l i = Ok a.
Proof. intros H. unfold Py.index. by rewrite H. Qed.

(** One start offset: the inner loop reaches its [else] branch exactly
    when the window matches, and then [matches] holds the window's match
    objects from position [j0] on. *)
Lemma match_from_window (output_lines : list Line) (regexs : list Pattern)
    (i k j0 : nat) (matches : list (option MatchObj)) :
  (j0 + k = length regexs)%nat ->
  length matches = length regexs ->
  (i + length regexs <= length output_lines)%nat ->
  match window_matches re_match (drop j0 regexs) (drop (i + j0) output_lines) with
  | Some ms =>
      match_from re_match output_lines regexs i (seq j0 k) matches
      = Ok (true, take j0 matches ++ returned ms)
  | None =>
      exists matches',
        match_from re_match output_lines regexs i (seq j0 k) matches
        = Ok (false, matches')
        /\ length matches' = length regexs
  end.
Proof.
  revert j0 matches. induction k as [|k IH]; intros j0 matches Hj Hlen Hfit.
  - rewrite drop_ge by lia. simpl.
    rewrite take_ge by lia. by rewrite app_nil_r.
  - assert (Hr : is_Some (regexs !! j0)) by (apply lookup_lt_is_Some; lia).
    assert (Hl : is_Some (output_lines !! (i + j0)%nat))
      by (apply lookup_lt_is_Some; lia).
    destruct Hr as [r Hr], Hl as [l Hl].
    rewrite (drop_S _ _ _ Hr), (drop_S _ _ _ Hl).
    cbn [window_matches seq match_from].
    rewrite (index_lookup _ _ _ Hr), (index_lookup _ _ _ Hl).
    cbn [mbind result_bind].
    change (match_answer (re_match r l)) with (Ok (re_match r l)).
    cbn [mbind result_bind].
    destruct (re_match r l) as [m|] eqn:Hm; cbn [mbind option_bind].
    + specialize (IH (S j0) (<[j0 := Some m]> matches)).
      rewrite Nat.add_succ_r in IH.
      destruct (window_matches re_match (drop (S j0) regexs)
                  (drop (S (i + j0)) output_lines)) as [ms|] eqn:Hw;
        cbn [mbind option_bind].
      * rewrite IH by (rewrite ?length_insert; lia).
        do 2 f_equal.
        rewrite (take_S_r _ _ (Some m))
          by (apply list_lookup_insert_eq; lia).
        rewrite take_insert_ge by lia.
        by rewrite <- app_assoc.
      * destruct IH as (matches' & Heq & Hlen');
          [lia | rewrite length_insert; lia | lia |].
        by exists matches'.
    + by exists matches.
Qed.

(** The outer loop returns the window of the first offset it is given
    whose window matches. *)
Lemma scan_offsets_first_window (output_lines : list Line)
    (regexs : list Pattern) (offsets : list nat)
    (matches : list (option MatchObj)) :
  Forall (fun i => (i + length regexs <= length output_lines)%nat) offsets ->
  length matches = length regexs ->
  scan_offsets re_match output_lines regexs offsets matches
  = Ok (returned <$> first_window re_match output_lines regexs offsets).
Proof.
  intros Hfit. revert matches.
  induction Hfit as [|i offsets Hi _ IH]; intros matches Hlen; [done|].
  cbn [scan_offsets first_window]. unfold window_at.
  pose proof (match_from_window output_lines regexs i (length regexs) 0
                matches eq_refl Hlen Hi) as Hw.
  rewrite Nat.add_0_r, drop_0 in Hw.
  destruct (window_matches re_match regexs (drop i output_lines)) as [ms|].
  - rewrite Hw. by rewrite take_0.
  - destruct Hw as (matches' & -> & Hlen'). cbn. by apply IH.
Qed.

(** What the code computes: the first matching window among the start
    offsets [0 .. len(lines) - len(regexs) - 1].  The offset
    [len(lines) - len(regexs)] is not looked at. *)
Lemma match_output_lines_scanned (output_lines : list Line)
    (regexs : list Pattern) :
  _match_output_lines re_match output_lines regexs
  = Ok (returned <$>
          first_window re_match output_lines regexs
            (seq 0 (length output_lines - length regexs))).
Proof.
  unfold _match_output_lines.
  destruct (length output_lines <? length regexs)%nat eqn:Hlt.
  - apply Nat.ltb_lt in Hlt.
    by replace (length output_lines - length regexs)%nat with 0%nat by lia.
  - apply Nat.ltb_ge in Hlt.
    apply scan_offsets_first_window; [|by rewrite length_replicate].
    apply Forall_forall. intros i Hi. apply elem_of_seq in Hi. lia.
Qed.

(** With as many lines as expressions the only valid start offset is
    [0], and the code never tries it. *)
Lemma match_output_lines_same_length (output_lines : list Line)
    (regexs : list Pattern) :
  length output_lines = length regexs ->
  _match_output_lines re_match output_lines regexs = Ok None.
Proof.
  intros Hlen. rewrite match_output_lines_scanned.
  by replace (length output_lines - length regexs)%nat with 0%nat by lia.
Qed.

(** No window can match when no line matches the first expression. *)
Lemma first_window_none (output_lines : list Line) (r : Pattern)
    (regexs : list Pattern) (offsets : list nat) :
  Forall (fun l => re_match r l = None) output_lines ->
  first_window re_match output_lines (r :: regexs) offsets = None.
Proof.
  intros Hnone. induction offsets as [|i offsets IH]; [done|].
  cbn [first_window]. unfold window_at.
  destruct (drop i output_lines) as [|l rest] eqn:Hd; cbn; [done|].
  assert (Hin : l ∈ output_lines).
  { apply (list_elem_of_lookup_2 _ i).
    rewrite <- (Nat.add_0_r i), <- lookup_drop, Hd. done. }
  rewrite Forall_forall in Hnone. by rewrite (Hnone l Hin).
Qed.

End MatchOutputLinesFacts.

(** *** When [re.match] can raise *)

Section MatchOutputLinesRaising.
Context {Pattern Line MatchObj : Type}.
Variable re_match : Pattern -> Line -> result (option MatchObj).

Lemma lookup_index {A} (l : list A) (i : nat) (a : A) :
  Py.index l i = Ok a -> l !! i = Some a.
Proof. unfold Py.index. destruct (l !! i); [by intros [= ->]|done]. Qed.

(** Where no call raises the loops do what they do with the answers
    alone. *)
Lemma match_from_answers (output_lines : list Line) (regexs : list Pattern)
    (i : nat) (js : list nat) (matches : list (option MatchObj)) :
  (forall r l, r ∈ regexs -> l ∈ output_lines ->
               exists m, re_match r l = Ok m) ->
  match_from re_match output_lines regexs i js matches
  = match_from (answers re_match) output_lines regexs i js matches.
Proof.
  intros Hquiet. revert matches.
  induction js as [|j js IH]; intros matches; [done|].
  cbn [match_from].
  destruct (Py.index regexs j) as [r|e] eqn:Hr; [|done].
  destruct (Py.index output_lines (i + j)) as [l|e] eqn:Hl; [|done].
  cbn [mbind result_bind].
  apply lookup_index, list_elem_of_lookup_2 in Hr, Hl.
  destruct (Hquiet r l Hr Hl) as [m Hm].
  change (match_answer (re_match r l)) with (re_match r l).
  change (match_answer (answers re_match r l))
    with (Ok (answers re_match r l) : result (option MatchObj)).
  unfold answers. rewrite Hm.
  cbn [mbind result_bind]. destruct m as [m|]; [apply IH|done].
Qed.

Lemma scan_offsets_answers (output_lines : list Line) (regexs : list Pattern)
    (offsets : list nat) (matches : list (option MatchObj)) :
  (forall r l, r ∈ regexs -> l ∈ output_lines ->
               exists m, re_match r l = Ok m) ->
  scan_offsets re_match output_lines regexs offsets matches
  = scan_offsets (answers re_match) output_lines regexs offsets matches.
Proof.
  intros Hquiet. revert matches.
  induction offsets as [|i offsets IH]; intros matches; [done|].
  cbn [scan_offsets]. rewrite match_from_answers by done.
  destruct (match_from (answers re_match) _ _ _ _ _) as [[[] matches']|e];
    cbn [mbind result_bind]; [done|apply IH|done].
Qed.

(** An exception that leaves the inner loop is the one a call of
    [re.match] raised, on an expression and the line [i + j] it is
    matched against. *)
Lemma match_from_raises (output_lines : list Line) (regexs : list Pattern)
    (i k j0 : nat) (matches : list (option MatchObj)) (e : exn) :
  (j0 + k = length regexs)%nat ->
  (i + length regexs <= length output_lines)%nat ->
  match_from re_match output_lines regexs i (seq j0 k) matches = Raise e ->
  exists j r l,
    regexs !! j = Some r /\ output_lines !! (i + j)%nat = Some l
    /\ re_match r l = Raise e.
Proof.
  revert j0 matches. induction k as [|k IH]; intros j0 matches Hj Hfit; [done|].
  assert (Hr : is_Some (regexs !! j0)) by (apply lookup_lt_is_Some; lia).
  assert (Hl : is_Some (output_lines !! (i + j0)%nat))
    by (apply lookup_lt_is_Some; lia).
  destruct Hr as [r Hr], Hl as [l Hl].
  cbn [seq match_from].
  rewrite (index_lookup _ _ _ Hr), (index_lookup _ _ _ Hl).
  cbn [mbind result_bind].
  change (match_answer (re_match r l)) with (re_match r l).
  destruct (re_match r l) as [[m|]|e'] eqn:Hm; cbn [mbind result_bind].
  - apply IH; lia.
  - done.
  - intros [= ->]. by exists j0, r, l.
Qed.

Lemma scan_offsets_raises (output_lines : list Line) (regexs : list Pattern)
    (offsets : list nat) (matches : list (option MatchObj)) (e : exn) :
  Forall (fun i => (i + length regexs <= length output_lines)%nat) offsets ->
  scan_offsets re_match output_lines regexs offsets matches = Raise e ->
  exists i j r l,
    i ∈ offsets /\ regexs !! j = Some r
    /\ output_lines !! (i + j)%nat = Some l /\ re_match r l = Raise e.
Proof.
  intros Hfit. revert matches.
  induction Hfit as [|i offsets Hi _ IH]; intros matches; [done|].
  cbn [scan_offsets].
  destruct (match_from re_match output_lines regexs i
              (seq 0 (length regexs)) matches)
    as [[[] matches']|e'] eqn:Hfrom; cbn [mbind result_bind].
  - done.
  - intros Hrest. destruct (IH _ Hrest) as (i' & j & r & l & Hin & H).
    exists i', j, r, l. split; [by right|done].
  - intros [= ->].
    destruct (match_from_raises output_lines regexs i (length regexs) 0
                matches e eq_refl Hi Hfrom)
      as (j & r & l & H).
    exists i, j, r, l. split; [by left|done].
Qed.

(** The matcher scans the start offsets
    [0 .. len(lines) - len(regexs) - 1] and nothing else.  When no call
    of [re.match] raises it returns the match objects of the first of
    these windows that matches, and [None] when none does.  When it
    raises, the exception is the one [re.match] raised on an expression
    and the line of a scanned window it is matched against; the matcher
    raises nothing of its own. *)
Theorem match_output_lines_first_scanned_window (output_lines : list Line)
    (regexs : list Pattern) :
  ((forall r l, r ∈ regexs -> l ∈ output_lines ->
                exists m, re_match r l = Ok m) ->
   _match_output_lines re_match output_lines regexs
   = Ok (returned <$>
           first_window (answers re_match) output_lines regexs
             (seq 0 (length output_lines - length regexs))))
  /\ (forall e,
        _match_output_lines re_match output_lines regexs = Raise e ->
        exists i j r l,
          (i + length regexs < length output_lines)%nat
          /\ regexs !! j = Some r
          /\ output_lines !! (i + j)%nat = Some l
          /\ re_match r l = Raise e).
Proof.
  split.
  - intros Hquiet. rewrite <- match_output_lines_scanned.
    unfold _match_output_lines.
    destruct (length output_lines <? length regexs)%nat; [done|].
    by apply scan_offsets_answers.
  - intros e. unfold _match_output_lines.
    destruct (length output_lines <? length regexs)%nat eqn:Hlt; [done|].
    apply Nat.ltb_ge in Hlt. intros Hraise.
    apply scan_offsets_raises in Hraise
      as (i & j & r & l & Hin & Hr & Hl & Hm).
    + exists i, j, r, l. apply elem_of_seq in Hin. repeat split; [lia|done..].
    + apply Forall_forall. intros i Hi. apply elem_of_seq in Hi. lia.
Qed.

End MatchOutputLinesRaising.

(** C1.  The matcher does not consider every valid start offset: its scan
    stops one short.  On the two nvcc diagnostics alone the only valid
    start offset is [0 = len(lines) - len(regexs)]; the window there
    matches both expressions, and the matcher still answers [None]. *)
Theorem match_output_lines_skips_last_offset :
  valid_offsets bare_diagnostics
    [no_host_compiler_pattern; use_instead_pattern] = [0%nat]
  /\ window_at Re.match_ bare_diagnostics
       [no_host_compiler_pattern; use_instead_pattern] 0
     = Some [Re.MatchObj
               "ERROR: No supported gcc/g++ host compiler found, but X is available."
               [];
             Re.MatchObj "Use 'nvcc --foo' to use that instead." ["--foo"]]
  /\ _match_output_lines Re.match_ bare_diagnostics
       [no_host_compiler_pattern; use_instead_pattern] = Ok None.
Proof. split; [|split]; vm_compute; reflexivity. Qed.

(** On the lines of the specification's example the first expression has
    nothing to match: [ERROR: X] is not the diagnostic of line 275. *)
Lemma short_diagnostics_no_match :
  Re.match_ no_host_compiler_pattern "ERROR: X" = None
  /\ _match_output_lines Re.match_ short_diagnostics
       [no_host_compiler_pattern; use_instead_pattern] = Ok None
  /\ base_options_of_diagnostics short_diagnostics = Ok None.
Proof. split; [|split]; vm_compute; reflexivity. Qed.

(** C4, amended.  With the full first diagnostic in the second line the
    matcher returns the two match objects, the second of which captured
    [--foo], and the base options are [--foo]; on lines none of which
    matches the first expression the matcher returns [None]. *)
Theorem base_options_from_diagnostics :
  (exists m0 m1,
      _match_output_lines Re.match_ nvcc_diagnostics
        [no_host_compiler_pattern; use_instead_pattern]
      = Ok (Some [Some m0; Some m1])
      /\ Re.group m1 1 = Ok "--foo")
  /\ base_options_of_diagnostics nvcc_diagnostics = Ok (Some ["--foo"])
  /\ forall lines : list string,
      Forall (fun l => Re.match_ no_host_compiler_pattern l = None) lines ->
      _match_output_lines Re.match_ lines
        [no_host_compiler_pattern; use_instead_pattern] = Ok None
      /\ base_options_of_diagnostics lines = Ok None.
Proof.
  split; [|split].
  - eexists _, _. split; vm_compute; reflexivity.
  - vm_compute; reflexivity.
  - intros lines Hnone.
    assert (Hm : _match_output_lines Re.match_ lines
                   [no_host_compiler_pattern; use_instead_pattern] = Ok None).
    { rewrite match_output_lines_scanned.
      by rewrite (first_window_none _ _ _ _ _ Hnone). }
    split; [done|]. unfold base_options_of_diagnostics. by rewrite Hm.
Qed.

(** Two lines of an unrelated nvcc failure: no match. *)
Lemma base_options_from_diagnostics_witness :
  _match_output_lines Re.match_ unrelated_lines
    [no_host_compiler_pattern; use_instead_pattern] = Ok None
  /\ base_options_of_diagnostics unrelated_lines = Ok None.
Proof.
  apply (proj2 (proj2 base_options_from_diagnostics) unrelated_lines).
  repeat constructor.
Defined.

(** ** Accessors *)

(** [get_compute_capabilities] has no guard: before its check it hands
    out the unset cache, [None], and raises nothing. *)
Lemma compute_capabilities_before_check :
  _compute_capabilities (globals import_world) = None
  /\ get_compute_capabilities false import_world = Ok None
  /\ get_compute_capabilities true import_world = Ok None.
Proof. by repeat split. Qed.

(** C2, amended.  Each of the eight version accessors raises its
    "must be called first" error whenever the cache of its check is still
    unset, whatever [formatted] is; the outcome is a function of the
    cache alone. *)
Theorem accessor_before_check (formatted : bool) (w : World) :
  (_hip_version (globals w) = None ->
   get_hip_version formatted w
   = Raise (RuntimeError "check_hip_version() must be called first."))
  /\ (_thrust_version (globals w) = None ->
      get_thrust_version formatted w
      = Raise (RuntimeError "check_thrust_version() must be called first."))
  /\ (_cudnn_version (globals w) = None ->
      get_cudnn_version formatted w
      = Raise (RuntimeError "check_cudnn_version() must be called first."))
  /\ (_nccl_version (globals w) = None ->
      get_nccl_version formatted w
      = Raise (RuntimeError "check_nccl_version() must be called first."))
  /\ (_cub_version (globals w) = None ->
      get_cub_version formatted w
      = Raise (RuntimeError "check_cub_version() must be called first."))
  /\ (_jitify_version (globals w) = None ->
      get_jitify_version formatted w
      = Raise (RuntimeError "check_jitify_version() must be called first."))
  /\ (_cutensor_version (globals w) = None ->
      get_cutensor_version formatted w
      = Raise (RuntimeError "check_cutensor_version() must be called first."))
  /\ (_cusparselt_version (globals w) = None ->
      get_cusparselt_version formatted w
      = Raise (RuntimeError "check_cusparselt_version() must be called first.")).
Proof.
  unfold get_hip_version, get_thrust_version, get_cudnn_version,
    get_nccl_version, get_cub_version, get_jitify_version,
    get_cutensor_version, get_cusparselt_version.
  repeat split; intros ->; reflexivity.
Qed.

(** Right after import every one of the eight accessors raises. *)
Lemma accessor_before_check_witness :
  get_hip_version false import_world
  = Raise (RuntimeError "check_hip_version() must be called first.")
  /\ get_thrust_version false import_world
     = Raise (RuntimeError "check_thrust_version() must be called first.")
  /\ get_cudnn_version false import_world
     = Raise (RuntimeError "check_cudnn_version() must be called first.")
  /\ get_nccl_version false import_world
     = Raise (RuntimeError "check_nccl_version() must be called first.")
  /\ get_cub_version false import_world
     = Raise (RuntimeError "check_cub_version() must be called first.")
  /\ get_jitify_version true import_world
     = Raise (RuntimeError "check_jitify_version() must be called first.")
  /\ get_cutensor_version false import_world
     = Raise (RuntimeError "check_cutensor_version() must be called first.")
  /\ get_cusparselt_version false import_world
     = Raise (RuntimeError "check_cusparselt_version() must be called first.").
Proof.
  destruct (accessor_before_check false import_world)
    as (H1 & H2 & H3 & H4 & H5 & _ & H7 & H8).
  destruct (accessor_before_check true import_world)
    as (_ & _ & _ & _ & _ & H6 & _ & _).
  split; [exact (H1 eq_refl)|]. split; [exact (H2 eq_refl)|].
  split; [exact (H3 eq_refl)|]. split; [exact (H4 eq_refl)|].
  split; [exact (H5 eq_refl)|]. split; [exact (H6 eq_refl)|].
  split; [exact (H7 eq_refl)|]. exact (H8 eq_refl).
Defined.
(** ** The workspace of a probe *)

Lemma same_module_state_refl (w : World) : same_module_state w w.
Proof. done. Qed.

Lemma same_module_state_trans (w1 w2 w3 : World) :
  same_module_state w1 w2 -> same_module_state w2 w3 ->
  same_module_state w1 w3.
Proof.
  intros (Hg & Hh & Hw) (Hg' & Hh' & Hw'). repeat split; congruence.
Qed.

Lemma stays_inside_refl (P : Prop) (d : string) (w : World) :
  stays_inside P d w w.
Proof.
  repeat split; try done. exists []. split; [by rewrite app_nil_r|constructor].
Qed.

Lemma stays_inside_trans (P : Prop) (d : string) (w1 w2 w3 : World) :
  stays_inside P d w1 w2 -> stays_inside P d w2 w3 -> stays_inside P d w1 w3.
Proof.
  intros (Hs & Ht & (evs & Htr & Hin) & Hfs)
         (Hs' & Ht' & (evs' & Htr' & Hin') & Hfs').
  split; [by apply same_module_state_trans with w2|].
  split; [congruence|]. split.
  - exists (evs ++ evs'). split; [|by apply Forall_app].
    by rewrite Htr', Htr, app_assoc.
  - intros HP p Hp. by rewrite Hfs', Hfs.
Qed.

(** One operation on the file system, which leaves the rest alone. *)
Lemma stays_inside_step (P : Prop) (d : string) (w : World)
    (f : gmap string content -> gmap string content) (ev : fs_event) :
  event_inside d ev ->
  (P -> forall p, at_or_under d p = false -> f (fs w) !! p = fs w !! p) ->
  stays_inside P d w (upd_fs f [ev] w).
Proof.
  intros Hev Hfs. repeat split; try done.
  exists [ev]. split; [done|]. by repeat constructor.
Qed.

Section WorkspaceFacts.
Variable host : Host.
Variable compiler : CCompiler.

Lemma body_inside_ret {A} (P : Prop) (d : string) (a : A) :
  body_inside P d (mret a : M A).
Proof. intros w. apply stays_inside_refl. Qed.

Lemma body_inside_raise {A} (P : Prop) (d : string) (e : exn) :
  body_inside P d (raise e : M A).
Proof. intros w. apply stays_inside_refl. Qed.


Lemma body_inside_bind {A B} (P : Prop) (d : string) (m : M A)
    (f : A -> M B) :
  body_inside P d m ->
  (forall a, body_inside P d (f a)) ->
  body_inside P d (m ≫= f).
Proof.
  intros Hm Hf w. specialize (Hm w).
  unfold mbind, M_bind. destruct (m w) as [[a|e] w1]; cbn in *; [|done].
  eapply stays_inside_trans; [exact Hm|apply Hf].
Qed.

Lemma body_inside_attempt {A} (P : Prop) (d : string) (m : M A) :
  body_inside P d m -> body_inside P d (attempt m).
Proof.
  intros Hm w. specialize (Hm w). unfold attempt.
  by destruct (m w) as [r w1].
Qed.

Lemma body_inside_write_file (P : Prop) (d fname : string) (text : content) :
  at_or_under d fname = true ->
  body_inside P d (write_file host fname text).
Proof.
  intros Hin w. unfold write_file.
  assert (Hne : forall c p, at_or_under d p = false ->
            <[fname := c]> (fs w) !! p = fs w !! p).
  { intros c p Hp. apply lookup_insert_ne. intros ->. congruence. }
  destruct (write_error host fname (fs w)) as [[e [partial|]]|]; cbn;
    apply stays_inside_step; try done; intros _; apply Hne.
Qed.

Lemma body_inside_compile (d : string) (sources include_dirs : list string)
    (macros : option (list (string * pyval))) (extra_postargs : list string) :
  Py.is_empty d = false ->
  body_inside (tools_confined host compiler) d
    (compile compiler sources d include_dirs macros extra_postargs).
Proof.
  intros Hd w. unfold compile.
  pose proof (fun (H : tools_confined host compiler) p =>
                proj1 H sources d include_dirs macros extra_postargs (fs w)
                  p Hd) as Hfs.
  destruct (cc_compile _ _ _ _ _ _ _) as [m objects]. cbn in *.
  by apply stays_inside_step.
Qed.

Lemma body_inside_link_executable (d name : string)
    (objects libraries library_dirs extra_postargs : list string)
    (target_lang : string) :
  Py.is_empty d = false -> plain_name name = true ->
  body_inside (tools_confined host compiler) d
    (link_with (cc_link_executable compiler) objects (path_join d name)
       libraries library_dirs extra_postargs target_lang).
Proof.
  intros Hd Hname w. unfold link_with.
  pose proof (fun (H : tools_confined host compiler) p =>
                proj1 (proj2 H) objects d name libraries library_dirs
                  extra_postargs target_lang (fs w) p Hd Hname) as Hfs.
  destruct (cc_link_executable _ _ _ _ _ _ _ _) as [m linked]. cbn in *.
  apply stays_inside_step; [by apply under_plain_name|done].
Qed.

Lemma body_inside_link_shared_lib (d name : string)
    (objects libraries library_dirs extra_postargs : list string)
    (target_lang : string) :
  Py.is_empty d = false -> plain_name name = true ->
  body_inside (tools_confined host compiler) d
    (link_with (cc_link_shared_lib compiler) objects (path_join d name)
       libraries library_dirs extra_postargs target_lang).
Proof.
  intros Hd Hname w. unfold link_with.
  pose proof (fun (H : tools_confined host compiler) p =>
                proj1 (proj2 (proj2 H)) objects d name libraries library_dirs
                  extra_postargs target_lang (fs w) p Hd Hname) as Hfs.
  destruct (cc_link_shared_lib _ _ _ _ _ _ _ _) as [m linked]. cbn in *.
  apply stays_inside_step; [by apply under_plain_name|done].
Qed.

Lemma body_inside_check_output (d name : string) :
  Py.is_empty d = false -> plain_name name = true ->
  body_inside (tools_confined host compiler) d
    (check_output host (path_join d name)).
Proof.
  intros Hd Hname w. unfold check_output.
  pose proof (fun (H : tools_confined host compiler) p =>
                proj2 (proj2 (proj2 H)) d name (fs w) p Hd Hname) as Hfs.
  destruct (run_binary _ _ _) as [m out]. cbn in *.
  apply stays_inside_step; [by apply under_plain_name|done].
Qed.


(** *** [_tempdir] *)

Lemma mkdtemp_search_name (tries k k' : nat) (m : gmap string content)
    (d : string) :
  mkdtemp_search host tries k m = (k', Ok d) -> Py.is_empty d = false.
Proof.
  revert k. induction tries as [|tries IH]; intros k; cbn; [done|].
  destruct (m !! tmp_candidate host k); [apply IH|].
  destruct (mkdir_error host _ m); [done|]. by intros [= _ <-].
Qed.

(** What [mkdtemp] does: it makes the one directory it returns, or
    nothing when it raises. *)
Lemma mkdtemp_outcome (w : World) :
  match mkdtemp host w with
  | (Ok d, w1) =>
      Py.is_empty d = false /\ same_module_state w w1
      /\ fs w1 = <[d := Directory]> (fs w)
      /\ fs_trace w1 = fs_trace w ++ [Mkdtemp d]
  | (Raise e, w1) =>
      same_module_state w w1 /\ fs w1 = fs w /\ fs_trace w1 = fs_trace w
  end.
Proof.
  unfold mkdtemp.
  destruct (mkdtemp_search host TMP_MAX (tmp_seq w) (fs w)) as [k [d|e]]
    eqn:Hsearch; cbn.
  - apply mkdtemp_search_name in Hsearch. done.
  - done.
Qed.

Lemma remove_tree_outside (d p : string) (m : gmap string content) :
  at_or_under d p = false -> remove_tree host d m !! p = m !! p.
Proof.
  intros Hp. unfold remove_tree.
  destruct (m !! p) as [c|] eqn:Hm.
  - apply map_lookup_filter_Some. split; [done|]. cbn. by rewrite Hp.
  - apply map_lookup_filter_None. by left.
Qed.

Lemma remove_tree_free (d : string) (m : gmap string content) :
  (forall p, undeletable host m p = false) ->
  dir_free d (remove_tree host d m) = true.
Proof.
  intros Hdel. unfold dir_free. apply bool_decide_eq_true.
  intros p c Hp. cbn. unfold remove_tree in Hp.
  apply map_lookup_filter_Some in Hp as [_ Hkeep]. cbn in Hkeep.
  rewrite Hdel, orb_false_r in Hkeep. apply Is_true_true in Hkeep.
  by apply negb_true_iff in Hkeep.
Qed.

(** [with _tempdir() as temp_dir: body], for a body that keeps to the
    workspace: when [mkdtemp] raises the statement raises the same and
    nothing else happens; otherwise the workspace lives its life,
    whatever the outcome of the body. *)
Lemma with_tempdir_life {A} (P : Prop) (body : string -> M A) (w : World) :
  (forall d, Py.is_empty d = false -> body_inside P d (body d)) ->
  match mkdtemp host w with
  | (Raise e, w1) => with_tempdir host body w = (Raise e, w1)
  | (Ok d, _) => workspace_life host P d w (with_tempdir host body w).2
  end.
Proof.
  intros Hbody. unfold with_tempdir, mbind, M_bind.
  pose proof (mkdtemp_outcome w) as Hmk.
  destruct (mkdtemp host w) as [[d|e] w1]; [|done].
  destruct Hmk as (Hd & Hs1 & Hfs1 & Htr1).
  unfold finally, rmtree, modify.
  pose proof (Hbody d Hd w1) as Hw.
  destruct (body d w1) as [r w2]. cbn in Hw. cbn.
  destruct Hw as (Hs2 & _ & (evs & Htr2 & Hin) & Hfs2).
  split; [by apply same_module_state_trans with w1|]. split; [|split].
  - exists evs. split; [|done]. cbn. rewrite Htr2, Htr1.
    by rewrite <- !app_assoc.
  - intros HP p Hp. cbn. rewrite remove_tree_outside, Hfs2, Hfs1 by done.
    apply lookup_insert_ne. intros ->. by rewrite at_or_under_self in Hp.
  - intros Hdel. cbn. by apply remove_tree_free.
Qed.

(** The body of [build_and_run] keeps to its workspace. *)
Lemma build_and_run_body (source : probe_source)
    (libraries include_dirs library_dirs : list string)
    (define_macros : option (list (string * pyval)))
    (extra_compile_args : list string) (d : string) :
  Py.is_empty d = false ->
  body_inside (tools_confined host compiler) d
    (let fname := path_join d "a.cpp" in
     write_file host fname (ProbeText source);;
     objects ← compile compiler [fname] d include_dirs define_macros
                 extra_compile_args;
     let postargs := if PLATFORM_WIN32 host then ["/MANIFEST"] else [] in
     linked ← attempt
       (link_with (cc_link_executable compiler) objects (path_join d "a")
          libraries library_dirs postargs "c++");
     match linked with
     | Raise e =>
         raise (Exception ("Cannot build a stub file." +:+ nl
                           +:+ "Original error: " +:+ exn_str e))
     | Ok _ =>
         ran ← attempt (check_output host (path_join d "a"));
         match ran with
         | Ok out => mret out
         | Raise e =>
             raise (Exception ("Cannot execute a stub file." +:+ nl
                               +:+ "Original error: " +:+ exn_str e))
         end
     end).
Proof.
  intros Hd. cbv zeta.
  apply body_inside_bind; [|intros _; apply body_inside_bind].
  - apply body_inside_write_file. by apply under_plain_name.
  - by apply body_inside_compile.
  - intros objects. apply body_inside_bind.
    + by apply body_inside_attempt, body_inside_link_executable.
    + intros [_|e]; [|apply body_inside_raise].
      apply body_inside_bind.
      * by apply body_inside_attempt, body_inside_check_output.
      * intros [out|e]; [apply body_inside_ret|apply body_inside_raise].
Qed.

Lemma build_shlib_body (source : probe_source)
    (libraries include_dirs library_dirs : list string)
    (define_macros : option (list (string * pyval)))
    (extra_compile_args : list string) (d : string) :
  Py.is_empty d = false ->
  body_inside (tools_confined host compiler) d
    (let fname := path_join d "a.cpp" in
     write_file host fname (ProbeText source);;
     objects ← compile compiler [fname] d include_dirs define_macros
                 extra_compile_args;
     let postargs := if PLATFORM_WIN32 host then ["/MANIFEST"] else [] in
     linked ← attempt
       (link_with (cc_link_shared_lib compiler) objects (path_join d "a")
          libraries library_dirs postargs "c++");
     match linked with
     | Ok _ => mret tt
     | Raise e =>
         raise (Exception ("Cannot build a stub file." +:+ nl
                           +:+ "Original error: " +:+ exn_str e))
     end).
Proof.
  intros Hd. cbv zeta.
  apply body_inside_bind; [|intros _; apply body_inside_bind].
  - apply body_inside_write_file. by apply under_plain_name.
  - by apply body_inside_compile.
  - intros objects. apply body_inside_bind.
    + by apply body_inside_attempt, body_inside_link_shared_lib.
    + intros [_|e]; [apply body_inside_ret|apply body_inside_raise].
Qed.

(** What a call of [build_and_run] does to the world, whatever its
    outcome. *)
Lemma build_and_run_life (source : probe_source)
    (libraries include_dirs library_dirs : list string)
    (define_macros : option (list (string * pyval)))
    (extra_compile_args : list string) (w : World) :
  let r := build_and_run host compiler source libraries include_dirs
             library_dirs define_macros extra_compile_args w in
  match conda_update_dirs host include_dirs library_dirs with
  | Raise e => r = (Raise e, w)
  | Ok _ =>
      match mkdtemp host w with
      | (Raise e, w1) => r = (Raise e, w1)
      | (Ok d, _) =>
          workspace_life host (tools_confined host compiler) d w r.2
      end
  end.
Proof.
  unfold build_and_run. unfold mbind at 1, M_bind at 1, lift.
  destruct (conda_update_dirs host include_dirs library_dirs)
    as [[inc lib]|e]; [|done].
  cbv zeta. apply with_tempdir_life. intros d Hd.
  by apply build_and_run_body.
Qed.

(** The same for [build_shlib]. *)
Lemma build_shlib_life (source : probe_source)
    (libraries include_dirs library_dirs : list string)
    (define_macros : option (list (string * pyval)))
    (extra_compile_args : list string) (w : World) :
  let r := build_shlib host compiler source libraries include_dirs
             library_dirs define_macros extra_compile_args w in
  match conda_update_dirs host include_dirs library_dirs with
  | Raise e => r = (Raise e, w)
  | Ok _ =>
      match mkdtemp host w with
      | (Raise e, w1) => r = (Raise e, w1)
      | (Ok d, _) =>
          workspace_life host (tools_confined host compiler) d w r.2
      end
  end.
Proof.
  unfold build_shlib. unfold mbind at 1, M_bind at 1, lift.
  destruct (conda_update_dirs host include_dirs library_dirs)
    as [[inc lib]|e]; [|done].
  cbv zeta. apply with_tempdir_life. intros d Hd.
  by apply build_shlib_body.
Qed.

(** [build_and_run] changes nothing of the Python state: caches,
    settings objects and warnings are as before, whatever its outcome. *)
Lemma build_and_run_frame (source : probe_source)
    (libraries include_dirs library_dirs : list string)
    (define_macros : option (list (string * pyval)))
    (extra_compile_args : list string) (w : World) (r : result string)
    (w' : World) :
  build_and_run host compiler source libraries include_dirs library_dirs
    define_macros extra_compile_args w = (r, w') ->
  globals w' = globals w /\ heap w' = heap w /\ warnings w' = warnings w.
Proof.
  intros Hrun.
  pose proof (build_and_run_life source libraries include_dirs
                library_dirs define_macros extra_compile_args w) as H.
  cbv zeta in H. rewrite Hrun in H.
  pose proof (mkdtemp_outcome w) as Hmk.
  destruct (conda_update_dirs host include_dirs library_dirs);
    [|by injection H as _ <-].
  destruct (mkdtemp host w) as [[d|e] w1].
  - by destruct H as [H _].
  - injection H as _ <-. by destruct Hmk as [Hmk _].
Qed.

Lemma build_shlib_frame (source : probe_source)
    (libraries include_dirs library_dirs : list string)
    (define_macros : option (list (string * pyval)))
    (extra_compile_args : list string) (w : World) (r : result unit)
    (w' : World) :
  build_shlib host compiler source libraries include_dirs library_dirs
    define_macros extra_compile_args w = (r, w') ->
  globals w' = globals w /\ heap w' = heap w /\ warnings w' = warnings w.
Proof.
  intros Hrun.
  pose proof (build_shlib_life source libraries include_dirs
                library_dirs define_macros extra_compile_args w) as H.
  cbv zeta in H. rewrite Hrun in H.
  pose proof (mkdtemp_outcome w) as Hmk.
  destruct (conda_update_dirs host include_dirs library_dirs);
    [|by injection H as _ <-].
  destruct (mkdtemp host w) as [[d|e] w1].
  - by destruct H as [H _].
  - injection H as _ <-. by destruct Hmk as [Hmk _].
Qed.

End WorkspaceFacts.

(** C7, amended.  A call of [build_and_run] or [build_shlib] makes at
    most one workspace.  When preparing the search paths raises, the
    exception leaves with the world untouched; when [mkdtemp] raises,
    with no directory made and no operation performed.  Otherwise
    [mkdtemp] makes the one workspace [d], and on every exit path -
    return, compile failure, link failure, execution failure or any
    other exception - the operations in between concern [d] alone: the
    source file is written in it, the compiler is given it as output
    directory, the link step an output in it, the binary run is the one
    in it, and [rmtree d] comes last.  If the compiler, the linker and
    the binary write nothing outside of where they are told to, nothing
    outside [d] has changed; and if [rmtree] fails on nothing, nothing
    exists at [d] or below it afterwards. *)
Theorem probe_workspace_lifecycle (host : Host) (compiler : CCompiler)
    (source : probe_source)
    (libraries include_dirs library_dirs : list string)
    (define_macros : option (list (string * pyval)))
    (extra_compile_args : list string) (w : World) :
  let run := build_and_run host compiler source libraries include_dirs
               library_dirs define_macros extra_compile_args w in
  let lib := build_shlib host compiler source libraries include_dirs
               library_dirs define_macros extra_compile_args w in
  match conda_update_dirs host include_dirs library_dirs with
  | Raise e => run = (Raise e, w) /\ lib = (Raise e, w)
  | Ok _ =>
      match mkdtemp host w with
      | (Raise e, w1) =>
          run = (Raise e, w1) /\ lib = (Raise e, w1)
          /\ fs w1 = fs w /\ fs_trace w1 = fs_trace w
      | (Ok d, _) =>
          workspace_life host (tools_confined host compiler) d w run.2
          /\ workspace_life host (tools_confined host compiler) d w lib.2
      end
  end.
Proof.
  pose proof (build_and_run_life host compiler source libraries
                include_dirs library_dirs define_macros extra_compile_args w)
    as Hrun.
  pose proof (build_shlib_life host compiler source libraries
                include_dirs library_dirs define_macros extra_compile_args w)
    as Hlib.
  pose proof (mkdtemp_outcome host w) as Hmk.
  cbv zeta in *.
  destruct (conda_update_dirs host include_dirs library_dirs); [|done].
  destruct (mkdtemp host w) as [[d|e] w1]; [done|].
  destruct Hmk as (_ & ? & ?). done.
Qed.

(** The three ways in which a call falls short of the original claim.

    In a conda cross-compilation environment without [BUILD_PREFIX] the
    search paths cannot be prepared: [build_and_run] and [build_shlib]
    raise [KeyError] before they reach [_tempdir] and the world is left
    untouched: no workspace was made.

    On a machine that does not let go of the files, [rmtree] with
    [ignore_errors=True] fails in silence: the probe returns its output
    and the workspace [/tmp/tmp1] is still there.

    Behind a compiler cache the compile step leaves a file of its own
    outside the workspace, which is there after the call. *)
Lemma workspace_claim_counterexamples :
  (build_and_run cross_host working_compiler hip_version_src [] [] [] None []
     sample_world
   = (Raise (KeyError "BUILD_PREFIX"), sample_world)
   /\ build_shlib cross_host working_compiler hip_version_src [] [] [] None []
        sample_world
      = (Raise (KeyError "BUILD_PREFIX"), sample_world)
   /\ fs_trace sample_world = [])
  /\ (let r := build_and_run stuck_host working_compiler hip_version_src []
                 [] [] None [] sample_world in
      r.1 = Ok "305"
      /\ fs sample_world !! "/tmp/tmp1" = None
      /\ fs r.2 !! "/tmp/tmp1" = Some Directory
      /\ fs r.2 !! "/tmp/tmp1/a" = Some (Binary "executable"))
  /\ (let r := build_and_run (sample_host "305" no_git) caching_compiler
                 hip_version_src [] [] [] None [] sample_world in
      r.1 = Ok "305"
      /\ at_or_under "/tmp/tmp1" "/var/cache/ccache/a.o" = false
      /\ fs sample_world !! "/var/cache/ccache/a.o" = None
      /\ fs r.2 !! "/var/cache/ccache/a.o" = Some (Binary "object")).
Proof. repeat split; vm_compute; reflexivity. Qed.

(** The compiler and the binary of the examples keep the contract of
    the tools. *)
Lemma working_compiler_confined (stdout : string)
    (git : result (Z * result string)) :
  tools_confined (sample_host stdout git) working_compiler.
Proof.
  repeat split.
  - intros sources d include_dirs macros extra m p Hd Hp. cbn.
    apply lookup_insert_ne. intros <-.
    by rewrite under_plain_name in Hp.
  - intros objects d name libraries library_dirs extra lang m p Hd Hname Hp.
    cbn. apply lookup_insert_ne. intros <-.
    by rewrite under_plain_name in Hp.
  - intros objects d name libraries library_dirs extra lang m p Hd Hname Hp.
    cbn. apply lookup_insert_ne. intros <-.
    by rewrite under_plain_name in Hp.
Qed.

(** On such a machine, whose [rmtree] fails on nothing, the probe
    leaves nothing behind. *)
Lemma probe_workspace_lifecycle_witness :
  dir_free "/tmp/tmp1"
    (fs (build_and_run (sample_host "305" no_git) working_compiler
           hip_version_src [] [] [] None [] sample_world).2) = true
  /\ fs (build_and_run (sample_host "305" no_git) working_compiler
           hip_version_src [] [] [] None [] sample_world).2
     !! "/etc/hostname"
     = fs sample_world !! "/etc/hostname".
Proof.
  pose proof (probe_workspace_lifecycle (sample_host "305" no_git)
                working_compiler hip_version_src [] [] [] None []
                sample_world) as H.
  cbv zeta in H.
  change (conda_update_dirs (sample_host "305" no_git) [] [])
    with (Ok (@nil string, @nil string)) in H.
  cbv beta iota in H.
  destruct H as [(_ & _ & Hfs & Hfree) _].
  split; [by apply Hfree|].
  apply Hfs; [apply working_compiler_confined|reflexivity].
Defined.

(** A probe that compiles, links and runs: one workspace, [/tmp/tmp1]
    since [/tmp/tmp0] is taken, gone when the call returns. *)
Example build_and_run_trace :
  let r := build_and_run (sample_host "305" no_git) working_compiler
             hip_version_src [] [] [] None [] sample_world in
  r.1 = Ok "305"
  /\ fs_trace r.2
     = [Mkdtemp "/tmp/tmp1"; Wrote "/tmp/tmp1/a.cpp"; Compiled "/tmp/tmp1";
        Linked "/tmp/tmp1/a"; Ran "/tmp/tmp1/a"; Rmtree "/tmp/tmp1"]
  /\ fs r.2 = fs sample_world.
Proof. repeat split; vm_compute; reflexivity. Qed.

(** A probe whose compile step fails: the partial file is written inside
    the workspace and removed with it. *)
Example build_and_run_failure_trace :
  let r := build_and_run (sample_host "305" no_git) failing_compiler
             hip_version_src [] [] [] None [] sample_world in
  r.1 = Raise (Exception "compile failed")
  /\ fs_trace r.2
     = [Mkdtemp "/tmp/tmp1"; Wrote "/tmp/tmp1/a.cpp"; Compiled "/tmp/tmp1";
        Rmtree "/tmp/tmp1"]
  /\ fs r.2 = fs sample_world.
Proof. repeat split; vm_compute; reflexivity. Qed.

(** ** The checks *)

Ltac unfold_monad :=
  unfold settings_append_macro, print_warning;
  unfold mbind, M_bind, attempt, deref, lift, modify, raise, mret, M_ret.

Section CheckFacts.
Variable host : Host.

(** C9.  When the build-and-run probe of a check raises, the check
    prints one warning and returns [False]; the caches are what they
    were before the call, so the version of the dependency is still
    unset if it was. *)
Theorem probe_failure_is_absence (compiler : CCompiler) (settings : nat)
    (s : Settings) (w : World) :
  heap w !! settings = Some s ->
  (forall e w1,
      build_and_run host compiler hip_version_src [] (include_dirs s) []
        None [] w = (Raise e, w1) ->
      check_hip_version host compiler settings w
      = (Ok false, add_warning ["Cannot check HIP version"; exn_str e] w1)
      /\ globals w1 = globals w)
  /\ (forall e w1,
      build_and_run host compiler thrust_version_src [] (include_dirs s) []
        None [] w = (Raise e, w1) ->
      check_thrust_version host compiler settings w
      = (Ok false,
         add_warning ["Cannot check Thrust version" +:+ nl +:+ exn_str e] w1)
      /\ globals w1 = globals w)
  /\ (forall e w1,
      build_and_run host compiler cudnn_version_src [] (include_dirs s) []
        None [] w = (Raise e, w1) ->
      check_cudnn_version host compiler settings w
      = (Ok false,
         add_warning ["Cannot check cuDNN version" +:+ nl +:+ exn_str e] w1)
      /\ globals w1 = globals w)
  /\ (forall e w1,
      build_and_run host compiler nccl_version_src [] (include_dirs s) []
        (Some (define_macros s)) [] w = (Raise e, w1) ->
      check_nccl_version host compiler settings w
      = (Ok false, add_warning ["Cannot include NCCL" +:+ nl +:+ exn_str e] w1)
      /\ globals w1 = globals w)
  /\ (forall e w1,
      build_and_run host compiler cutensor_version_src [] (include_dirs s)
        [] None [] w = (Raise e, w1) ->
      check_cutensor_version host compiler settings w
      = (Ok false,
         add_warning ["Cannot check cuTENSOR version" +:+ nl +:+ exn_str e] w1)
      /\ globals w1 = globals w)
  /\ (forall e w1,
      build_and_run host compiler cusparselt_version_src [] (include_dirs s)
        [] None [] w = (Raise e, w1) ->
      check_cusparselt_version host compiler settings w
      = (Ok false,
         add_warning ["Cannot check cuSPARSELt version" +:+ nl +:+ exn_str e]
           w1)
      /\ globals w1 = globals w)
  /\ (forall e w1,
      build_and_run host compiler compute_capabilities_src ["cudart"]
        (include_dirs s) (library_dirs s) None [] w = (Raise e, w1) ->
      check_compute_capabilities host compiler settings w
      = (Ok false,
         add_warning ["Cannot check compute capability" +:+ nl +:+ exn_str e]
           w1)
      /\ globals w1 = globals w).
Proof.
  intros Hs.
  repeat match goal with |- _ /\ _ => split end;
    intros e w1 Hrun;
    (split; [|eapply build_and_run_frame; eassumption]);
    unfold check_hip_version, check_thrust_version, check_cudnn_version,
      check_nccl_version, check_cutensor_version,
      check_cusparselt_version, check_compute_capabilities;
    unfold_monad; repeat (rewrite ?Hs, ?Hrun; cbn); reflexivity.
Qed.

End CheckFacts.

(** With a compiler that fails, the HIP and the compute-capability checks
    return [False] and their caches stay unset. *)
Lemma probe_failure_is_absence_witness :
  (check_hip_version (sample_host "305" no_git) failing_compiler 0
     sample_world).1 = Ok false
  /\ _hip_version
       (globals (check_hip_version (sample_host "305" no_git)
                   failing_compiler 0 sample_world).2) = None
  /\ (check_compute_capabilities (sample_host "75 86" no_git)
        failing_compiler 0 sample_world).1 = Ok false
  /\ _compute_capabilities
       (globals (check_compute_capabilities (sample_host "75 86" no_git)
                   failing_compiler 0 sample_world).2) = None.
Proof.
  destruct (probe_failure_is_absence (sample_host "305" no_git)
              failing_compiler 0 sample_settings sample_world eq_refl)
    as (Hhip & _).
  destruct (probe_failure_is_absence (sample_host "75 86" no_git)
              failing_compiler 0 sample_settings sample_world eq_refl)
    as (_ & _ & _ & _ & _ & _ & Hcc).
  edestruct Hhip as [-> _]; [vm_compute; reflexivity|].
  edestruct Hcc as [-> _]; [vm_compute; reflexivity|].
  repeat split.
Defined.

(** C5.  The version floors are inclusive: a probe that prints the floor
    itself is accepted, the check returns [True]; a probe that prints the
    floor minus one is rejected with a warning, the check returns
    [False] and raises nothing.  In both cases the version read is
    cached. *)
Theorem version_floor_inclusive (host : Host) (compiler : CCompiler)
    (settings : nat) (s : Settings) (w : World) :
  heap w !! settings = Some s ->
  (forall out w1,
      build_and_run host compiler cudnn_version_src [] (include_dirs s) []
        None [] w = (Ok out, w1) ->
      (Py.int out = Ok minimum_cudnn_version ->
       check_cudnn_version host compiler settings w
       = (Ok true, upd_globals (set_cudnn_version 7600) w1))
      /\ (Py.int out = Ok (minimum_cudnn_version - 1) ->
          check_cudnn_version host compiler settings w
          = (Ok false,
             add_warning ["Unsupported cuDNN version: 7599";
                          "cuDNN >=v7600 is required"]
               (upd_globals (set_cudnn_version 7599) w1))))
  /\ (forall out w1,
      build_and_run host compiler hip_version_src [] (include_dirs s) []
        None [] w = (Ok out, w1) ->
      (Py.int out = Ok minimum_hip_version ->
       check_hip_version host compiler settings w
       = (Ok true, upd_globals (set_hip_version 305) w1))
      /\ (Py.int out = Ok (minimum_hip_version - 1) ->
          check_hip_version host compiler settings w
          = (Ok false,
             add_warning ["ROCm/HIP version is too old: 304";
                          "ROCm 3.5.0 or newer is required"]
               (upd_globals (set_hip_version 304) w1)))).
Proof.
  intros Hs.
  split; intros out w1 Hrun; split; intros Hint;
    unfold check_cudnn_version, check_hip_version; unfold_monad;
    rewrite Hs, Hrun, Hint; reflexivity.
Qed.

(** Probes printing 7600, 7599, 305 and 304. *)
Lemma version_floor_inclusive_witness :
  (check_cudnn_version (sample_host "7600" no_git) working_compiler 0
     sample_world).1 = Ok true
  /\ (check_cudnn_version (sample_host "7599" no_git) working_compiler 0
        sample_world).1 = Ok false
  /\ (check_hip_version (sample_host "305" no_git) working_compiler 0
        sample_world).1 = Ok true
  /\ (check_hip_version (sample_host "304" no_git) working_compiler 0
        sample_world).1 = Ok false.
Proof.
  pose proof (fun out =>
    version_floor_inclusive (sample_host out no_git) working_compiler 0
      sample_settings sample_world eq_refl) as H.
  destruct (H "7600") as [H1 _]. destruct (H "7599") as [H2 _].
  destruct (H "305") as [_ H3]. destruct (H "304") as [_ H4].
  edestruct (H1 "7600") as [Ha _]; [vm_compute; reflexivity|].
  edestruct (H2 "7599") as [_ Hb]; [vm_compute; reflexivity|].
  edestruct (H3 "305") as [Hc _]; [vm_compute; reflexivity|].
  edestruct (H4 "304") as [_ Hd]; [vm_compute; reflexivity|].
  rewrite (Ha eq_refl), (Hb eq_refl), (Hc eq_refl), (Hd eq_refl).
  repeat split.
Defined.

(** C6.  When the probe prints integers separated by whitespace - any
    whitespace before the first, between two of them and after the last
    - the check returns [True] without a warning and the cache, read
    back through the accessor, is the set of the integers printed,
    however often each of them occurs.  The output [75 75 86 ] gives the
    set of 75 and 86, and no output at all gives the empty set.  An
    integer is a numeral [int()] converts, of up to 4300 digits; the
    probe writes each of them with [%d%d] from two C integers, some
    twenty digits at most. *)
Theorem compute_capabilities_set (host : Host) (compiler : CCompiler)
    (settings : nat) (s : Settings) (w : World) (lead : string)
    (items : list (string * string)) (w1 : World) :
  heap w !! settings = Some s ->
  all_chars Py.is_space lead = true ->
  whitespace_separated items = true ->
  build_and_run host compiler compute_capabilities_src ["cudart"]
    (include_dirs s) (library_dirs s) None [] w
  = (Ok (lead +:+ spaced items), w1) ->
  (check_compute_capabilities host compiler settings w).1 = Ok true
  /\ get_compute_capabilities false
       (check_compute_capabilities host compiler settings w).2
     = Ok (Some (list_to_set (integer_value <$> items.*1)))
  /\ warnings (check_compute_capabilities host compiler settings w).2
     = warnings w.
Proof.
  intros Hs Hlead Hitems Hrun.
  destruct (build_and_run_frame _ _ _ _ _ _ _ _ _ _ _ Hrun) as (_ & _ & Hw).
  assert (Hcaps : Py.ints (Py.split_ws (lead +:+ spaced items))
                  = Ok (integer_value <$> items.*1)).
  { rewrite split_ws_lead, split_ws_spaced by done.
    apply ints_integers. by apply spaced_integers. }
  unfold check_compute_capabilities, get_compute_capabilities. unfold_monad.
  repeat (rewrite ?Hs, ?Hrun, ?Hcaps; cbn). done.
Qed.

(** Probes printing [75 75 86 ] and nothing. *)
Lemma compute_capabilities_set_witness :
  get_compute_capabilities false
    (check_compute_capabilities (sample_host "75 75 86 " no_git)
       working_compiler 0 sample_world).2
  = Ok (Some {[75; 86]})
  /\ get_compute_capabilities false
       (check_compute_capabilities (sample_host "" no_git)
          working_compiler 0 sample_world).2
     = Ok (Some ∅).
Proof.
  split.
  - edestruct (compute_capabilities_set (sample_host "75 75 86 " no_git)
                 working_compiler 0 sample_settings sample_world ""
                 [("75", " "); ("75", " "); ("86", " ")])
      as (_ & Hget & _);
      [reflexivity|reflexivity|reflexivity|vm_compute; reflexivity|].
    rewrite Hget. reflexivity.
  - edestruct (compute_capabilities_set (sample_host "" no_git)
                 working_compiler 0 sample_settings sample_world "" [])
      as (_ & Hget & _);
      [reflexivity|reflexivity|reflexivity|vm_compute; reflexivity|].
    rewrite Hget. reflexivity.
Defined.

(** ** What the checks do to the settings they receive *)

(** [check_cub_version] appends a macro definition to the dictionary it is
    given. *)
Lemma check_cub_version_appends_macro :
  heap (check_cub_version (sample_host "200200" no_git) working_compiler 0
          sample_world).2 !! 0%nat
  = Some (mkSettings ["/usr/local/cuda/include"] ["/usr/local/cuda/lib64"]
            [("CUPY_CUB_VERSION_CODE", VInt 200200)] "c++" [])
  /\ heap sample_world !! 0%nat
     = Some (mkSettings ["/usr/local/cuda/include"] ["/usr/local/cuda/lib64"]
               [] "c++" []).
Proof. split; vm_compute; reflexivity. Qed.

Ltac destruct_probe w1 Hrun :=
  match goal with
  | |- context [build_and_run ?h ?c ?src ?l ?i ?ld ?m ?x ?w] =>
      let out := fresh "out" in
      let e := fresh "e" in
      destruct (build_and_run h c src l i ld m x w) as [[out|e] w1] eqn:Hrun;
      apply build_and_run_frame in Hrun as (? & ? & ?)
  end.

Ltac innermost_case :=
  match goal with
  | |- context [match ?x with _ => _ end] =>
      lazymatch x with
      | context [match _ with _ => _ end] => fail
      | _ => destruct x eqn:?
      end
  end.

Ltac split_cases := repeat (cbn; innermost_case); cbn.

(** C3, amended.  The checks that go through the probe alone, and
    [check_nvtx], leave every settings object as it was.
    [check_cub_version] and [check_jitify_version] do modify the object
    they receive: when they return they have appended one macro
    definition, the version they cached, to its [define_macros] and
    changed nothing else; when they raise they have changed nothing. *)
Theorem check_settings_frame (host : Host) (compiler : CCompiler)
    (settings : nat) (w : World) :
  heap (check_hip_version host compiler settings w).2 = heap w
  /\ heap (check_compute_capabilities host compiler settings w).2 = heap w
  /\ heap (check_thrust_version host compiler settings w).2 = heap w
  /\ heap (check_cudnn_version host compiler settings w).2 = heap w
  /\ heap (check_nccl_version host compiler settings w).2 = heap w
  /\ heap (check_nvtx host compiler settings w).2 = heap w
  /\ heap (check_cutensor_version host compiler settings w).2 = heap w
  /\ heap (check_cusparselt_version host compiler settings w).2 = heap w
  /\ (let r := check_cub_version host compiler settings w in
      match r.1 with
      | Ok _ =>
          exists v,
            _cub_version (globals r.2) = Some v
            /\ heap r.2
               = alter (append_macro ("CUPY_CUB_VERSION_CODE", VInt v))
                   settings (heap w)
      | Raise _ => heap r.2 = heap w
      end)
  /\ (let r := check_jitify_version host compiler settings w in
      match r.1 with
      | Ok _ =>
          exists v,
            _jitify_version (globals r.2) = Some v
            /\ heap r.2
               = alter (append_macro ("CUPY_JITIFY_VERSION_CODE", v))
                   settings (heap w)
      | Raise _ => heap r.2 = heap w
      end).
Proof.
  repeat match goal with |- _ /\ _ => split end; cbv zeta;
    unfold check_hip_version, check_compute_capabilities,
      check_thrust_version, check_cudnn_version, check_nccl_version,
      check_nvtx, check_cutensor_version, check_cusparselt_version,
      check_cub_version, check_jitify_version;
    unfold_monad;
    destruct (heap w !! settings) as [s|] eqn:Hs; cbn; rewrite ?Hs; cbn;
    try destruct_probe w1 Hrun;
    split_cases; try congruence; try (eexists; split; [reflexivity|]; cbn; congruence).
Qed.

(** ** Jitify *)

(** C10.  Once [check_jitify_version] has returned, the formatted
    accessor returns the commit string git printed, without its final
    newline, or [<unknown>] when the check fell back to the sentinel
    [-1]; the unformatted accessor raises [RuntimeError], with the
    message that the version is a commit string.  In no state at all
    does the unformatted accessor return a value. *)
Theorem jitify_version_formatted_only (host : Host) (compiler : CCompiler)
    (settings : nat) (w w' : World) :
  check_jitify_version host compiler settings w = (Ok true, w') ->
  get_jitify_version false w'
  = Raise (RuntimeError "Jitify version is a commit string")
  /\ ((exists text,
          run_shell host "git rev-parse --short HEAD"
            (path_join (source_root host) "third_party/jitify")
          = Ok (0, Ok text)
          /\ _jitify_version (globals w') = Some (VStr (Py.drop_last text))
          /\ get_jitify_version true w' = Ok (VStr (Py.drop_last text)))
      \/ (_jitify_version (globals w') = Some (VInt (-1))
          /\ get_jitify_version true w' = Ok (VStr "<unknown>")))
  /\ forall w0, exists msg, get_jitify_version false w0 = Raise (RuntimeError msg).
Proof.
  intros Hcheck. split; [|split].
  - revert Hcheck. unfold check_jitify_version, get_jitify_version.
    unfold_monad. split_cases; intros; simplify_eq/=; reflexivity.
  - revert Hcheck. unfold check_jitify_version, get_jitify_version.
    unfold_monad. split_cases; intros; simplify_eq/=;
      try (right; split; reflexivity).
    left.
    match goal with
    | H : run_shell _ _ _ = Ok ?a |- _ => destruct a as [rc text]
    end.
    cbn in *.
    match goal with H : (_ =? 0) = true |- _ => apply Z.eqb_eq in H end.
    subst. eexists. repeat split.
  - intros w0. unfold get_jitify_version.
    destruct (_jitify_version (globals w0)); eauto.
Qed.

(** With git printing the commit [dcbb288f]. *)
Lemma jitify_version_formatted_only_witness :
  get_jitify_version false
    (check_jitify_version (git_host "dcbb288f") working_compiler 0
       sample_world).2
  = Raise (RuntimeError "Jitify version is a commit string")
  /\ get_jitify_version true
       (check_jitify_version (git_host "dcbb288f") working_compiler 0
          sample_world).2
     = Ok (VStr "dcbb288f").
Proof.
  destruct (jitify_version_formatted_only (git_host "dcbb288f")
              working_compiler 0 sample_world
              (check_jitify_version (git_host "dcbb288f") working_compiler 0
                 sample_world).2) as (Hraw & _ & _).
  - vm_compute; reflexivity.
  - split; [exact Hraw|vm_compute; reflexivity].
Defined.
(** ** CUB: the version read off a git tag *)

Lemma readable_decimal (s : string) :
  int_readable s = true -> is_decimal s = true.
Proof. unfold int_readable. intros H. by apply andb_true_iff in H as [H _]. Qed.

Section CubTag.
Variables (v_prefix : bool) (x y z : string).
Hypothesis Hy : int_readable y = true.
Hypothesis Hz : int_readable z = true.

Lemma dot_not_digit : Py.is_digit "." = false.
Proof. reflexivity. Qed.

Lemma dash_not_digit : Py.is_digit "-" = false.
Proof. reflexivity. Qed.

(** A release tag [X.Y.Z] is read as [X*100000 + Y*100 + Z]. *)
Lemma cub_version_of_release_tag :
  int_readable x = true ->
  cub_version_of_describe (release_tag v_prefix x y z +:+ nl)
  = Ok (decimal_value x * 100000 + decimal_value y * 100 + decimal_value z).
Proof.
  intros Hx.
  pose proof (readable_decimal x Hx) as Hx'.
  pose proof (readable_decimal y Hy) as Hy'.
  pose proof (readable_decimal z Hz) as Hz'.
  unfold cub_version_of_describe, release_tag.
  rewrite drop_last_newline.
  pose proof (strip_v_prefix v_prefix x ("." +:+ y +:+ "." +:+ z) Hx') as Hv.
  cbv zeta in Hv. rewrite Hv. clear Hv.
  change ("." +:+ y +:+ "." +:+ z) with (String "." (y +:+ String "." z)).
  rewrite split_component by (by apply decimal_no_char).
  rewrite split_component by (by apply decimal_no_char).
  rewrite split_last by (by apply decimal_no_char).
  cbn [Py.index lookup list_lookup mbind result_bind].
  by rewrite (int_str_decimal x Hx), (int_str_decimal y Hy),
    (int_str_decimal z Hz).
Qed.

(** A first component of more than 4300 digits makes [int] raise. *)
Lemma cub_version_of_long_tag :
  is_decimal x = true ->
  (Py.MAX_STR_DIGITS < String.length x)%nat ->
  cub_version_of_describe (release_tag v_prefix x y z +:+ nl)
  = Raise (Py.too_many_digits (String.length x)).
Proof.
  intros Hx Hlen.
  pose proof (readable_decimal y Hy) as Hy'.
  pose proof (readable_decimal z Hz) as Hz'.
  unfold cub_version_of_describe, release_tag.
  rewrite drop_last_newline.
  pose proof (strip_v_prefix v_prefix x ("." +:+ y +:+ "." +:+ z) Hx) as Hv.
  cbv zeta in Hv. rewrite Hv. clear Hv.
  change ("." +:+ y +:+ "." +:+ z) with (String "." (y +:+ String "." z)).
  rewrite split_component by (by apply decimal_no_char).
  cbn [Py.index lookup list_lookup mbind result_bind].
  unfold Py.int_str. by rewrite int_literal_long.
Qed.

(** A tag [X.Y.Z-N-g<hash>] is read as [X*100000 + Y*100 + Z + N]. *)
Lemma cub_version_of_local_tag (n hash : string) :
  int_readable x = true ->
  int_readable n = true ->
  cub_version_of_describe (local_tag v_prefix x y z n hash +:+ nl)
  = Ok (decimal_value x * 100000 + decimal_value y * 100
        + (decimal_value z + decimal_value n)).
Proof.
  intros Hx Hn.
  pose proof (readable_decimal x Hx) as Hx'.
  pose proof (readable_decimal y Hy) as Hy'.
  pose proof (readable_decimal z Hz) as Hz'.
  pose proof (readable_decimal n Hn) as Hn'.
  unfold cub_version_of_describe, local_tag.
  rewrite drop_last_newline.
  pose proof (strip_v_prefix v_prefix x
                ("." +:+ y +:+ "." +:+ z +:+ "-" +:+ n +:+ "-g" +:+ hash) Hx')
    as Hv.
  cbv zeta in Hv. rewrite Hv. clear Hv.
  change ("." +:+ y +:+ "." +:+ z +:+ "-" +:+ n +:+ "-g" +:+ hash)
    with (String "." (y +:+ String "."
                        (z +:+ String "-" (n +:+ String "-" ("g" +:+ hash))))).
  rewrite split_component by (by apply decimal_no_char).
  rewrite split_component by (by apply decimal_no_char).
  rewrite split_prefix by (by apply decimal_no_char).
  pose proof (split_nonempty "."
                (String "-" (n +:+ String "-" ("g" +:+ hash)))) as Hne.
  destruct (Py.split "." (String "-" (n +:+ String "-" ("g" +:+ hash))))
    as [|hd tl] eqn:Hsplit; [congruence|]. clear Hne.
  assert (Hhd : exists rest, hd = String "-" (n +:+ String "-" rest)).
  { revert Hsplit. cbn [Py.split]. change (Ascii.eqb "-" ".") with false.
    cbv iota.
    rewrite split_prefix by (by apply decimal_no_char).
    cbn [Py.split]. change (Ascii.eqb "-" ".") with false. cbv iota.
    destruct (Py.split "." ("g" +:+ hash)) as [|hd' tl'];
      intros [= <- _]; eauto. }
  destruct Hhd as [rest ->].
  cbn [Py.index lookup list_lookup mbind result_bind].
  rewrite (int_str_decimal x Hx), (int_str_decimal y Hy).
  cbn [mbind result_bind].
  destruct (int_str_dashed z (n +:+ String "-" rest) Hz') as [msg ->].
  cbn [is_ValueError].
  rewrite split_component by (by apply decimal_no_char).
  rewrite split_component by (by apply decimal_no_char).
  cbn [Py.index lookup list_lookup mbind result_bind].
  by rewrite (int_str_decimal z Hz), (int_str_decimal n Hn).
Qed.

End CubTag.

(** C8.  When the compile probe of CUB raises and [git describe --tags]
    succeeds, a tag [X.Y.Z], with or without a leading [v], is cached as
    [X*100000 + Y*100 + Z], and a tag [X.Y.Z-N-g<hash>] as
    [X*100000 + Y*100 + Z + N], for numerals [int()] converts, which
    are those of at most 4300 digits: the check returns [True], hands
    the number to the build as the macro [CUPY_CUB_VERSION_CODE], and
    the accessor returns it.  A tag whose first numeral is longer makes
    [int()] raise: the fallback fails, and the version cached is the
    sentinel [-1]. *)
Theorem cub_version_from_git_tag (host : Host) (compiler : CCompiler)
    (settings : nat) (s : Settings) (w : World) (e : exn) (w1 : World)
    (v_prefix : bool) (x y z n hash : string) :
  heap w !! settings = Some s ->
  build_and_run host compiler cub_version_src [] (include_dirs s) []
    (Some (define_macros s)) [] w = (Raise e, w1) ->
  int_readable y = true -> int_readable z = true -> int_readable n = true ->
  (int_readable x = true ->
   run_shell host "git describe --tags"
     (path_join (source_root host) "third_party/cccl")
   = Ok (0, Ok (release_tag v_prefix x y z +:+ nl)) ->
   let version :=
     decimal_value x * 100000 + decimal_value y * 100 + decimal_value z in
   check_cub_version host compiler settings w
   = (Ok true,
      upd_heap
        (alter (append_macro ("CUPY_CUB_VERSION_CODE", VInt version)) settings)
        (upd_globals (set_cub_version version) w1))
   /\ get_cub_version false (check_cub_version host compiler settings w).2
      = Ok (VInt version))
  /\ (int_readable x = true ->
      run_shell host "git describe --tags"
        (path_join (source_root host) "third_party/cccl")
      = Ok (0, Ok (local_tag v_prefix x y z n hash +:+ nl)) ->
      let version :=
        decimal_value x * 100000 + decimal_value y * 100 + decimal_value z
        + decimal_value n in
      check_cub_version host compiler settings w
      = (Ok true,
         upd_heap
           (alter (append_macro ("CUPY_CUB_VERSION_CODE", VInt version))
              settings)
           (upd_globals (set_cub_version version) w1))
      /\ get_cub_version false (check_cub_version host compiler settings w).2
         = Ok (VInt version))
  /\ (is_decimal x = true ->
      (Py.MAX_STR_DIGITS < String.length x)%nat ->
      run_shell host "git describe --tags"
        (path_join (source_root host) "third_party/cccl")
      = Ok (0, Ok (release_tag v_prefix x y z +:+ nl)) ->
      (check_cub_version host compiler settings w).1 = Ok true
      /\ get_cub_version false (check_cub_version host compiler settings w).2
         = Ok (VInt (-1))
      /\ warnings (check_cub_version host compiler settings w).2
         = warnings w
           ++ [["Cannot determine CUB version" +:+ nl
                +:+ exn_str (Py.too_many_digits (String.length x))]]).
Proof.
  intros Hs Hrun Hy Hz Hn.
  destruct (build_and_run_frame _ _ _ _ _ _ _ _ _ _ _ Hrun)
    as (_ & Hheap & Hwarn).
  split; [|split].
  - intros Hx Hgit version. unfold check_cub_version, get_cub_version.
    unfold_monad.
    repeat (rewrite ?Hs, ?Hrun, ?Hgit; cbn).
    rewrite cub_version_of_release_tag by done. cbn.
    by rewrite Hheap, Hs.
  - intros Hx Hgit version. unfold check_cub_version, get_cub_version.
    unfold_monad.
    repeat (rewrite ?Hs, ?Hrun, ?Hgit; cbn).
    rewrite cub_version_of_local_tag by done. cbn.
    rewrite Hheap, Hs. subst version. cbn. by rewrite Z.add_assoc.
  - intros Hx Hlen Hgit. unfold check_cub_version, get_cub_version.
    unfold_monad.
    repeat (rewrite ?Hs, ?Hrun, ?Hgit; cbn).
    rewrite cub_version_of_long_tag by done. cbn.
    rewrite Hheap, Hs. cbn. by rewrite Hwarn.
Qed.

(** The tags [v1.8.0] and [1.8.0-1-gdcbb288f] of the comments on lines
    555 and 564, and a tag that starts with 4301 digits. *)
Lemma cub_version_from_git_tag_witness :
  (check_cub_version (git_host "v1.8.0") failing_compiler 0 sample_world).1
  = Ok true
  /\ get_cub_version false
       (check_cub_version (git_host "v1.8.0") failing_compiler 0
          sample_world).2 = Ok (VInt 100800)
  /\ (check_cub_version (git_host "1.8.0-1-gdcbb288f") failing_compiler 0
        sample_world).1 = Ok true
  /\ get_cub_version false
       (check_cub_version (git_host "1.8.0-1-gdcbb288f") failing_compiler 0
          sample_world).2 = Ok (VInt 100801)
  /\ get_cub_version false
       (check_cub_version (git_host (long_numeral +:+ ".8.0"))
          failing_compiler 0 sample_world).2 = Ok (VInt (-1)).
Proof.
  destruct (cub_version_from_git_tag (git_host "v1.8.0") failing_compiler 0
              sample_settings sample_world (Exception "compile failed")
              (build_and_run (git_host "v1.8.0") failing_compiler
                 cub_version_src [] (include_dirs sample_settings) []
                 (Some (define_macros sample_settings)) [] sample_world).2
              true "1" "8" "0" "1" "")
    as [Hrelease _];
    [reflexivity | vm_compute; reflexivity | reflexivity..|].
  destruct (cub_version_from_git_tag (git_host "1.8.0-1-gdcbb288f")
              failing_compiler 0 sample_settings sample_world
              (Exception "compile failed")
              (build_and_run (git_host "1.8.0-1-gdcbb288f") failing_compiler
                 cub_version_src [] (include_dirs sample_settings) []
                 (Some (define_macros sample_settings)) [] sample_world).2
              false "1" "8" "0" "1" "dcbb288f")
    as (_ & Hlocal & _);
    [reflexivity | vm_compute; reflexivity | reflexivity..|].
  destruct (cub_version_from_git_tag (git_host (long_numeral +:+ ".8.0"))
              failing_compiler 0 sample_settings sample_world
              (Exception "compile failed")
              (build_and_run (git_host (long_numeral +:+ ".8.0"))
                 failing_compiler cub_version_src []
                 (include_dirs sample_settings) []
                 (Some (define_macros sample_settings)) [] sample_world).2
              false long_numeral "8" "0" "1" "")
    as (_ & _ & Hlong);
    [reflexivity | vm_compute; reflexivity | reflexivity..|].
  cbv zeta in Hrelease, Hlocal.
  destruct (Hrelease eq_refl eq_refl) as [Hr1 Hr2].
  destruct (Hlocal eq_refl eq_refl) as [Hl1 Hl2].
  destruct Hlong as (_ & Hlong & _);
    [vm_compute; reflexivity
    |apply Nat.ltb_lt; vm_compute; reflexivity
    |vm_compute; reflexivity|].
  split; [by rewrite Hr1|]. split; [exact Hr2|].
  split; [by rewrite Hl1|]. split; [exact Hl2|exact Hlong].
Defined.

(** ** The search paths of a conda build *)

Section CondaFacts.
Variable host : Host.

(** Outside a conda cross-compilation, and with a CUDA other than 12,
    [conda_update_dirs] hands back the directories it was given. *)
Theorem conda_update_dirs_identity (include_dirs library_dirs : list string)
    (cross : Z) :
  match environ host !! "CONDA_BUILD_CROSS_COMPILATION" with
  | Some s => Py.int_str s
  | None => Ok 0
  end = Ok cross ->
  cross <> 1 ->
  Py.startswith "12" (environ_get host "CONDA_OVERRIDE_CUDA" "0") = false ->
  conda_update_dirs host include_dirs library_dirs
  = Ok (include_dirs, library_dirs).
Proof.
  intros Hcross Hne H12. unfold conda_update_dirs.
  rewrite Hcross. cbn [mbind result_bind].
  apply Z.eqb_neq in Hne. rewrite Hne. cbn [mbind result_bind].
  by rewrite H12.
Qed.

Ltac around_base :=
  rewrite <- ?app_assoc; cbn [app];
  lazymatch goal with
  | |- exists pre post, ?a :: ?b :: ?l ++ _ = _ => exists [a; b]
  | |- exists pre post, ?a :: ?l ++ _ = _ => exists [a]
  | |- exists pre post, ?a :: ?b :: ?l = _ => exists [a; b]
  | |- exists pre post, ?a :: ?l = _ => exists [a]
  | |- _ => exists []
  end;
  eexists; cbn [app]; first [reflexivity | symmetry; apply app_nil_r].

(** Whatever the environment, the directories of the caller survive in
    their order: the result is the caller's list with directories added
    in front of it and behind it, never inside it and never in place of
    it. *)
Theorem conda_update_dirs_around_base (include_dirs library_dirs : list string)
    (include_dirs' library_dirs' : list string) :
  conda_update_dirs host include_dirs library_dirs
  = Ok (include_dirs', library_dirs') ->
  (exists pre post, include_dirs' = pre ++ include_dirs ++ post)
  /\ (exists pre post, library_dirs' = pre ++ library_dirs ++ post).
Proof.
  unfold conda_update_dirs, environ_item, conda_get_target_name.
  unfold mbind, result_bind.
  repeat innermost_case; intros; simplify_eq; split; around_base.
Qed.

(** [conda_update_dirs] raises for two reasons only: a
    [CONDA_BUILD_CROSS_COMPILATION] that [int] rejects, and a missing
    [BUILD_PREFIX], [PREFIX], [LIBRARY_INC] or [LIBRARY_LIB].  The
    assertion of [conda_get_target_name] cannot fail under it. *)
Theorem conda_update_dirs_raises (include_dirs library_dirs : list string)
    (e : exn) :
  conda_update_dirs host include_dirs library_dirs = Raise e ->
  (exists s,
      environ host !! "CONDA_BUILD_CROSS_COMPILATION" = Some s
      /\ Py.int_str s = Raise e)
  \/ (exists key,
         key ∈ ["BUILD_PREFIX"; "PREFIX"; "LIBRARY_INC"; "LIBRARY_LIB"]
         /\ environ host !! key = None
         /\ e = KeyError key).
Proof.
  unfold conda_update_dirs, environ_item, conda_get_target_name.
  unfold mbind, result_bind.
  repeat innermost_case; intros; simplify_eq;
    first [ left; eexists; split; [reflexivity|eassumption]
          | right; eexists; split; [|split; [eassumption|reflexivity]];
            set_solver ].
Qed.

(** It returns whenever the flag is unset or an integer and the four
    variables are set. *)
Theorem conda_update_dirs_returns (include_dirs library_dirs : list string) :
  (forall s, environ host !! "CONDA_BUILD_CROSS_COMPILATION" = Some s ->
             exists z, Py.int_str s = Ok z) ->
  (forall key, key ∈ ["BUILD_PREFIX"; "PREFIX"; "LIBRARY_INC"; "LIBRARY_LIB"] ->
               is_Some (environ host !! key)) ->
  exists dirs, conda_update_dirs host include_dirs library_dirs = Ok dirs.
Proof.
  intros Hflag Hkeys.
  destruct (Hkeys "BUILD_PREFIX") as [build_prefix Hbuild]; [set_solver|].
  destruct (Hkeys "PREFIX") as [prefix Hprefix]; [set_solver|].
  destruct (Hkeys "LIBRARY_INC") as [inc Hinc]; [set_solver|].
  destruct (Hkeys "LIBRARY_LIB") as [lib Hlib]; [set_solver|].
  unfold conda_update_dirs, environ_item, conda_get_target_name.
  unfold mbind, result_bind.
  rewrite Hbuild, Hprefix, Hinc, Hlib.
  destruct (environ host !! "CONDA_BUILD_CROSS_COMPILATION") as [s|].
  - destruct (Hflag s eq_refl) as [z ->].
    repeat innermost_case; by eexists.
  - repeat innermost_case; by eexists.
Qed.

End CondaFacts.

(** A cross-compilation without [BUILD_PREFIX]. *)
Lemma conda_update_dirs_raises_witness :
  (exists s,
      environ cross_host !! "CONDA_BUILD_CROSS_COMPILATION" = Some s
      /\ Py.int_str s = Raise (KeyError "BUILD_PREFIX"))
  \/ (exists key,
         key ∈ ["BUILD_PREFIX"; "PREFIX"; "LIBRARY_INC"; "LIBRARY_LIB"]
         /\ environ cross_host !! key = None
         /\ KeyError "BUILD_PREFIX" = KeyError key).
Proof.
  apply (conda_update_dirs_raises cross_host ["/opt/include"] ["/opt/lib"]).
  reflexivity.
Defined.


(** Outside conda nothing is added. *)
Lemma conda_update_dirs_identity_witness :
  conda_update_dirs (sample_host "" no_git) ["/opt/include"] ["/opt/lib"]
  = Ok (["/opt/include"], ["/opt/lib"]).
Proof.
  apply (conda_update_dirs_identity (sample_host "" no_git) ["/opt/include"]
           ["/opt/lib"] 0); [reflexivity | lia | reflexivity].
Defined.

(** A cross-compilation for CUDA 12: directories in front and behind. *)
Lemma conda_update_dirs_around_base_witness :
  (exists pre post,
      ["/bld/targets/x86_64-linux/include"; "/opt/include"; "/bld/include";
       "/bld/targets/sbsa-linux/include"; "/pfx/include"]
      = pre ++ ["/opt/include"] ++ post)
  /\ (exists pre post,
         ["/bld/lib/stubs"; "/bld/targets/x86_64-linux/lib"; "/opt/lib";
          "/bld/lib"; "/pfx/lib/stubs"; "/pfx/lib"]
         = pre ++ ["/opt/lib"] ++ post).
Proof.
  apply (conda_update_dirs_around_base conda_host ["/opt/include"]
           ["/opt/lib"]).
  vm_compute; reflexivity.
Defined.

(** The same build returns. *)
Lemma conda_update_dirs_returns_witness :
  exists dirs,
    conda_update_dirs conda_host ["/opt/include"] ["/opt/lib"] = Ok dirs.
Proof.
  apply (conda_update_dirs_returns conda_host).
  - intros s Hs. vm_compute in Hs. injection Hs as <-. by exists 1.
  - intros key Hkey.
    repeat (apply elem_of_cons in Hkey as [->|Hkey]); [by eexists..|].
    by apply elem_of_nil in Hkey.
Defined.
(** ** The outcomes of a probe *)

Ltac unfold_probe :=
  unfold build_and_run, build_shlib, with_tempdir, finally, rmtree,
    compile, link_with, check_output, write_file;
  unfold_monad.

Section OutcomeFacts.
Variable host : Host.

(** What [build_and_run] returns is the output of the binary it built:
    the search paths were prepared, [mkdtemp] made the workspace [d],
    the source was written to [a.cpp] in it, the compiler turned that
    file into objects with [d] as output directory, the linker turned
    the objects into [a] in [d], and [a] was run on the file system the
    linker left: its output is the result.  What [build_and_run] raises
    is, unchanged, the exception of the path preparation, of [mkdtemp],
    of writing the source or of the compile step at that point of the
    same chain, or else an [Exception] that wraps the error of the link
    step as [Cannot build a stub file.] or the error of the run as
    [Cannot execute a stub file.]. *)
Theorem build_and_run_outcome (compiler : CCompiler) (source : probe_source)
    (libraries include_dirs library_dirs : list string)
    (define_macros : option (list (string * pyval)))
    (extra_compile_args : list string) (w : World) :
  let postargs := if PLATFORM_WIN32 host then ["/MANIFEST"] else [] in
  (* the chain of steps up to the compile step, and what it gave *)
  let compiled d w1 inc lib m1 (objects : result (list string)) :=
    conda_update_dirs host include_dirs library_dirs = Ok (inc, lib)
    /\ mkdtemp host w = (Ok d, w1)
    /\ write_error host (path_join d "a.cpp") (fs w1) = None
    /\ cc_compile compiler [path_join d "a.cpp"] d inc define_macros
         extra_compile_args
         (<[path_join d "a.cpp" := ProbeText source]> (fs w1))
       = (m1, objects) in
  match (build_and_run host compiler source libraries include_dirs
           library_dirs define_macros extra_compile_args w).1 with
  | Ok out =>
      exists d w1 inc lib m1 objects m2 m3,
        compiled d w1 inc lib m1 (Ok objects)
        /\ cc_link_executable compiler objects (path_join d "a") libraries
             lib postargs "c++" m1 = (m2, Ok tt)
        /\ run_binary host (path_join d "a") m2 = (m3, Ok out)
  | Raise e =>
      conda_update_dirs host include_dirs library_dirs = Raise e
      \/ (exists w1, mkdtemp host w = (Raise e, w1))
      \/ (exists d w1 partial,
             mkdtemp host w = (Ok d, w1)
             /\ write_error host (path_join d "a.cpp") (fs w1)
                = Some (e, partial))
      \/ (exists d w1 inc lib m1, compiled d w1 inc lib m1 (Raise e))
      \/ (exists d w1 inc lib m1 objects m2 e0,
             compiled d w1 inc lib m1 (Ok objects)
             /\ cc_link_executable compiler objects (path_join d "a")
                  libraries lib postargs "c++" m1 = (m2, Raise e0)
             /\ e = Exception ("Cannot build a stub file." +:+ nl
                               +:+ "Original error: " +:+ exn_str e0))
      \/ (exists d w1 inc lib m1 objects m2 m3 e0,
             compiled d w1 inc lib m1 (Ok objects)
             /\ cc_link_executable compiler objects (path_join d "a")
                  libraries lib postargs "c++" m1 = (m2, Ok tt)
             /\ run_binary host (path_join d "a") m2 = (m3, Raise e0)
             /\ e = Exception ("Cannot execute a stub file." +:+ nl
                               +:+ "Original error: " +:+ exn_str e0))
  end.
Proof.
  cbv zeta. unfold_probe.
  destruct (conda_update_dirs host include_dirs library_dirs)
    as [[inc lib]|e] eqn:Hconda; cbn; [|by left].
  destruct (mkdtemp host w) as [[d|e] w1] eqn:Hmk; cbn;
    [|right; left; by eexists].
  destruct (write_error host (path_join d "a.cpp") (fs w1))
    as [[e [partial|]]|] eqn:Hwrite; cbn;
    [right; right; left; by eexists _, _, _..|].
  destruct (cc_compile compiler _ d inc define_macros extra_compile_args _)
    as [m1 [objects|e]] eqn:Hcompile; cbn;
    [|do 3 right; left; by eexists _, _, _, _, _].
  destruct (cc_link_executable compiler objects _ libraries lib _ "c++" m1)
    as [m2 [[]|e0]] eqn:Hlink; cbn;
    [|do 4 right; left; by eexists _, _, _, _, _, _, _, _].
  destruct (run_binary host (path_join d "a") m2) as [m3 [out|e0]] eqn:Hrun;
    cbn.
  - by eexists _, _, _, _, _, _, _, _.
  - do 5 right. by eexists _, _, _, _, _, _, _, _, _.
Qed.

(** [build_shlib] returns after the same chain of steps, with the link
    step of a shared library as the last: it starts no process, on no
    path.  It raises like [build_and_run], short of a run. *)
Theorem build_shlib_outcome (compiler : CCompiler) (source : probe_source)
    (libraries include_dirs library_dirs : list string)
    (define_macros : option (list (string * pyval)))
    (extra_compile_args : list string) (w : World) :
  let postargs := if PLATFORM_WIN32 host then ["/MANIFEST"] else [] in
  let r := build_shlib host compiler source libraries include_dirs
             library_dirs define_macros extra_compile_args w in
  let compiled d w1 inc lib m1 (objects : result (list string)) :=
    conda_update_dirs host include_dirs library_dirs = Ok (inc, lib)
    /\ mkdtemp host w = (Ok d, w1)
    /\ write_error host (path_join d "a.cpp") (fs w1) = None
    /\ cc_compile compiler [path_join d "a.cpp"] d inc define_macros
         extra_compile_args
         (<[path_join d "a.cpp" := ProbeText source]> (fs w1))
       = (m1, objects) in
  (exists evs,
      fs_trace r.2 = fs_trace w ++ evs
      /\ forallb (fun ev => negb (starts_process ev)) evs = true)
  /\ match r.1 with
     | Ok _ =>
         exists d w1 inc lib m1 objects m2,
           compiled d w1 inc lib m1 (Ok objects)
           /\ cc_link_shared_lib compiler objects (path_join d "a") libraries
                lib postargs "c++" m1 = (m2, Ok tt)
           /\ fs_trace r.2
              = fs_trace w
                ++ [Mkdtemp d; Wrote (path_join d "a.cpp"); Compiled d;
                    Linked (path_join d "a"); Rmtree d]
     | Raise e =>
         conda_update_dirs host include_dirs library_dirs = Raise e
         \/ (exists w1, mkdtemp host w = (Raise e, w1))
         \/ (exists d w1 partial,
                mkdtemp host w = (Ok d, w1)
                /\ write_error host (path_join d "a.cpp") (fs w1)
                   = Some (e, partial))
         \/ (exists d w1 inc lib m1, compiled d w1 inc lib m1 (Raise e))
         \/ (exists d w1 inc lib m1 objects m2 e0,
                compiled d w1 inc lib m1 (Ok objects)
                /\ cc_link_shared_lib compiler objects (path_join d "a")
                     libraries lib postargs "c++" m1 = (m2, Raise e0)
                /\ e = Exception ("Cannot build a stub file." +:+ nl
                                  +:+ "Original error: " +:+ exn_str e0))
     end.
Proof.
  cbv zeta. unfold_probe.
  pose proof (mkdtemp_outcome host w) as Htrace.
  destruct (conda_update_dirs host include_dirs library_dirs)
    as [[inc lib]|e] eqn:Hconda; cbn;
    [|split; [exists []; by rewrite app_nil_r|by left]].
  destruct (mkdtemp host w) as [[d|e] w1] eqn:Hmk; cbn.
  2:{ destruct Htrace as (_ & _ & ->).
      split; [exists []; by rewrite app_nil_r|right; left; by eexists]. }
  destruct Htrace as (_ & _ & _ & Htrace).
  destruct (write_error host (path_join d "a.cpp") (fs w1))
    as [[e [partial|]]|] eqn:Hwrite; cbn.
  1,2: rewrite Htrace, <- !app_assoc;
    (split; [by eexists|right; right; left; by eexists _, _, _]).
  destruct (cc_compile compiler _ d inc define_macros extra_compile_args _)
    as [m1 [objects|e]] eqn:Hcompile; cbn.
  2:{ rewrite Htrace, <- !app_assoc.
      split; [by eexists|do 3 right; left; by eexists _, _, _, _, _]. }
  destruct (cc_link_shared_lib compiler objects _ libraries lib _ "c++" m1)
    as [m2 [[]|e0]] eqn:Hlink; cbn; rewrite Htrace, <- !app_assoc.
  - split; [by eexists|]. by eexists _, _, _, _, _, _, _.
  - split; [by eexists|]. do 4 right. by eexists _, _, _, _, _, _, _, _.
Qed.

(** Neither of them touches the state of the module: the caches, the
    settings objects and the warnings printed are the same after the
    call, whatever its outcome. *)
Theorem probes_keep_module_state (compiler : CCompiler)
    (source : probe_source)
    (libraries include_dirs library_dirs : list string)
    (define_macros : option (list (string * pyval)))
    (extra_compile_args : list string) (w : World) :
  let run := build_and_run host compiler source libraries include_dirs
               library_dirs define_macros extra_compile_args w in
  let lib := build_shlib host compiler source libraries include_dirs
               library_dirs define_macros extra_compile_args w in
  (globals run.2 = globals w /\ heap run.2 = heap w
   /\ warnings run.2 = warnings w)
  /\ (globals lib.2 = globals w /\ heap lib.2 = heap w
      /\ warnings lib.2 = warnings w).
Proof.
  cbv zeta. split.
  - destruct (build_and_run _ _ _ _ _ _ _ _ _) as [r w'] eqn:Hrun.
    by apply build_and_run_frame in Hrun.
  - destruct (build_shlib _ _ _ _ _ _ _ _ _) as [r w'] eqn:Hrun.
    by apply build_shlib_frame in Hrun.
Qed.

End OutcomeFacts.

(** ** The checks and their accessors together *)

Ltac unfold_checks :=
  unfold check_hip_version, check_thrust_version, check_cudnn_version,
    check_nccl_version, check_cutensor_version, check_cusparselt_version,
    check_compute_capabilities, check_cub_version, check_jitify_version;
  unfold_monad.

Ltac run_check Hs Hrun :=
  unfold_checks; repeat (rewrite ?Hs, ?Hrun; cbn).

Section CheckAccessorFacts.
Variable host : Host.
Variable compiler : CCompiler.

(** Whatever integer a probe prints is what the accessor of the check
    returns afterwards.  This holds as well when the check rejects the
    version as too old: the version is cached before it is compared
    with the floor. *)
Theorem version_read_back (settings : nat) (s : Settings) (w : World) :
  heap w !! settings = Some s ->
  (forall out w1 v,
      build_and_run host compiler hip_version_src [] (include_dirs s) []
        None [] w = (Ok out, w1) ->
      Py.int out = Ok v ->
      get_hip_version false (check_hip_version host compiler settings w).2
      = Ok (VInt v))
  /\ (forall out w1 v,
      build_and_run host compiler thrust_version_src [] (include_dirs s) []
        None [] w = (Ok out, w1) ->
      Py.int out = Ok v ->
      get_thrust_version false
        (check_thrust_version host compiler settings w).2 = Ok (VInt v))
  /\ (forall out w1 v,
      build_and_run host compiler cudnn_version_src [] (include_dirs s) []
        None [] w = (Ok out, w1) ->
      Py.int out = Ok v ->
      get_cudnn_version false
        (check_cudnn_version host compiler settings w).2 = Ok (VInt v))
  /\ (forall out w1 v,
      build_and_run host compiler nccl_version_src [] (include_dirs s) []
        (Some (define_macros s)) [] w = (Ok out, w1) ->
      Py.int out = Ok v ->
      get_nccl_version false
        (check_nccl_version host compiler settings w).2 = Ok (VInt v))
  /\ (forall out w1 v,
      build_and_run host compiler cutensor_version_src [] (include_dirs s)
        [] None [] w = (Ok out, w1) ->
      Py.int out = Ok v ->
      get_cutensor_version false
        (check_cutensor_version host compiler settings w).2 = Ok (VInt v))
  /\ (forall out w1 v,
      build_and_run host compiler cusparselt_version_src [] (include_dirs s)
        [] None [] w = (Ok out, w1) ->
      Py.int out = Ok v ->
      get_cusparselt_version false
        (check_cusparselt_version host compiler settings w).2 = Ok (VInt v))
  /\ (forall out w1 v,
      build_and_run host compiler cub_version_src [] (include_dirs s) []
        (Some (define_macros s)) [] w = (Ok out, w1) ->
      Py.int out = Ok v ->
      get_cub_version false (check_cub_version host compiler settings w).2
      = Ok (VInt v))
  /\ (forall out w1 caps,
      build_and_run host compiler compute_capabilities_src ["cudart"]
        (include_dirs s) (library_dirs s) None [] w = (Ok out, w1) ->
      Py.ints (Py.split_ws out) = Ok caps ->
      get_compute_capabilities false
        (check_compute_capabilities host compiler settings w).2
      = Ok (Some (list_to_set caps))).
Proof.
  intros Hs.
  repeat match goal with |- _ /\ _ => split end;
    intros out w1 v Hrun Hint;
    pose proof (build_and_run_frame _ _ _ _ _ _ _ _ _ _ _ Hrun)
      as (_ & Hheap & _);
    run_check Hs Hrun; rewrite Hint; cbn;
    rewrite ?Hheap, ?Hs; cbn;
    repeat case_match; reflexivity.
Qed.

(** A probe that prints something [int] rejects makes the check raise
    [ValueError]: the conversion is outside the [try] block.  Nothing is
    cached and no warning is printed.  The compute-capability check is
    the exception: its conversion is inside the [try] block, so it
    prints a warning and returns [False]. *)
Theorem unparsable_probe_output (settings : nat) (s : Settings) (w : World) :
  heap w !! settings = Some s ->
  (forall out w1 e,
      build_and_run host compiler hip_version_src [] (include_dirs s) []
        None [] w = (Ok out, w1) ->
      Py.int out = Raise e ->
      check_hip_version host compiler settings w = (Raise e, w1))
  /\ (forall out w1 e,
      build_and_run host compiler thrust_version_src [] (include_dirs s) []
        None [] w = (Ok out, w1) ->
      Py.int out = Raise e ->
      check_thrust_version host compiler settings w = (Raise e, w1))
  /\ (forall out w1 e,
      build_and_run host compiler cudnn_version_src [] (include_dirs s) []
        None [] w = (Ok out, w1) ->
      Py.int out = Raise e ->
      check_cudnn_version host compiler settings w = (Raise e, w1))
  /\ (forall out w1 e,
      build_and_run host compiler nccl_version_src [] (include_dirs s) []
        (Some (define_macros s)) [] w = (Ok out, w1) ->
      Py.int out = Raise e ->
      check_nccl_version host compiler settings w = (Raise e, w1))
  /\ (forall out w1 e,
      build_and_run host compiler cutensor_version_src [] (include_dirs s)
        [] None [] w = (Ok out, w1) ->
      Py.int out = Raise e ->
      check_cutensor_version host compiler settings w = (Raise e, w1))
  /\ (forall out w1 e,
      build_and_run host compiler cusparselt_version_src [] (include_dirs s)
        [] None [] w = (Ok out, w1) ->
      Py.int out = Raise e ->
      check_cusparselt_version host compiler settings w = (Raise e, w1))
  /\ (forall out w1 e,
      build_and_run host compiler cub_version_src [] (include_dirs s) []
        (Some (define_macros s)) [] w = (Ok out, w1) ->
      Py.int out = Raise e ->
      check_cub_version host compiler settings w = (Raise e, w1))
  /\ (forall out w1 e,
      build_and_run host compiler compute_capabilities_src ["cudart"]
        (include_dirs s) (library_dirs s) None [] w = (Ok out, w1) ->
      Py.ints (Py.split_ws out) = Raise e ->
      check_compute_capabilities host compiler settings w
      = (Ok false,
         add_warning ["Cannot check compute capability" +:+ nl +:+ exn_str e]
           w1)).
Proof.
  intros Hs.
  repeat match goal with |- _ /\ _ => split end;
    intros out w1 e Hrun Hint;
    run_check Hs Hrun; rewrite Hint; reflexivity.
Qed.

(** The three floors, for every version: HIP is accepted from 305 on,
    cuDNN from 7600 on and cuTENSOR from 2000 on; anything below makes
    the check print a warning and return [False]. *)
Theorem version_floors (settings : nat) (s : Settings) (w : World) :
  heap w !! settings = Some s ->
  (forall out w1 v,
      build_and_run host compiler hip_version_src [] (include_dirs s) []
        None [] w = (Ok out, w1) ->
      Py.int out = Ok v ->
      check_hip_version host compiler settings w
      = if 305 <=? v
        then (Ok true, upd_globals (set_hip_version v) w1)
        else (Ok false,
              add_warning ["ROCm/HIP version is too old: " +:+ pretty v;
                           "ROCm 3.5.0 or newer is required"]
                (upd_globals (set_hip_version v) w1)))
  /\ (forall out w1 v,
      build_and_run host compiler cudnn_version_src [] (include_dirs s) []
        None [] w = (Ok out, w1) ->
      Py.int out = Ok v ->
      check_cudnn_version host compiler settings w
      = if 7600 <=? v
        then (Ok true, upd_globals (set_cudnn_version v) w1)
        else (Ok false,
              add_warning ["Unsupported cuDNN version: " +:+ pretty v;
                           "cuDNN >=v7600 is required"]
                (upd_globals (set_cudnn_version v) w1)))
  /\ (forall out w1 v,
      build_and_run host compiler cutensor_version_src [] (include_dirs s)
        [] None [] w = (Ok out, w1) ->
      Py.int out = Ok v ->
      check_cutensor_version host compiler settings w
      = if 2000 <=? v
        then (Ok true, upd_globals (set_cutensor_version v) w1)
        else (Ok false,
              add_warning ["Unsupported cuTENSOR version: " +:+ pretty v]
                (upd_globals (set_cutensor_version v) w1))).
Proof.
  intros Hs.
  repeat match goal with |- _ /\ _ => split end;
    intros out w1 v Hrun Hint;
    run_check Hs Hrun; rewrite Hint; cbn;
    unfold minimum_hip_version, minimum_cudnn_version.
  - rewrite (Z.ltb_antisym 305 v). by destruct (305 <=? v).
  - by destruct (7600 <=? v).
  - rewrite (Z.ltb_antisym 2000 v). by destruct (2000 <=? v).
Qed.

(** Thrust, NCCL and cuSPARSELt have no floor: whatever integer the
    probe prints with [%d] - zero and the negative ones included, as
    long as [int()] converts it, that is up to 4300 digits - the check
    returns [True] and the accessor returns that integer. *)
Theorem checks_without_floor (settings : nat) (s : Settings) (w : World) :
  heap w !! settings = Some s ->
  (forall out w1,
      is_integer out = true ->
      build_and_run host compiler thrust_version_src [] (include_dirs s) []
        None [] w = (Ok out, w1) ->
      check_thrust_version host compiler settings w
      = (Ok true, upd_globals (set_thrust_version (integer_value out)) w1)
      /\ get_thrust_version false
           (check_thrust_version host compiler settings w).2
         = Ok (VInt (integer_value out)))
  /\ (forall out w1,
      is_integer out = true ->
      build_and_run host compiler nccl_version_src [] (include_dirs s) []
        (Some (define_macros s)) [] w = (Ok out, w1) ->
      check_nccl_version host compiler settings w
      = (Ok true, upd_globals (set_nccl_version (integer_value out)) w1)
      /\ get_nccl_version false
           (check_nccl_version host compiler settings w).2
         = Ok (VInt (integer_value out)))
  /\ (forall out w1,
      is_integer out = true ->
      build_and_run host compiler cusparselt_version_src [] (include_dirs s)
        [] None [] w = (Ok out, w1) ->
      check_cusparselt_version host compiler settings w
      = (Ok true,
         upd_globals (set_cusparselt_version (integer_value out)) w1)
      /\ get_cusparselt_version false
           (check_cusparselt_version host compiler settings w).2
         = Ok (VInt (integer_value out))).
Proof.
  intros Hs.
  repeat match goal with |- _ /\ _ => split end;
    intros out w1 Hout Hrun;
    unfold get_thrust_version, get_nccl_version, get_cusparselt_version;
    run_check Hs Hrun; rewrite (int_integer out Hout); done.
Qed.

End CheckAccessorFacts.

(** A HIP that is too old is read back all the same. *)
Lemma version_read_back_witness :
  get_hip_version false
    (check_hip_version (sample_host "304" no_git) working_compiler 0
       sample_world).2
  = Ok (VInt 304).
Proof.
  destruct (version_read_back (sample_host "304" no_git) working_compiler 0
              sample_settings sample_world eq_refl) as [H _].
  eapply (H "304"); vm_compute; reflexivity.
Defined.

(** A probe that prints [3.5]. *)
Lemma unparsable_probe_output_witness :
  exists msg,
    (check_hip_version (sample_host "3.5" no_git) working_compiler 0
       sample_world).1 = Raise (ValueError msg).
Proof.
  destruct (unparsable_probe_output (sample_host "3.5" no_git)
              working_compiler 0 sample_settings sample_world eq_refl)
    as [H _].
  eexists. erewrite (H "3.5"); [reflexivity | vm_compute; reflexivity..].
Defined.

(** cuTENSOR 2000 and 1999. *)
Lemma version_floors_witness :
  (check_cutensor_version (sample_host "2000" no_git) working_compiler 0
     sample_world).1 = Ok true
  /\ (check_cutensor_version (sample_host "1999" no_git) working_compiler 0
        sample_world).1 = Ok false.
Proof.
  pose proof (fun out =>
    version_floors (sample_host out no_git) working_compiler 0
      sample_settings sample_world eq_refl) as H.
  destruct (H "2000") as (_ & _ & H1). destruct (H "1999") as (_ & _ & H2).
  erewrite (H1 "2000" _ 2000), (H2 "1999" _ 1999);
    [split; reflexivity | vm_compute; reflexivity..].
Defined.

(** A Thrust that prints -1. *)
Lemma checks_without_floor_witness :
  (check_thrust_version (sample_host "-1" no_git) working_compiler 0
     sample_world).1 = Ok true
  /\ get_thrust_version false
       (check_thrust_version (sample_host "-1" no_git) working_compiler 0
          sample_world).2 = Ok (VInt (-1)).
Proof.
  destruct (checks_without_floor (sample_host "-1" no_git) working_compiler 0
              sample_settings sample_world eq_refl) as [H _].
  edestruct (H "-1") as [Hcheck Hget];
    [reflexivity | vm_compute; reflexivity |].
  split; [by rewrite Hcheck|exact Hget].
Defined.

(** ** The vendored dependencies: CUB and Jitify *)

Section VendoredFacts.
Variable host : Host.
Variable compiler : CCompiler.


(** The output of [git describe] must have three components separated
    by dots: a tag with no dot in it is never read as a version. *)
Theorem dotless_tag_is_no_version (tag : string) :
  all_chars (fun c => negb (Ascii.eqb c ".")) tag = true ->
  exists e, cub_version_of_describe (tag +:+ nl) = Raise e.
Proof.
  intros Hdots. unfold cub_version_of_describe.
  rewrite drop_last_newline.
  assert (Hsplit : exists t,
             Py.split "." (if Py.startswith "v" tag then Py.tail tag else tag)
             = [t]).
  { destruct (Py.startswith "v" tag); [|by rewrite split_last; eauto].
    destruct tag as [|c tag]; [by cbn; eauto|].
    cbn in Hdots. apply andb_true_iff in Hdots as [_ Hdots].
    cbn [Py.tail]. rewrite split_last by done. eauto. }
  destruct Hsplit as [t ->].
  cbn [Py.index lookup list_lookup mbind result_bind].
  destruct (Py.int_str t); cbn; eauto.
Qed.


(** NCCL 1.x has no version macro and its probe prints 0: the check
    accepts it, the accessor returns 0 and, formatted, [1.x]. *)
Theorem nccl_legacy_version (settings : nat) (s : Settings) (w : World)
    (out : string) (w1 : World) :
  heap w !! settings = Some s ->
  build_and_run host compiler nccl_version_src [] (include_dirs s) []
    (Some (define_macros s)) [] w = (Ok out, w1) ->
  Py.int out = Ok 0 ->
  check_nccl_version host compiler settings w
  = (Ok true, upd_globals (set_nccl_version 0) w1)
  /\ get_nccl_version false (check_nccl_version host compiler settings w).2
     = Ok (VInt 0)
  /\ get_nccl_version true (check_nccl_version host compiler settings w).2
     = Ok (VStr "1.x").
Proof.
  intros Hs Hrun Hint. run_check Hs Hrun. rewrite Hint. done.
Qed.

End VendoredFacts.


Lemma dotless_tag_is_no_version_witness :
  exists e, cub_version_of_describe ("nightly" +:+ nl) = Raise e.
Proof. apply (dotless_tag_is_no_version "nightly"). reflexivity. Defined.


Lemma nccl_legacy_version_witness :
  get_nccl_version true
    (check_nccl_version (sample_host "0" no_git) working_compiler 0
       sample_world).2
  = Ok (VStr "1.x").
Proof.
  destruct (nccl_legacy_version (sample_host "0" no_git) working_compiler 0
              sample_settings sample_world "0"
              (build_and_run (sample_host "0" no_git) working_compiler
                 nccl_version_src [] (include_dirs sample_settings) []
                 (Some (define_macros sample_settings)) [] sample_world).2
              eq_refl)
    as (_ & _ & H); [vm_compute; reflexivity..|exact H].
Defined.
(** ** The base options of the compiler *)







Section BaseOptionFacts.
Variable host : Host.



End BaseOptionFacts.

(** A machine without nvcc: [subprocess.Popen] raises, the function
    raises the same, and the workspace it made is gone. *)
Example compiler_base_options_no_compiler :
  let r := _get_compiler_base_options bare_host ["nvcc"] sample_world in
  r.1 = Raise (OSError "[Errno 2] No such file or directory: 'nvcc'")
  /\ fs r.2 = fs sample_world
  /\ fs_trace r.2
     = [Mkdtemp "/tmp/tmp1"; Wrote "/tmp/tmp1/test.cu";
        Spawned ["nvcc"; "-o"; "/tmp/tmp1/test.out"; "/tmp/tmp1/test.cu"];
        Rmtree "/tmp/tmp1"].
Proof. repeat split; vm_compute; reflexivity. Qed.

(** The diagnostics of an nvcc that finds no supported host compiler. *)
Example compiler_base_options_suggested :
  (_get_compiler_base_options
     (nvcc_host 1
        ("ERROR: No supported gcc/g++ host compiler found, but clang-14 is available."
         +:+ nl
         +:+ "       Use 'nvcc -ccbin clang-14' to use that instead."
         +:+ nl))
     ["nvcc"] sample_world).1
  = Ok ["-ccbin"; "clang-14"].
Proof. vm_compute; reflexivity. Qed.

(** Any other failure, here with a byte in stderr that is no UTF-8: the
    error is the one of [decode], not [RuntimeError]. *)
Example compiler_base_options_undecodable :
  exists msg,
    (_get_compiler_base_options
       (nvcc_host 1 (String (ascii_of_nat 255) "nvcc fatal"))
       ["nvcc"] sample_world).1
    = Raise (UnicodeDecodeError msg).
Proof. eexists. vm_compute. reflexivity. Qed.

(** ** The diagnostic matcher, in terms of the lines themselves *)

Section MatchOutputLinesSound.
Context {Pattern Line MatchObj : Type}.
Variable re_match : Pattern -> Line -> option MatchObj.

Lemma window_matches_some (regexs : list Pattern) (window : list Line)
    (ms : list MatchObj) :
  window_matches re_match regexs window = Some ms ->
  length ms = length regexs
  /\ forall j r, regexs !! j = Some r ->
       exists l m, window !! j = Some l /\ re_match r l = Some m
                   /\ ms !! j = Some m.
Proof.
  revert window ms. induction regexs as [|r regexs IH]; intros window ms.
  - cbn. intros [= <-]. split; [done|]. intros j r Hr. done.
  - destruct window as [|l window]; [done|]. cbn.
    destruct (re_match r l) as [m|] eqn:Hm; [|done]. cbn.
    destruct (window_matches re_match regexs window) as [ms'|] eqn:Hw;
      [|done].
    cbn. intros [= <-]. destruct (IH _ _ Hw) as [Hlen Hall].
    split; [cbn; by rewrite Hlen|].
    intros [|j] r' Hr'; cbn in *.
    + injection Hr' as <-. eauto.
    + by apply Hall.
Qed.

Lemma window_matches_none (regexs : list Pattern) (window : list Line) :
  (length regexs <= length window)%nat ->
  window_matches re_match regexs window = None ->
  exists j r l, regexs !! j = Some r /\ window !! j = Some l
                /\ re_match r l = None.
Proof.
  revert window. induction regexs as [|r regexs IH]; intros window Hlen; [done|].
  destruct window as [|l window]; [cbn in Hlen; lia|]. cbn.
  destruct (re_match r l) as [m|] eqn:Hm; cbn.
  - destruct (window_matches re_match regexs window) as [ms'|] eqn:Hw;
      [done|].
    intros _. destruct (IH window) as (j & r' & l' & ? & ? & ?);
      [cbn in Hlen; lia|done|].
    by exists (S j), r', l'.
  - intros _. by exists 0%nat, r, l.
Qed.

(** What a returned list of matches means: it has one match object per
    expression, all of them taken on consecutive lines from one start
    offset, and no window starting before that offset matches.  The
    start offset is below [len(lines) - len(regexs)]. *)
Theorem match_output_lines_sound (output_lines : list Line)
    (regexs : list Pattern) (matches : list (option MatchObj)) :
  _match_output_lines re_match output_lines regexs = Ok (Some matches) ->
  length matches = length regexs
  /\ exists i,
      (i + length regexs < length output_lines)%nat
      /\ (forall j r, regexs !! j = Some r ->
            exists l m, output_lines !! (i + j)%nat = Some l
                        /\ re_match r l = Some m
                        /\ matches !! j = Some (Some m))
      /\ forall i', (i' < i)%nat ->
           exists j r l, regexs !! j = Some r
                         /\ output_lines !! (i' + j)%nat = Some l
                         /\ re_match r l = None.
Proof.
  rewrite match_output_lines_scanned. intros [= Hfirst].
  set (n := (length output_lines - length regexs)%nat) in *.
  assert (Hgen : forall k start ms,
             (start + k = n)%nat ->
             first_window re_match output_lines regexs (seq start k) = Some ms ->
             exists i,
               (start <= i < n)%nat
               /\ window_at re_match output_lines regexs i = Some ms
               /\ forall i', (start <= i' < i)%nat ->
                    window_at re_match output_lines regexs i' = None).
  { induction k as [|k IH]; intros start ms Hk; [done|].
    cbn [seq first_window].
    destruct (window_at re_match output_lines regexs start) as [ms'|] eqn:Hw.
    - intros [= <-]. exists start. repeat split; [lia|lia|done|]. lia.
    - intros Hrest. destruct (IH (S start) ms) as (i & Hi & Hwi & Hbefore);
        [lia|done|].
      exists i. repeat split; [lia|lia|done|].
      intros i' Hi'. destruct (decide (i' = start)) as [->|]; [done|].
      apply Hbefore. lia. }
  destruct (first_window re_match output_lines regexs (seq 0 n))
    as [ms|] eqn:Hfw; [|done].
  cbn in Hfirst. injection Hfirst as <-.
  destruct (Hgen n 0%nat ms) as (i & Hi & Hwi & Hbefore); [lia|done|].
  unfold window_at in Hwi.
  destruct (window_matches_some _ _ _ Hwi) as [Hlen Hall].
  split; [unfold returned; by rewrite length_fmap|].
  exists i. split; [subst n; lia|]. split.
  - intros j r Hr. destruct (Hall j r Hr) as (l & m & Hl & Hm & Hms).
    exists l, m. rewrite lookup_drop in Hl. repeat split; [done|done|].
    unfold returned. by rewrite list_lookup_fmap, Hms.
  - intros i' Hi'.
    destruct (window_matches_none regexs (drop i' output_lines))
      as (j & r & l & Hr & Hl & Hm).
    + rewrite length_drop. subst n. lia.
    + apply Hbefore. lia.
    + exists j, r, l. by rewrite lookup_drop in Hl.
Qed.

(** With no more lines than expressions the matcher answers [None]
    without matching anything; with no expression at all it answers the
    empty list as soon as there is a line. *)
Theorem match_output_lines_edges (output_lines : list Line)
    (regexs : list Pattern) :
  ((length output_lines <= length regexs)%nat ->
   _match_output_lines re_match output_lines regexs = Ok None)
  /\ (regexs = [] -> output_lines <> [] ->
      _match_output_lines re_match output_lines regexs = Ok (Some [])).
Proof.
  split.
  - intros Hlen. rewrite match_output_lines_scanned.
    by replace (length output_lines - length regexs)%nat with 0%nat by lia.
  - intros -> Hne. rewrite match_output_lines_scanned.
    destruct output_lines as [|l ls]; [done|]. reflexivity.
Qed.

Lemma first_window_seq_none (output_lines : list Line) (regexs : list Pattern)
    (start k : nat) :
  first_window re_match output_lines regexs (seq start k) = None
  <-> forall i, (start <= i < start + k)%nat ->
        window_at re_match output_lines regexs i = None.
Proof.
  revert start. induction k as [|k IH]; intros start; cbn [seq first_window].
  - split; [intros _ i Hi; lia|done].
  - destruct (window_at re_match output_lines regexs start) as [ms|] eqn:Hw.
    + split; [done|]. intros Hall. rewrite Hall in Hw by lia. done.
    + rewrite IH. split.
      * intros Hall i Hi. destruct (decide (i = start)) as [->|]; [done|].
        apply Hall. lia.
      * intros Hall i Hi. apply Hall. lia.
Qed.

(** What [None] means: at every start offset below
    [len(lines) - len(regexs)] some expression fails on its line, and
    conversely.  The offset [len(lines) - len(regexs)] itself is not
    among them. *)
Theorem match_output_lines_none (output_lines : list Line)
    (regexs : list Pattern) :
  _match_output_lines re_match output_lines regexs = Ok None
  <-> forall i, (i + length regexs < length output_lines)%nat ->
        exists j r l, regexs !! j = Some r
                      /\ output_lines !! (i + j)%nat = Some l
                      /\ re_match r l = None.
Proof.
  rewrite match_output_lines_scanned.
  set (n := (length output_lines - length regexs)%nat).
  transitivity (first_window re_match output_lines regexs (seq 0 n) = None).
  { destruct (first_window re_match output_lines regexs (seq 0 n)); cbn;
      split; congruence. }
  rewrite first_window_seq_none. split.
  - intros Hall i Hi.
    destruct (window_matches_none regexs (drop i output_lines))
      as (j & r & l & Hr & Hl & Hm).
    + rewrite length_drop. lia.
    + apply Hall. subst n. lia.
    + exists j, r, l. by rewrite lookup_drop in Hl.
  - intros Hall i Hi.
    destruct (window_at re_match output_lines regexs i) as [ms|] eqn:Hw;
      [|done].
    destruct (Hall i) as (j & r & l & Hr & Hl & Hm); [subst n; lia|].
    destruct (window_matches_some _ _ _ Hw) as [_ Hsome].
    destruct (Hsome j r Hr) as (l' & m & Hl' & Hm' & _).
    rewrite lookup_drop in Hl'. congruence.
Qed.

End MatchOutputLinesSound.

(** The diagnostics of nvcc between two other lines. *)
Lemma match_output_lines_sound_witness :
  length nvcc_matches = 2%nat /\ exists i, (i + 2 < 4)%nat.
Proof.
  destruct (match_output_lines_sound Re.match_ nvcc_diagnostics
              [no_host_compiler_pattern; use_instead_pattern] nvcc_matches)
    as (Hlen & i & Hi & _); [vm_compute; reflexivity|].
  split; [exact Hlen | exists i; exact Hi].
Defined.

(** The diagnostics of nvcc with a matching function that can raise and
    does not; and three lines against an expression that does not
    compile, after one that matches. *)
Lemma match_output_lines_first_scanned_window_witness :
  _match_output_lines strict_match nvcc_diagnostics
    [no_host_compiler_pattern; use_instead_pattern]
  = Ok (Some nvcc_matches)
  /\ _match_output_lines strict_match ["a"; "b"; "c"] ["a"; "("]
     = Raise (OtherError "re.error"
                "missing ), unterminated subpattern at position 0")
  /\ exists i j r l,
       (i + 2 < 3)%nat /\ ["a"; "("] !! j = Some r
       /\ ["a"; "b"; "c"] !! (i + j)%nat = Some l
       /\ strict_match r l
          = Raise (OtherError "re.error"
                     "missing ), unterminated subpattern at position 0").
Proof.
  split; [|split].
  - rewrite (proj1 (match_output_lines_first_scanned_window strict_match
                      nvcc_diagnostics
                      [no_host_compiler_pattern; use_instead_pattern])).
    + vm_compute; reflexivity.
    + intros r l Hr _. unfold strict_match.
      destruct (String.eqb r "(") eqn:Heq; [|by eexists].
      apply String.eqb_eq in Heq as ->.
      apply elem_of_cons in Hr as [Hr|Hr]; [discriminate Hr|].
      apply elem_of_cons in Hr as [Hr|Hr]; [discriminate Hr|].
      by apply elem_of_nil in Hr.
  - vm_compute; reflexivity.
  - apply (proj2 (match_output_lines_first_scanned_window strict_match
                    ["a"; "b"; "c"] ["a"; "("])).
    vm_compute; reflexivity.
Defined.

(** ** Locating the toolchains *)

Ltac unfold_session :=
  unfold get_compiler_base_options, get_nvcc_path, get_hipcc_path,
    get_cuda_path, get_rocm_path;
  unfold mbind, T_bind, mret, T_ret, read, assign, in_world, t_lift, t_raise.

Section ToolchainFacts.
Variable host : Host.
Variable os : Os.

Lemma get_cuda_path_stores (s s1 : Session) (p : option string) :
  get_cuda_path host os s = (Ok p, s1) -> _cuda_path (paths s1) = p.
Proof.
  unfold_session.
  repeat (cbn; innermost_case); cbn; intros [= <- <-]; reflexivity.
Qed.

Lemma get_rocm_path_stores (s s1 : Session) (p : option string) :
  get_rocm_path host s = (Ok p, s1) -> _rocm_path (paths s1) = p.
Proof.
  unfold_session.
  repeat (cbn; innermost_case); cbn; intros [= <- <-]; reflexivity.
Qed.

(** The cache of [get_cuda_path] and [get_rocm_path]: what a call
    returned is what every later call returns, and a later call changes
    nothing and prints nothing - unless the path found is itself the
    magic word, which the functions take for an empty cache. *)
Theorem toolchain_paths_cached (s s1 : Session) (p : option string) :
  initialized p = true ->
  (get_cuda_path host os s = (Ok p, s1) ->
   get_cuda_path host os s1 = (Ok p, s1))
  /\ (get_rocm_path host s = (Ok p, s1) ->
      get_rocm_path host s1 = (Ok p, s1)).
Proof.
  intros Hp. split; intros Hrun.
  - apply get_cuda_path_stores in Hrun. unfold_session.
    by rewrite Hrun, Hp.
  - apply get_rocm_path_stores in Hrun. unfold_session.
    by rewrite Hrun, Hp.
Qed.

(** [get_rocm_path] never answers [None] once the module is imported:
    without [ROCM_HOME] it answers the empty string.  The test of
    [get_hipcc_path] on [None] is therefore never true, and without
    [HIPCC] that function looks for [bin/hipcc] below whatever
    [get_rocm_path] answered, the empty string included. *)
Theorem rocm_path_is_never_none (s : Session) :
  _rocm_path (paths s) <> None ->
  (exists p, (get_rocm_path host s).1 = Ok (Some p)
             /\ _rocm_path (paths (get_rocm_path host s).2) = Some p
             /\ (_rocm_path (paths s) = Some NOT_INITIALIZED ->
                 p = environ_get host "ROCM_HOME" ""))
  /\ (environ host !! "HIPCC" = None ->
      exists p,
        (get_rocm_path host s).1 = Ok (Some p)
        /\ (get_hipcc_path host os s).1
           = Ok (let hipcc_path :=
                   os_path_join os p
                     (if PLATFORM_WIN32 host then "bin/hipcc.exe"
                      else "bin/hipcc") in
                 if os_path_exists os hipcc_path then Some [hipcc_path]
                 else None)).
Proof.
  intros Hnone.
  destruct (_rocm_path (paths s)) as [p0|] eqn:Hp0; [|done].
  split.
  - unfold_session. rewrite Hp0. cbn.
    destruct (negb (p0 =? NOT_INITIALIZED)%string) eqn:Hmagic; cbn.
    + exists p0. repeat split; [done|].
      intros [= ->]. by rewrite String.eqb_refl in Hmagic.
    + eexists. repeat split.
  - intros Hhipcc. unfold_session. rewrite Hhipcc, Hp0. cbn.
    destruct (negb (p0 =? NOT_INITIALIZED)%string); cbn;
      eexists; (split; [reflexivity|]); by case_match.
Qed.

(** From an empty cache [get_cuda_path] answers [None] in one case only:
    [CUDA_PATH] names nothing that exists, nvcc is not on the search
    path and [/usr/local/cuda] does not exist.  It never raises. *)
Theorem cuda_path_none (s : Session) :
  _cuda_path (paths s) = Some NOT_INITIALIZED ->
  (exists p, (get_cuda_path host os s).1 = Ok p)
  /\ ((get_cuda_path host os s).1 = Ok None
      <-> os_path_exists os (environ_get host "CUDA_PATH" "") = false
          /\ search_on_path os ["nvcc"; "nvcc.exe"] = None
          /\ os_path_exists os "/usr/local/cuda" = false).
Proof.
  intros Hfresh. unfold_session. rewrite Hfresh. cbn.
  destruct (search_on_path os ["nvcc"; "nvcc.exe"]) as [nvcc|];
    repeat (cbn; innermost_case); cbn;
    (split; [by eexists|]); split; try done; intros H;
    destruct H as (? & ? & ?); congruence.
Qed.

(** The warning of [get_cuda_path]: from an empty cache it is printed
    exactly when [CUDA_PATH] is set, not empty, and other than the
    directory derived from the nvcc found - also when no nvcc was found,
    and whether or not [CUDA_PATH] exists. *)
Theorem cuda_path_warning (s : Session) :
  _cuda_path (paths s) = Some NOT_INITIALIZED ->
  let cuda_path := environ_get host "CUDA_PATH" "" in
  let cuda_path_default :=
    (fun p => os_path_normpath os (os_path_join os (os_path_dirname os p) ".."))
      <$> search_on_path os ["nvcc"; "nvcc.exe"] in
  warnings (world (get_cuda_path host os s).2)
  = warnings (world s)
    ++ if negb (Py.is_empty cuda_path)
          && negb (bool_decide (Some cuda_path = cuda_path_default))
       then [["nvcc path != CUDA_PATH";
              "nvcc path: " +:+ str_of_path cuda_path_default;
              "CUDA_PATH: " +:+ cuda_path]]
       else [].
Proof.
  intros Hfresh. cbv zeta. unfold_session. rewrite Hfresh. cbn.
  unfold print_warning, modify.
  destruct (search_on_path os ["nvcc"; "nvcc.exe"]) as [nvcc|];
    repeat (cbn; innermost_case); cbn;
    rewrite ?app_nil_r; try reflexivity; congruence.
Qed.

(** [NVCC] overrides everything: when it is set and not empty,
    [get_nvcc_path] answers its words and neither looks for CUDA nor
    changes any state.  Without the override, what it answers is [None]
    or the one path [<cuda>/bin/nvcc], which exists. *)
Theorem nvcc_path_sources (s : Session) :
  (forall nvcc,
      environ host !! "NVCC" = Some nvcc -> Py.is_empty nvcc = false ->
      get_nvcc_path host os s
      = (match shlex_split os nvcc with
         | Ok argv => Ok (Some argv)
         | Raise e => Raise e
         end, s))
  /\ (forall argv,
      (environ host !! "NVCC" = None \/ environ host !! "NVCC" = Some "") ->
      (get_nvcc_path host os s).1 = Ok (Some argv) ->
      exists cuda_path,
        (get_cuda_path host os s).1 = Ok (Some cuda_path)
        /\ argv = [os_path_join os cuda_path
                     (if PLATFORM_WIN32 host then "bin/nvcc.exe"
                      else "bin/nvcc")]
        /\ Forall (fun p => os_path_exists os p = true) argv).
Proof.
  split.
  - intros nvcc Hnvcc Hne. unfold_session. rewrite Hnvcc, Hne. cbn.
    by destruct (shlex_split os nvcc).
  - intros argv Hnvcc.
    assert (Hover : get_nvcc_path host os s
                    = (cuda_path ← get_cuda_path host os;
                       match cuda_path with
                       | None => mret None
                       | Some cuda_path =>
                           let nvcc_path :=
                             os_path_join os cuda_path
                               (if PLATFORM_WIN32 host then "bin/nvcc.exe"
                                else "bin/nvcc") in
                           if os_path_exists os nvcc_path
                           then mret (Some [nvcc_path]) else mret None
                       end) s).
    { unfold get_nvcc_path. by destruct Hnvcc as [-> | ->]. }
    rewrite Hover. unfold mbind, T_bind, mret, T_ret.
    destruct (get_cuda_path host os s) as [[[p|]|e] s1]; cbn; try done.
    destruct (os_path_exists os _) eqn:Hex; cbn; [|done].
    intros [= <-]. eexists. repeat split. by repeat constructor.
Qed.

(** The cache of [get_compiler_base_options] does not look at its
    argument: once a call has returned, every later call returns the
    same options, whatever compiler it is asked about, and runs nothing.
    A call that raises leaves the cache empty. *)
Theorem compiler_base_options_cached (compiler_path other_path : list string)
    (s : Session) :
  match (get_compiler_base_options host compiler_path s).1 with
  | Ok base_options =>
      get_compiler_base_options host other_path
        (get_compiler_base_options host compiler_path s).2
      = (Ok base_options, (get_compiler_base_options host compiler_path s).2)
  | Raise _ =>
      _compiler_base_options (paths s) = None
      /\ paths (get_compiler_base_options host compiler_path s).2 = paths s
  end.
Proof.
  unfold_session.
  destruct (_compiler_base_options (paths s)) as [opts|] eqn:Hc; cbn.
  - by rewrite Hc.
  - destruct (_get_compiler_base_options host compiler_path (world s))
      as [[opts|e] w']; cbn; done.
Qed.

End ToolchainFacts.

(** A second call after [CUDA_PATH] was found. *)
Lemma toolchain_paths_cached_witness :
  get_cuda_path cuda_host (sample_os ["/opt/cuda"])
    (get_cuda_path cuda_host (sample_os ["/opt/cuda"]) fresh_session).2
  = (Ok (Some "/opt/cuda"),
     (get_cuda_path cuda_host (sample_os ["/opt/cuda"]) fresh_session).2).
Proof.
  destruct (toolchain_paths_cached cuda_host (sample_os ["/opt/cuda"])
              fresh_session
              (get_cuda_path cuda_host (sample_os ["/opt/cuda"])
                 fresh_session).2
              (Some "/opt/cuda") eq_refl) as [H _].
  apply H. vm_compute; reflexivity.
Defined.

(** Without [ROCM_HOME] the ROCm path is the empty string. *)
Lemma rocm_path_is_never_none_witness :
  (get_rocm_path (env_host ∅) fresh_session).1 = Ok (Some "").
Proof.
  destruct (rocm_path_is_never_none (env_host ∅) (sample_os []) fresh_session)
    as [(p & Hp & _ & Henv) _]; [discriminate|].
  rewrite Hp, (Henv eq_refl). reflexivity.
Defined.

(** Nothing set, nothing installed. *)
Lemma cuda_path_none_witness :
  (get_cuda_path (env_host ∅) (sample_os []) fresh_session).1 = Ok None.
Proof.
  apply (cuda_path_none (env_host ∅) (sample_os []) fresh_session eq_refl).
  repeat split.
Defined.

(** [CUDA_PATH] is set and exists, and no nvcc is on the search path. *)
Lemma cuda_path_warning_witness :
  warnings
    (world (get_cuda_path cuda_host (sample_os ["/opt/cuda"])
              fresh_session).2)
  = [["nvcc path != CUDA_PATH"; "nvcc path: None"; "CUDA_PATH: /opt/cuda"]].
Proof.
  exact (cuda_path_warning cuda_host (sample_os ["/opt/cuda"]) fresh_session
           eq_refl).
Defined.

(** ** Composing the settings *)

Section SettingFacts.
Variable host : Host.
Variable os : Os.

(** The getters of the toolkit paths do not raise. *)
Lemma get_rocm_path_returns (s : Session) :
  exists rocm_path s1, get_rocm_path host s = (Ok rocm_path, s1).
Proof.
  unfold get_rocm_path, mbind, T_bind, read, assign, mret, T_ret.
  destruct (initialized (_rocm_path (paths s))); eauto.
Qed.

Lemma get_cuda_path_returns (s : Session) :
  exists cuda_path s1, get_cuda_path host os s = (Ok cuda_path, s1).
Proof.
  unfold get_cuda_path, mbind, T_bind, read, assign, mret, T_ret, in_world,
    print_warning, modify.
  destruct (initialized (_cuda_path (paths s))); [by eauto|].
  destruct (negb _ && negb _); cbn;
    repeat (case_match; cbn); simplify_eq; eauto.
Qed.

(** The search paths [get_compiler_setting] returns, in full.  The
    toolkit is the ROCm path of a HIP build or the CUDA path of a CUDA
    build, when that path is a string that is not empty.  The include
    directories start with the vendored headers: hipCUB of the toolkit
    for ROCm, and otherwise the three directories of the CCCL bundle,
    libcudacxx before Thrust before CUB; then come CuPy's own headers,
    the directories of the caller, those of the toolkit and, on
    Windows, the one of NVTX when it exists.  The library directories
    are the caller's followed by those of the toolkit.  The flag
    [-std=c++14] is passed exactly for HIP, and the two paths the later
    checks need are recorded.  [os.path.join] is taken not to lose a
    last argument that is not empty. *)
Theorem compiler_setting_layout (ctx : Context) (use_hip : bool)
    (s s' : Session) (st : Settings) :
  (forall a b, Py.is_empty b = false ->
               Py.is_empty (os_path_join os a b) = false) ->
  get_compiler_setting host os ctx use_hip s = (Ok st, s') ->
  let join := os_path_join os in
  let cupy_header := join (source_root host) "cupy/_core/include" in
  let cub := join cupy_header "cupy/_cccl/cub" in
  let thrust := join cupy_header "cupy/_cccl/thrust" in
  let libcudacxx := join cupy_header "cupy/_cccl/libcudacxx" in
  let toolkit :=
    match (if use_hip then (get_rocm_path host s).1
           else (get_cuda_path host os s).1) with
    | Ok (Some p) => if Py.is_empty p then None else Some p
    | _ => None
    end in
  let nvtx :=
    if PLATFORM_WIN32 host then
      match nvtx_path host with
      | Some nvtx => if os_path_exists os nvtx then [join nvtx "include"] else []
      | None => []
      end
    else [] in
  match toolkit with
  | Some p =>
      if use_hip then
        let hipcub := join (join p "include") "hipcub" in
        include_dirs st
        = [hipcub; cupy_header] ++ ctx_include_dirs ctx
          ++ [join p "include";
              join (join p "include") "hip";
              join (join p "include") "rocrand";
              join (join p "include") "hiprand";
              join (join p "include") "roctracer";
              join (join p "include") "hipblas";
              join (join p "include") "hipsparse";
              join (join p "include") "hipfft";
              join (join p "include") "rocsolver";
              join (join p "include") "rccl"]
          ++ nvtx
        /\ library_dirs st = ctx_library_dirs ctx ++ [join p "lib"]
        /\ _cub_path (paths s') = Some hipcub
        /\ os_path_exists os hipcub = true
      else
        include_dirs st
        = [libcudacxx; thrust; cub; cupy_header] ++ ctx_include_dirs ctx
          ++ [join p "include"] ++ nvtx
        /\ library_dirs st
           = ctx_library_dirs ctx
             ++ (if PLATFORM_WIN32 host
                 then [join p "bin"; join (join p "lib") "x64"]
                 else [join p "lib64"; join p "lib"])
        /\ _cub_path (paths s') = Some cub
  | None =>
      include_dirs st
      = [libcudacxx; thrust; cub; cupy_header] ++ ctx_include_dirs ctx ++ nvtx
      /\ library_dirs st = ctx_library_dirs ctx
      /\ _cub_path (paths s') = Some cub
  end
  /\ extra_compile_args st = (if use_hip then ["-std=c++14"] else [])
  /\ language st = "c++"
  /\ _jitify_path (paths s') = Some (join cupy_header "cupy/_jitify").
Proof.
  intros Hjoin. cbv zeta.
  pose proof (Hjoin (os_path_join os (source_root host) "cupy/_core/include")
                "cupy/_cccl/thrust" eq_refl) as Hthrust.
  pose proof (Hjoin (os_path_join os (source_root host) "cupy/_core/include")
                "cupy/_cccl/libcudacxx" eq_refl) as Hlib.
  unfold get_compiler_setting.
  unfold mbind at 1 2 3 4, T_bind, mret, T_ret.
  destruct use_hip.
  - destruct (get_rocm_path_returns s) as (rocm_path & s1 & ->).
    cbn [fst]. unfold assign at 1. cbn beta iota.
    unfold choose_vendored, add_rocm_dirs, add_cuda_dirs, prepend_vendored,
      add_nvtx, cccl_bundle, rocm_dirs, join3.
    unfold mbind, T_bind, mret, T_ret, assign, t_raise.
    destruct rocm_path as [p|]; [destruct (Py.is_empty p)|]; cbn.
    + rewrite Hthrust, Hlib. cbn.
      intros [= <- <-]. cbn.
      destruct (PLATFORM_WIN32 host), (nvtx_path host) as [nvtx|];
        try destruct (os_path_exists os nvtx); cbn;
        by rewrite <- ?app_assoc, ?app_nil_r.
    + destruct (os_path_exists os
                  (os_path_join os (os_path_join os p "include") "hipcub"))
        eqn:Hcub; [|done].
      intros [= <- <-]. cbn. rewrite <- ?app_assoc. cbn.
      destruct (PLATFORM_WIN32 host), (nvtx_path host) as [nvtx|];
        try destruct (os_path_exists os nvtx); cbn;
        by rewrite <- ?app_assoc, ?app_nil_r.
    + rewrite Hthrust, Hlib. cbn.
      intros [= <- <-]. cbn.
      destruct (PLATFORM_WIN32 host), (nvtx_path host) as [nvtx|];
        try destruct (os_path_exists os nvtx); cbn;
        by rewrite <- ?app_assoc, ?app_nil_r.
  - destruct (get_cuda_path_returns s) as (cuda_path & s1 & ->).
    cbn [fst]. unfold assign at 1. cbn beta iota.
    unfold choose_vendored, add_rocm_dirs, add_cuda_dirs, prepend_vendored,
      add_nvtx, cccl_bundle, cuda_dirs, join3.
    unfold mbind, T_bind, mret, T_ret, assign, t_raise.
    cbn. rewrite Hthrust, Hlib. cbn.
    destruct cuda_path as [p|]; [destruct (Py.is_empty p)|]; cbn;
      intros [= <- <-]; cbn; rewrite <- ?app_assoc; cbn;
      destruct (PLATFORM_WIN32 host), (nvtx_path host) as [nvtx|];
        try destruct (os_path_exists os nvtx); cbn;
        by rewrite <- ?app_assoc, ?app_nil_r.
Qed.

(** The only exception [get_compiler_setting] raises is the one that
    asks for hipCUB, and it raises it exactly when it is asked for HIP,
    the ROCm path is not empty and [<rocm>/include/hipcub] does not
    exist. *)
Theorem compiler_setting_hipcub (ctx : Context) (use_hip : bool)
    (s : Session) :
  _rocm_path (paths s) <> None ->
  (forall e, (get_compiler_setting host os ctx use_hip s).1 = Raise e ->
             e = Exception "Please install hipCUB and retry")
  /\ ((exists e, (get_compiler_setting host os ctx use_hip s).1 = Raise e)
      <-> use_hip = true
          /\ exists rocm_path,
               (get_rocm_path host s).1 = Ok (Some rocm_path)
               /\ Py.is_empty rocm_path = false
               /\ os_path_exists os (join3 os rocm_path "include" "hipcub")
                  = false).
Proof.
  intros Hnone.
  destruct (_rocm_path (paths s)) as [p0|] eqn:Hp0; [|done].
  assert (Hrocm : exists p s1, get_rocm_path host s = (Ok (Some p), s1)).
  { unfold get_rocm_path, mbind, T_bind, mret, T_ret, read, assign.
    rewrite Hp0. cbn. destruct (negb _); cbn; eauto. }
  destruct Hrocm as (p & s1 & Hrocm).
  assert (Hcuda : exists c s2, get_cuda_path host os s = (Ok c, s2)).
  { unfold get_cuda_path, mbind, T_bind, mret, T_ret, read, assign, in_world,
      print_warning, modify.
    repeat (cbn; innermost_case); cbn; eauto. }
  destruct Hcuda as (c & s2 & Hcuda).
  remember (get_compiler_setting host os ctx use_hip s).1 as r eqn:Hr.
  unfold get_compiler_setting in Hr.
  unfold mbind at 1 2 3 4, T_bind, mret, T_ret in Hr.
  destruct use_hip.
  - rewrite Hrocm in Hr. unfold assign at 1 in Hr. cbn beta iota in Hr.
    unfold choose_vendored, mbind, T_bind, mret, T_ret, assign, t_raise in Hr.
    destruct (negb (Py.is_empty p)) eqn:Hp.
    + destruct (os_path_exists os (join3 os p "include" "hipcub")) eqn:Hex;
        cbn in Hr; subst r.
      * split; [done|]. split; [by intros [e ?]|].
        rewrite Hrocm. intros (_ & p' & [= <-] & _ & Hex'). congruence.
      * split; [by intros e [= <-]|]. split; [|by eauto].
        intros _. split; [done|]. exists p. rewrite Hrocm.
        apply negb_true_iff in Hp. done.
    + cbn in Hr; subst r. split; [done|]. split; [by intros [e ?]|].
      rewrite Hrocm. intros (_ & p' & [= <-] & Hp' & _).
      apply negb_false_iff in Hp. congruence.
  - cbn beta iota in Hr. rewrite Hcuda in Hr.
    unfold assign at 1 in Hr. cbn beta iota in Hr.
    unfold choose_vendored, mbind, T_bind, mret, T_ret, assign in Hr.
    cbn in Hr; subst r.
    split; [done|]. split; [by intros [e ?]|]. by intros [? _].
Qed.

(** Asked for HIP while [ROCM_HOME] is not set, [get_compiler_setting]
    does not fail: it falls back on the CCCL bundle of the CUDA build,
    adds no directory of any toolkit to the library path, and still
    passes [-std=c++14]. *)
Theorem compiler_setting_hip_without_rocm (ctx : Context) (s : Session) :
  _rocm_path (paths s) = Some NOT_INITIALIZED ->
  environ host !! "ROCM_HOME" = None ->
  exists st s',
    get_compiler_setting host os ctx true s = (Ok st, s')
    /\ library_dirs st = ctx_library_dirs ctx
    /\ extra_compile_args st = ["-std=c++14"]
    /\ _rocm_path (paths s') = Some ""
    /\ _cub_path (paths s')
       = Some (os_path_join os
                 (os_path_join os (source_root host) "cupy/_core/include")
                 "cupy/_cccl/cub").
Proof.
  intros Hfresh Hhome.
  unfold get_compiler_setting, get_rocm_path, choose_vendored, add_rocm_dirs,
    add_cuda_dirs, environ_get.
  unfold mbind, T_bind, mret, T_ret, read, assign.
  rewrite Hfresh, Hhome. cbn. eexists _, _. repeat split.
Qed.

Lemma add_nvtx_macros (include_dirs : list string) :
  (add_nvtx host os include_dirs).2
  = if PLATFORM_WIN32 host
       && negb (match nvtx_path host with
                | Some nvtx => os_path_exists os nvtx
                | None => false
                end)
    then [("CUPY_NO_NVTX", VStr "1")] else [].
Proof.
  unfold add_nvtx.
  destruct (PLATFORM_WIN32 host); [|done].
  destruct (nvtx_path host) as [nvtx|]; [|done].
  by destruct (os_path_exists os nvtx).
Qed.

(** The one macro [get_compiler_setting] can define is [CUPY_NO_NVTX],
    and it defines it exactly on Windows when the NVTX path is unknown
    or names nothing that exists.  [check_nvtx] looks at less: whenever
    it answers [False] the macro is defined, but a path that is known
    and does not exist makes it answer [True] with the macro defined. *)
Theorem compiler_setting_nvtx (ctx : Context) (use_hip : bool)
    (s s' : Session) (st : Settings) (compiler : CCompiler) (settings : nat)
    (w : World) :
  get_compiler_setting host os ctx use_hip s = (Ok st, s') ->
  (define_macros st = [("CUPY_NO_NVTX", VStr "1")] \/ define_macros st = [])
  /\ (define_macros st = [("CUPY_NO_NVTX", VStr "1")]
      <-> PLATFORM_WIN32 host = true
          /\ forall nvtx, nvtx_path host = Some nvtx ->
                          os_path_exists os nvtx = false)
  /\ ((check_nvtx host compiler settings w).1 = Ok false ->
      define_macros st = [("CUPY_NO_NVTX", VStr "1")])
  /\ (PLATFORM_WIN32 host = true ->
      (exists nvtx, nvtx_path host = Some nvtx
                    /\ os_path_exists os nvtx = false) ->
      (check_nvtx host compiler settings w).1 = Ok true
      /\ define_macros st = [("CUPY_NO_NVTX", VStr "1")]).
Proof.
  unfold get_compiler_setting.
  unfold mbind at 1 2 3 4, T_bind, mret, T_ret.
  destruct ((if use_hip then get_rocm_path host else _) s)
    as [[rocm_path|e] s1]; [|done].
  cbn beta iota.
  destruct ((if use_hip then _ else get_cuda_path host os) s1)
    as [[cuda_path|e] s2]; [|done].
  unfold assign at 1. cbn beta iota.
  destruct (choose_vendored os rocm_path _ _) as [[vendored|e] s3]; [|done].
  intros [= <- <-]. cbn [define_macros].
  rewrite add_nvtx_macros. unfold check_nvtx, print_warning, modify.
  unfold mbind, M_bind, mret, M_ret.
  destruct (PLATFORM_WIN32 host); cbn.
  - destruct (nvtx_path host) as [nvtx|]; cbn.
    + destruct (os_path_exists os nvtx) eqn:Hex; cbn.
      * split; [by right|]. split; [|split; [done|]].
        -- split; [done|]. intros [_ Hall]. specialize (Hall nvtx eq_refl).
           congruence.
        -- intros _ (nvtx' & [= <-] & Hex'). congruence.
      * split; [by left|]. split; [|done].
        split; [|done]. intros _. split; [done|]. by intros ? [= <-].
    + split; [by left|]. split; [|split; [done|]].
      * split; [|done]. intros _. split; [done|]. by intros ? [=].
      * by intros _ (nvtx' & [=] & _).
  - split; [by right|]. split; [|done].
    split; [done|]. by intros [[=] _].
Qed.

End SettingFacts.

(** A CUDA build on Linux, then a ROCm build with hipCUB. *)
Lemma compiler_setting_layout_witness :
  (include_dirs cuda_setting
   = ["/src/cupy/cupy/_core/include/cupy/_cccl/libcudacxx";
      "/src/cupy/cupy/_core/include/cupy/_cccl/thrust";
      "/src/cupy/cupy/_core/include/cupy/_cccl/cub";
      "/src/cupy/cupy/_core/include";
      "/opt/include"; "/opt/cuda/include"]
   /\ library_dirs cuda_setting
      = ["/opt/lib"; "/opt/cuda/lib64"; "/opt/cuda/lib"])
  /\ exists st s',
       get_compiler_setting rocm_host
         (sample_os ["/opt/rocm/include/hipcub"]) sample_ctx true
         fresh_session = (Ok st, s')
       /\ include_dirs st
          = ["/opt/rocm/include/hipcub"; "/src/cupy/cupy/_core/include";
             "/opt/include"; "/opt/rocm/include"; "/opt/rocm/include/hip";
             "/opt/rocm/include/rocrand"; "/opt/rocm/include/hiprand";
             "/opt/rocm/include/roctracer"; "/opt/rocm/include/hipblas";
             "/opt/rocm/include/hipsparse"; "/opt/rocm/include/hipfft";
             "/opt/rocm/include/rocsolver"; "/opt/rocm/include/rccl"]
       /\ library_dirs st = ["/opt/lib"; "/opt/rocm/lib"].
Proof.
  split.
  - destruct (compiler_setting_layout cuda_host (sample_os ["/opt/cuda"])
                sample_ctx false fresh_session
                (get_compiler_setting cuda_host (sample_os ["/opt/cuda"])
                   sample_ctx false fresh_session).2
                cuda_setting path_join_nonempty)
      as ((Hinc & Hlib & _) & _); [vm_compute; reflexivity|].
    split; [exact Hinc | exact Hlib].
  - eexists _, _. split; [vm_compute; reflexivity|].
    destruct (compiler_setting_layout rocm_host
                (sample_os ["/opt/rocm/include/hipcub"]) sample_ctx true
                fresh_session _ _ path_join_nonempty eq_refl)
      as ((Hinc & Hlib & _) & _).
    split; [exact Hinc | exact Hlib].
Defined.

(** ROCm without hipCUB. *)
Lemma compiler_setting_hipcub_witness :
  (get_compiler_setting rocm_host (sample_os ["/opt/rocm"]) sample_ctx true
     fresh_session).1
  = Raise (Exception "Please install hipCUB and retry").
Proof.
  destruct (compiler_setting_hipcub rocm_host (sample_os ["/opt/rocm"])
              sample_ctx true fresh_session) as [Hexn [_ Hraises]];
    [discriminate|].
  destruct Hraises as [e He].
  - split; [reflexivity|]. exists "/opt/rocm". repeat split.
  - rewrite He. f_equal. exact (Hexn e He).
Defined.

(** HIP on a machine without ROCm. *)
Lemma compiler_setting_hip_without_rocm_witness :
  exists st s',
    get_compiler_setting (env_host ∅) (sample_os []) sample_ctx true
      fresh_session = (Ok st, s')
    /\ library_dirs st = ["/opt/lib"]
    /\ extra_compile_args st = ["-std=c++14"]
    /\ _rocm_path (paths s') = Some ""
    /\ _cub_path (paths s')
       = Some "/src/cupy/cupy/_core/include/cupy/_cccl/cub".
Proof.
  exact (compiler_setting_hip_without_rocm (env_host ∅) (sample_os [])
           sample_ctx fresh_session eq_refl eq_refl).
Defined.

(** Windows with an NVTX path that names nothing. *)
Lemma compiler_setting_nvtx_witness :
  (check_nvtx win_host working_compiler 0 sample_world).1 = Ok true
  /\ define_macros win_setting = [("CUPY_NO_NVTX", VStr "1")].
Proof.
  destruct (compiler_setting_nvtx win_host (sample_os []) sample_ctx false
              fresh_session
              (get_compiler_setting win_host (sample_os []) sample_ctx false
                 fresh_session).2
              win_setting working_compiler 0 sample_world)
    as (_ & _ & _ & H); [vm_compute; reflexivity|].
  apply H; [reflexivity|]. exists "/nvtx". split; reflexivity.
Defined.
